(** * A shallow embedding of the terminal messaging core

    The development follows the Python sources module by module:

    - [Terminal]            src/ai/terminal.py             (AITerminal)
    - [Conversation]        src/ai/conversation.py         (ConversationManager)
    - [Websocket]           src/api/websocket.py           (ConnectionManager)
    - [ConversationService] src/services/conversation_service.py
    - [Messaging]           src/services/messaging_service.py, with the
                            [Message] class of src/database/models.py

    Python objects are records, dictionaries are [gmap]s, sets are [gset]s,
    lists are lists.  A coroutine is a function from the state before the
    call to the state after it, paired with its outcome: Python keeps every
    mutation made before an exception is raised, so the state is returned
    in both cases.  Wall-clock readings ([datetime.now()], [utcnow()]) are
    arguments, in microseconds. *)

From Stdlib Require Import ZArith Lia List Bool.
From stdpp Require Import base option list gmap strings pretty.

Local Open Scope string_scope.
Local Open Scope list_scope.
Local Open Scope nat_scope.

(** ** Python exceptions and outcomes *)

Inductive Exn : Type :=
  | RuntimeError (msg : string)
  | AttributeError (attr : string)
  | KeyError (key : string)
  | RecursionError
  | ValueError (msg : string)
  | TypeError (msg : string)
  | TimeoutError
  | QueueFull
  | QueueEmpty
  | WebSocketDisconnect
  | GenerationError
  | SQLAlchemyError
  | ConversationError (msg : string)
  | ConversationServiceError (msg : string)
  | ConversationRateLimitError (msg : string)
  | MessagingError (msg : string).

Global Instance Exn_eq_dec : EqDecision Exn.
Proof. solve_decision. Defined.

(** [str(e)] for the exceptions whose text is reused in a wrapper. *)
Definition str_exn (e : Exn) : string :=
  match e with
  | RuntimeError m | ValueError m | TypeError m | ConversationError m
  | ConversationServiceError m | ConversationRateLimitError m | MessagingError m => m
  | AttributeError a => "object has no attribute '" +:+ a +:+ "'"
  | KeyError k => k
  | RecursionError => "maximum recursion depth exceeded"
  | TimeoutError => ""
  | QueueFull => ""
  | QueueEmpty => ""
  | WebSocketDisconnect => "WebSocketDisconnect"
  | GenerationError => "GenerationError"
  | SQLAlchemyError => "SQLAlchemyError"
  end.

Inductive Outcome (A : Type) : Type :=
  | Returned (a : A)
  | Raised (e : Exn).
Arguments Returned {A} a.
Arguments Raised {A} e.

Definition returned {A} (o : Outcome A) : bool :=
  match o with Returned _ => true | Raised _ => false end.

(** ** Python list slicing: [l[-n:]] *)

Definition py_suffix {A} (n : nat) (l : list A) : list A :=
  match n with
  | O => l
  | _ => drop (length l - n) l
  end.

(** * src/ai/terminal.py *)

Module Terminal.

Inductive TerminalStatus := IDLE | ACTIVE | ERROR | MAINTENANCE.

Global Instance TerminalStatus_eq_dec : EqDecision TerminalStatus.
Proof. solve_decision. Defined.

Inductive MetaValue := MStr (s : string) | MInt (n : nat).

Record Message := mkMessage {
    content : string;
    timestamp : Z;
    sender_id : string;
    conversation_id : string;
    message_id : N;
    metadata : list (string * MetaValue)
  }.

Record AITerminal := mkTerminal {
    terminal_id : string;
    model_type : string;
    conversation_history : list Message;
    active_conversations : gset string;
    status : TerminalStatus;
    current_conversation_id : option string
  }.

Definition MAX_HISTORY_SIZE : nat := 1000.
Definition RESPONSE_TIMEOUT : Z := 30%Z.
Definition MAX_RETRIES : nat := 3.

  (** The terminal objects, addressed by their identifier, the class-level
      [TerminalRegistry._terminals] (the identifiers registered) and the
      supply of [uuid4] values. *)
Record System := mkSystem {
    terminals : gmap string AITerminal;
    registry : gset string;
    next_uuid : N
  }.

  (** [AITerminal.__init__] *)
Definition init (S : System) (tid mtype : string) : System :=
    {| terminals :=
         <[tid := {| terminal_id := tid; model_type := mtype;
                     conversation_history := [];
                     active_conversations := ∅;
                     status := IDLE;
                     current_conversation_id := None |}]> (terminals S);
       registry := {[tid]} ∪ registry S;
       next_uuid := next_uuid S |}.

  (** [AITerminal._add_to_history], on the history list. *)
Definition _add_to_history (h : list Message) (message : Message) : list Message :=
    let h' := h ++ [message] in
    if decide (MAX_HISTORY_SIZE < length h')
    then py_suffix MAX_HISTORY_SIZE h'
    else h'.

Definition with_history (t : AITerminal) (h : list Message) : AITerminal :=
    {| terminal_id := terminal_id t; model_type := model_type t;
       conversation_history := h;
       active_conversations := active_conversations t;
       status := status t;
       current_conversation_id := current_conversation_id t |}.

Definition with_status (t : AITerminal) (s : TerminalStatus) : AITerminal :=
    {| terminal_id := terminal_id t; model_type := model_type t;
       conversation_history := conversation_history t;
       active_conversations := active_conversations t;
       status := s;
       current_conversation_id := current_conversation_id t |}.

Definition update_terminal (S : System) (tid : string) (f : AITerminal → AITerminal) : System :=
    {| terminals := alter f tid (terminals S);
       registry := registry S;
       next_uuid := next_uuid S |}.

Definition add_to_history (S : System) (tid : string) (message : Message) : System :=
    update_terminal S tid
      (λ t, with_history t (_add_to_history (conversation_history t) message)).

Definition fresh_uuid (S : System) : N * System :=
    (next_uuid S,
     {| terminals := terminals S; registry := registry S;
        next_uuid := N.succ (next_uuid S) |}).

  (** [TerminalRegistry.get_terminal] *)
Definition get_terminal (S : System) (tid : string) : option string :=
    if decide (tid ∈ registry S) then
      match terminals S !! tid with Some _ => Some tid | None => None end
    else None.

Section Operations.

    (** [generate_response] under [asyncio.wait_for]: the text produced from
        the receiving terminal and the message, or the exception that ends
        the attempt (a timeout or a generation failure). *)
Variable generate_response : AITerminal → Message → Outcome string.

    (** [send_message] and [receive_message] call each other through
        [_deliver_message]; [depth] is the interpreter's remaining call depth,
        at which Python raises [RecursionError]. *)
Fixpoint send_message (depth : nat) (S : System) (self : string)
        (content : string) (recipient : string) (now : Z) {struct depth}
        : System * Outcome unit :=
      match depth with
      | O => (S, Raised RecursionError)
      | Datatypes.S depth' =>
        match terminals S !! self with
        | None => (S, Raised (AttributeError "terminal"))
        | Some t =>
          match current_conversation_id t with
          | None | Some "" => (S, Raised (RuntimeError "No active conversation"))
          | Some cid =>
            let '(mid, S1) := fresh_uuid S in
            let message :=
              {| content := content; timestamp := now;
                 sender_id := terminal_id t; conversation_id := cid;
                 message_id := mid;
                 metadata := [("model_type", MStr (model_type t));
                              ("sequence_number",
                               MInt (length (conversation_history t)))] |} in
            let S2 := add_to_history S1 self message in
            (* _deliver_message: log and re-raise *)
            receive_message depth' S2 recipient message now
          end
        end
      end
    with receive_message (depth : nat) (S : System) (self : string)
        (message : Message) (now : Z) {struct depth}
        : System * Outcome unit :=
      match depth with
      | O => (S, Raised RecursionError)
      | Datatypes.S depth' =>
        match terminals S !! self with
        | None => (S, Raised (AttributeError "terminal"))
        | Some _ =>
          let S1 := add_to_history S self message in
          match terminals S1 !! self with
          | None => (S1, Raised (AttributeError "terminal"))
          | Some t =>
            if decide (conversation_id message ∈ active_conversations t) then
              match generate_response t message with
              | Raised TimeoutError => (S1, Returned tt)
              | Raised _ => (update_terminal S1 self (λ t, with_status t ERROR), Returned tt)
              | Returned response =>
                match get_terminal S1 (sender_id message) with
                | None => (S1, Returned tt)
                | Some sender =>
                  match send_message depth' S1 self response sender now with
                  | (S2, Returned _) => (S2, Returned tt)
                  | (S2, Raised TimeoutError) => (S2, Returned tt)
                  | (S2, Raised _) =>
                    (update_terminal S2 self (λ t, with_status t ERROR), Returned tt)
                  end
                end
              end
            else (S1, Returned tt)
          end
        end
      end.

    (** An operation invoked from outside on one of the terminals. *)
Inductive Op :=
      | OpSend (self content recipient : string) (now : Z)
      | OpReceive (self : string) (message : Message) (now : Z).

Definition run_op (depth : nat) (S : System) (op : Op) : System :=
      match op with
      | OpSend self content recipient now =>
          fst (send_message depth S self content recipient now)
      | OpReceive self message now =>
          fst (receive_message depth S self message now)
      end.

Definition run_ops (depth : nat) (S : System) (ops : list Op) : System :=
      foldl (run_op depth) S ops.

End Operations.

Definition history_bounded (S : System) : Prop :=
    map_Forall (λ _ t, length (conversation_history t) ≤ MAX_HISTORY_SIZE)
               (terminals S).

  (** A concrete run: terminal [t1] has started conversation [c1] and its
      history already holds 1000 messages; it sends one more to [t2]. *)
Definition example_generate : AITerminal → Message → Outcome string :=
    λ _ _, Returned "Echoing through the void...".

Definition example_message (n : N) : Message :=
    {| content := "ping"; timestamp := 0%Z; sender_id := "t1";
       conversation_id := "c1"; message_id := n; metadata := [] |}.

Definition example_system : System :=
    {| terminals :=
         <["t1" := {| terminal_id := "t1"; model_type := "gpt";
                      conversation_history :=
                        example_message <$> (N.of_nat <$> seq 0 1000);
                      active_conversations := {["c1"]};
                      status := ACTIVE;
                      current_conversation_id := Some "c1" |}]>
         (<["t2" := {| terminal_id := "t2"; model_type := "gpt";
                       conversation_history := [];
                       active_conversations := ∅;
                       status := IDLE;
                       current_conversation_id := None |}]> ∅);
       registry := {["t1"; "t2"]};
       next_uuid := 1000%N |}.

Definition example_ops : list Op :=
    [OpSend "t1" "hello" "t2" 5%Z; OpSend "t2" "reply" "t1" 6%Z;
     OpReceive "t1" (example_message 2000) 7%Z].

(** [_prepare_conversation_context], its ["history"] entry: the last five
    messages on record. *)
Definition context_history (t : AITerminal) : list Message :=
  py_suffix 5 (conversation_history t).

(** The loop of [generate_response].  [model i] is the outcome of the
    [_generate_model_response] call made after [i] failures; the second
    component lists the seconds slept between attempts.  [None] stands for
    the loop ending without a [return]. *)
Fixpoint retry_loop (model : nat → Outcome string) (rounds retries : nat)
    : Outcome (option string) * list nat :=
  match rounds with
  | O => (Returned None, [])
  | Datatypes.S rounds' =>
      if decide (retries < MAX_RETRIES) then
        match model retries with
        | Returned response => (Returned (Some response), [])
        | Raised e =>
            let retries' := retries + 1 in
            if decide (retries' = MAX_RETRIES) then (Raised e, [])
            else
              let '(o, slept) := retry_loop model rounds' retries' in
              (o, 1 * retries' :: slept)
        end
      else (Returned None, [])
  end.

(** [generate_response]; [rounds] bounds the iterations of its loop. *)
Definition generate_response_retrying (model : nat → Outcome string) (rounds : nat)
    : Outcome (option string) * list nat :=
  retry_loop model rounds 0.

(** [str(uuid.uuid4())] for the conversation identifiers. *)
Definition uuid_string (n : N) : string := pretty n.

(** [generate_initial_message]; [stamp] is the formatted current time. *)
Definition generate_initial_message (t : AITerminal) (stamp : string) : string :=
  "[" +:+ stamp +:+ "] Terminal " +:+ terminal_id t
    +:+ " initiating void conversation protocol...".

Definition with_conversation (t : AITerminal) (cid : string) : AITerminal :=
  {| terminal_id := terminal_id t; model_type := model_type t;
     conversation_history := conversation_history t;
     active_conversations := {[cid]} ∪ active_conversations t;
     status := ACTIVE;
     current_conversation_id := Some cid |}.

(** [end_conversation], on the terminal object. *)
Definition end_conversation_terminal (t : AITerminal) (cid : string) : AITerminal :=
  if decide (cid ∈ active_conversations t) then
    let remaining := active_conversations t ∖ {[cid]} in
    if decide (remaining = ∅) then
      {| terminal_id := terminal_id t; model_type := model_type t;
         conversation_history := conversation_history t;
         active_conversations := remaining;
         status := IDLE;
         current_conversation_id := None |}
    else
      {| terminal_id := terminal_id t; model_type := model_type t;
         conversation_history := conversation_history t;
         active_conversations := remaining;
         status := status t;
         current_conversation_id := current_conversation_id t |}
  else t.

(** [end_conversation] *)
Definition end_conversation (S : System) (self cid : string) : System :=
  update_terminal S self (λ t, end_conversation_terminal t cid).

(** [cleanup]: every active conversation is ended, the terminal leaves the
    registry and its history is cleared. *)
Definition cleanup (S : System) (self : string) : System :=
  match terminals S !! self with
  | None => S
  | Some t =>
      let S1 := foldl (λ S' cid, end_conversation S' self cid) S
                      (elements (active_conversations t)) in
      {| terminals := alter (λ t', with_history t' []) self (terminals S1);
         registry := registry S1 ∖ {[self]};
         next_uuid := next_uuid S1 |}
  end.

Section Lifecycle.

Variable generate_response : AITerminal → Message → Outcome string.

(** [start_conversation] *)
Definition start_conversation (depth : nat) (S : System) (self other : string)
    (now : Z) (stamp : string) : System * Outcome string :=
  match terminals S !! self with
  | None => (S, Raised (AttributeError "terminal"))
  | Some t =>
      if decide (status t = IDLE) then
        let '(n, S1) := fresh_uuid S in
        let cid := uuid_string n in
        let S2 := update_terminal S1 self (λ t', with_conversation t' cid) in
        match send_message generate_response depth S2 self
                (generate_initial_message t stamp) other now with
        | (S3, Returned _) => (S3, Returned cid)
        | (S3, Raised e) =>
            (update_terminal S3 self (λ t', with_status t' ERROR), Raised e)
        end
      else
        (S, Raised (RuntimeError
                      ("Terminal " +:+ terminal_id t
                         +:+ " is not available for conversation")))
  end.

(** The calls made on the terminals of a system. *)
Inductive Call :=
  | CallInit (tid mtype : string)
  | CallStart (self other : string) (now : Z) (stamp : string)
  | CallEnd (self cid : string)
  | CallSend (self content recipient : string) (now : Z)
  | CallReceive (self : string) (message : Message) (now : Z)
  | CallCleanup (self : string).

Definition run_call (depth : nat) (S : System) (call : Call) : System :=
  match call with
  | CallInit tid mtype => init S tid mtype
  | CallStart self other now stamp => (start_conversation depth S self other now stamp).1
  | CallEnd self cid => end_conversation S self cid
  | CallSend self content recipient now =>
      (send_message generate_response depth S self content recipient now).1
  | CallReceive self message now =>
      (receive_message generate_response depth S self message now).1
  | CallCleanup self => cleanup S self
  end.

Definition run_calls (depth : nat) (S : System) (calls : list Call) : System :=
  foldl (run_call depth) S calls.

End Lifecycle.

(** No terminal constructed yet. *)
Definition empty_system : System :=
  {| terminals := ∅; registry := ∅; next_uuid := 0%N |}.

(** A terminal holds at most one conversation, and none while idle. *)
Definition single_conversation (t : AITerminal) : Prop :=
  (status t = IDLE → active_conversations t = ∅)
  ∧ size (active_conversations t) ≤ 1.

(** Two idle terminals, [a] and [b]. *)
Definition example_pair : System := init (init empty_system "a" "gpt") "b" "gpt".

End Terminal.

(** * src/ai/conversation.py *)

Module Conversation.

Inductive ConversationStatus := ACTIVE | PAUSED | ENDED | ERROR.

Definition status_value (s : ConversationStatus) : string :=
    match s with
    | ACTIVE => "active" | PAUSED => "paused"
    | ENDED => "ended" | ERROR => "error"
    end.

Global Instance ConversationStatus_eq_dec : EqDecision ConversationStatus.
Proof. solve_decision. Defined.

Definition Metadata := list (string * string).

Record Message := mkMessage {
    msg_id : string;
    msg_conversation_id : string;
    msg_content : string;
    msg_sender_id : string;
    msg_timestamp : Z;
    msg_metadata : Metadata;
    msg_processed : bool
  }.

  (** A [Conversation] is a [TypedDict], at run time a plain [dict] holding
      exactly these eight string keys. *)
Record Conversation := mkConversation {
    id : string;
    terminal1_id : string;
    terminal2_id : string;
    start_time : Z;
    last_activity : Z;
    status : ConversationStatus;
    messages : list Message;
    metadata : Metadata
  }.

  (** The values a subscript on a conversation can yield. *)
Inductive Value :=
    | VStr (s : string)
    | VTime (t : Z)
    | VStatus (s : ConversationStatus)
    | VMessages (l : list Message)
    | VMetadata (m : Metadata).

  (** The keys a subscript is written with: [d['k']] or [d['k', v]], the
      latter being the tuple [('k', v)]. *)
Inductive Key :=
    | KStr (k : string)
    | KTuple (k : string) (v : string).

Definition repr_key (k : Key) : string :=
    match k with
    | KStr k => "'" +:+ k +:+ "'"
    | KTuple k v => "('" +:+ k +:+ "', '" +:+ v +:+ "')"
    end.

  (** [conversation[key]] *)
Definition getitem (c : Conversation) (key : Key) : Outcome Value :=
    match key with
    | KStr "id" => Returned (VStr (id c))
    | KStr "terminal1_id" => Returned (VStr (terminal1_id c))
    | KStr "terminal2_id" => Returned (VStr (terminal2_id c))
    | KStr "start_time" => Returned (VTime (start_time c))
    | KStr "last_activity" => Returned (VTime (last_activity c))
    | KStr "status" => Returned (VStatus (status c))
    | KStr "messages" => Returned (VMessages (messages c))
    | KStr "metadata" => Returned (VMetadata (metadata c))
    | _ => Raised (KeyError (repr_key key))
    end.

Fixpoint is_prefix (a b : string) : bool :=
    match a, b with
    | EmptyString, _ => true
    | String x a', String y b' => if Ascii.eqb x y then is_prefix a' b' else false
    | String _ _, EmptyString => false
    end.

Fixpoint is_substring (a b : string) : bool :=
    is_prefix a b ||
    match b with
    | EmptyString => false
    | String _ b' => is_substring a b'
    end.

  (** [x in v] for a string [x]: substring test on a string, membership of
      the key in a dictionary, and for the other values a comparison that no
      element satisfies. *)
Definition contains (v : Value) (x : string) : Outcome bool :=
    match v with
    | VStr s => Returned (is_substring x s)
    | VMessages _ => Returned false
    | VMetadata m => Returned (bool_decide (x ∈ m.*1))
    | VTime _ | VStatus _ => Raised (RuntimeError "argument is not iterable")
    end.

Record Config := mkConfig {
    max_conversations : Z;
    message_limit : Z;
    idle_timeout : Z;
    backup_interval : Z
  }.

Definition default_config : Config :=
    {| max_conversations := 1000%Z; message_limit := 1000%Z;
       idle_timeout := 30%Z; backup_interval := 15%Z |}.

Record ConversationManager := mkManager {
    config : Config;
    active_conversations : gmap string Conversation;
    conversation_pairs : gmap string (string * string);
    terminal_conversations : gmap string (gset string)
  }.

  (** [ConversationManager.__init__]; [cfg] is the default configuration
      updated with the caller's entries. *)
Definition init (cfg : Config) : ConversationManager :=
    {| config := cfg;
       active_conversations := ∅;
       conversation_pairs := ∅;
       terminal_conversations := ∅ |}.

  (** [_generate_conversation_id]; [stamp] is the formatted current time. *)
Definition _generate_conversation_id (terminal1_id terminal2_id stamp : string) : string :=
    "conv-" +:+ terminal1_id +:+ "-" +:+ terminal2_id +:+ "-" +:+ stamp.

Definition add_terminal_conversation (tc : gmap string (gset string))
      (terminal_id conversation_id : string) : gmap string (gset string) :=
    <[terminal_id := {[conversation_id]} ∪ default ∅ (tc !! terminal_id)]> tc.

  (** The [try] block of [create_conversation]. *)
Definition create_conversation_body (M : ConversationManager)
      (t1 t2 : string) (meta : option Metadata) (now : Z) (stamp : string)
      : ConversationManager * Outcome string :=
    if decide (max_conversations (config M) ≤ Z.of_nat (size (active_conversations M)))%Z
    then (M, Raised (ConversationError "Maximum number of active conversations reached"))
    else
      let conversation_id := _generate_conversation_id t1 t2 stamp in
      let conversation :=
        {| id := conversation_id; terminal1_id := t1; terminal2_id := t2;
           start_time := now; last_activity := now; status := ACTIVE;
           messages := []; metadata := default [] meta |} in
      ({| config := config M;
          active_conversations := <[conversation_id := conversation]> (active_conversations M);
          conversation_pairs := <[conversation_id := (t1, t2)]> (conversation_pairs M);
          terminal_conversations :=
            add_terminal_conversation
              (add_terminal_conversation (terminal_conversations M) t1 conversation_id)
              t2 conversation_id |},
       Returned conversation_id).

  (** [except Exception as e: raise ConversationError(prefix + str(e))] *)
Definition wrap_error {A} (prefix : string) (r : ConversationManager * Outcome A)
      : ConversationManager * Outcome A :=
    match r with
    | (M, Returned a) => (M, Returned a)
    | (M, Raised e) => (M, Raised (ConversationError (prefix +:+ str_exn e)))
    end.

Definition create_conversation (M : ConversationManager)
      (t1 t2 : string) (meta : option Metadata) (now : Z) (stamp : string)
      : ConversationManager * Outcome string :=
    wrap_error "Failed to create conversation: "
      (create_conversation_body M t1 t2 meta now stamp).

Definition set_conversation (M : ConversationManager) (cid : string)
      (c : Conversation) : ConversationManager :=
    {| config := config M;
       active_conversations := <[cid := c]> (active_conversations M);
       conversation_pairs := conversation_pairs M;
       terminal_conversations := terminal_conversations M |}.

  (** The [try] block of [add_message].  The membership test of line 174
      subscripts the conversation with the pair
      [('terminal1_id', conversation['terminal2_id'])]. *)
Definition add_message_body (M : ConversationManager)
      (conversation_id content sender_id : string) (meta : option Metadata)
      (now : Z) : ConversationManager * Outcome string :=
    match active_conversations M !! conversation_id with
    | None =>
        (M, Raised (ConversationError ("Conversation " +:+ conversation_id +:+ " not found")))
    | Some conversation =>
        if negb (bool_decide (status conversation = ACTIVE)) then
          (M, Raised (ConversationError
                        ("Conversation " +:+ conversation_id +:+ " is "
                           +:+ status_value (status conversation))))
        else if decide (message_limit (config M) ≤ Z.of_nat (length (messages conversation)))%Z then
          (M, Raised (ConversationError "Message limit reached for conversation"))
        else
          match getitem conversation (KTuple "terminal1_id" (terminal2_id conversation)) with
          | Raised e => (M, Raised e)
          | Returned participants =>
            match contains participants sender_id with
            | Raised e => (M, Raised e)
            | Returned false =>
                (M, Raised (ConversationError "Sender is not part of the conversation"))
            | Returned true =>
                let message :=
                  {| msg_id := "msg-" +:+ pretty (length (messages conversation))
                                 +:+ "-" +:+ pretty now;
                     msg_conversation_id := conversation_id;
                     msg_content := content;
                     msg_sender_id := sender_id;
                     msg_timestamp := now;
                     msg_metadata := default [] meta;
                     msg_processed := false |} in
                let conversation' :=
                  {| id := id conversation;
                     terminal1_id := terminal1_id conversation;
                     terminal2_id := terminal2_id conversation;
                     start_time := start_time conversation;
                     last_activity := now;
                     status := status conversation;
                     messages := messages conversation ++ [message];
                     metadata := metadata conversation |} in
                (set_conversation M conversation_id conversation',
                 Returned (msg_id message))
            end
          end
    end.

Definition add_message (M : ConversationManager)
      (conversation_id content sender_id : string) (meta : option Metadata)
      (now : Z) : ConversationManager * Outcome string :=
    wrap_error "Failed to add message: "
      (add_message_body M conversation_id content sender_id meta now).

  (** A manager holding one conversation between [t1] and [t2]. *)
Definition example_manager : ConversationManager :=
    (create_conversation (init default_config) "t1" "t2" None 0%Z "20240101-000000-000000").1.

Definition example_conversation_id : string :=
    _generate_conversation_id "t1" "t2" "20240101-000000-000000".

(** [l[-limit:]] for an integer [limit]: the last [limit] elements when it
    is positive, the list without its first [-limit] elements when it is
    negative, and the whole list for zero. *)
Definition py_tail_slice {A} (limit : Z) (l : list A) : list A :=
  if decide (0 < limit)%Z then drop (length l - Z.to_nat limit) l
  else if decide (limit < 0)%Z then drop (Z.to_nat (- limit)) l
  else l.

(** The [try] block of [get_conversation_history]; an absent filter is
    [None], and so is a limit of zero to the test [if limit:]. *)
Definition get_conversation_history_body (M : ConversationManager)
    (conversation_id : string) (start_time end_time : option Z) (limit : option Z)
    : Outcome (list Message) :=
  match active_conversations M !! conversation_id with
  | None =>
      Raised (ConversationError ("Conversation " +:+ conversation_id +:+ " not found"))
  | Some conversation =>
      let messages1 :=
        match start_time with
        | Some t => filter (λ m, (t ≤ msg_timestamp m)%Z) (messages conversation)
        | None => messages conversation
        end in
      let messages2 :=
        match end_time with
        | Some t => filter (λ m, (msg_timestamp m ≤ t)%Z) messages1
        | None => messages1
        end in
      Returned
        match limit with
        | None | Some 0%Z => messages2
        | Some n => py_tail_slice n messages2
        end
  end.

(** [get_conversation_history] *)
Definition get_conversation_history (M : ConversationManager)
    (conversation_id : string) (start_time end_time : option Z) (limit : option Z)
    : Outcome (list Message) :=
  match get_conversation_history_body M conversation_id start_time end_time limit with
  | Returned l => Returned l
  | Raised e =>
      Raised (ConversationError ("Failed to get conversation history: " +:+ str_exn e))
  end.

(** [d[k] = v] on a metadata dictionary. *)
Fixpoint meta_set (d : Metadata) (k v : string) : Metadata :=
  match d with
  | [] => [(k, v)]
  | (k', v') :: d' =>
      if decide (k' = k) then (k, v) :: d' else (k', v') :: meta_set d' k v
  end.

(** [self.terminal_conversations[terminal_id].remove(conversation_id)],
    guarded by [if terminal_id in self.terminal_conversations]; [set.remove]
    raises [KeyError] for an element that is not there. *)
Definition remove_terminal_conversation (tc : gmap string (gset string))
    (terminal_id conversation_id : string) : Outcome (gmap string (gset string)) :=
  match tc !! terminal_id with
  | None => Returned tc
  | Some s =>
      if decide (conversation_id ∈ s)
      then Returned (<[terminal_id := s ∖ {[conversation_id]}]> tc)
      else Raised (KeyError ("'" +:+ conversation_id +:+ "'"))
  end.

(** The [try] block of [end_conversation].  The values written into the
    metadata are kept as text. *)
Definition end_conversation_body (M : ConversationManager) (conversation_id : string)
    (reason : option string) (now : Z) : ConversationManager * Outcome unit :=
  match active_conversations M !! conversation_id with
  | None =>
      (M, Raised (ConversationError ("Conversation " +:+ conversation_id +:+ " not found")))
  | Some conversation =>
      let conversation' :=
        {| id := id conversation;
           terminal1_id := terminal1_id conversation;
           terminal2_id := terminal2_id conversation;
           start_time := start_time conversation;
           last_activity := last_activity conversation;
           status := ENDED;
           messages := messages conversation;
           metadata := meta_set (meta_set (metadata conversation)
                                   "end_reason" (default "None" reason))
                                "end_time" (pretty now) |} in
      let M1 := set_conversation M conversation_id conversation' in
      match conversation_pairs M1 !! conversation_id with
      | None => (M1, Raised (KeyError ("'" +:+ conversation_id +:+ "'")))
      | Some (t1, t2) =>
          match remove_terminal_conversation (terminal_conversations M1) t1
                  conversation_id with
          | Raised e => (M1, Raised e)
          | Returned tc1 =>
              let M2 := {| config := config M1;
                           active_conversations := active_conversations M1;
                           conversation_pairs := conversation_pairs M1;
                           terminal_conversations := tc1 |} in
              match remove_terminal_conversation tc1 t2 conversation_id with
              | Raised e => (M2, Raised e)
              | Returned tc2 =>
                  ({| config := config M1;
                      active_conversations :=
                        delete conversation_id (active_conversations M1);
                      conversation_pairs :=
                        delete conversation_id (conversation_pairs M1);
                      terminal_conversations := tc2 |},
                   Returned tt)
              end
          end
      end
  end.

(** [end_conversation] *)
Definition end_conversation (M : ConversationManager) (conversation_id : string)
    (reason : option string) (now : Z) : ConversationManager * Outcome unit :=
  wrap_error "Failed to end conversation: "
    (end_conversation_body M conversation_id reason now).

(** The calls made on a manager. *)
Inductive Call :=
  | CallCreate (t1 t2 : string) (meta : option Metadata) (now : Z) (stamp : string)
  | CallAdd (conversation_id content sender_id : string) (meta : option Metadata) (now : Z)
  | CallEnd (conversation_id : string) (reason : option string) (now : Z).

Definition run_call (M : ConversationManager) (call : Call) : ConversationManager :=
  match call with
  | CallCreate t1 t2 meta now stamp => (create_conversation M t1 t2 meta now stamp).1
  | CallAdd cid content sender meta now => (add_message M cid content sender meta now).1
  | CallEnd cid reason now => (end_conversation M cid reason now).1
  end.

Definition run_calls (M : ConversationManager) (calls : list Call) : ConversationManager :=
  foldl run_call M calls.

(** The conversation [create_conversation] puts on record. *)
Definition new_conversation (t1 t2 : string) (meta : option Metadata) (now : Z)
    (stamp : string) : Conversation :=
  {| id := _generate_conversation_id t1 t2 stamp; terminal1_id := t1;
     terminal2_id := t2; start_time := now; last_activity := now;
     status := ACTIVE; messages := []; metadata := default [] meta |}.

(** The message lies within the time filters given. *)
Definition in_range (start_time end_time : option Z) (m : Message) : Prop :=
  (∀ t, start_time = Some t → (t ≤ msg_timestamp m)%Z)
  ∧ (∀ t, end_time = Some t → (msg_timestamp m ≤ t)%Z).

(** A manager whose one conversation holds three messages, stamped 1, 2
    and 3. *)
Definition example_history_message (t : Z) : Message :=
  {| msg_id := "msg-" +:+ pretty t; msg_conversation_id := "c";
     msg_content := "hello"; msg_sender_id := "t1"; msg_timestamp := t;
     msg_metadata := []; msg_processed := false |}.

Definition example_history_conversation : Conversation :=
  {| id := "c"; terminal1_id := "t1"; terminal2_id := "t2";
     start_time := 0%Z; last_activity := 3%Z; status := ACTIVE;
     messages := example_history_message <$> [1; 2; 3]%Z; metadata := [] |}.

Definition example_history_manager : ConversationManager :=
  {| config := default_config;
     active_conversations := {[ "c" := example_history_conversation ]};
     conversation_pairs := {[ "c" := ("t1", "t2") ]};
     terminal_conversations := {[ "t1" := {[ "c" ]}; "t2" := {[ "c" ]} ]} |}.

(** The managers reached from a fresh one by calls of [create_conversation],
    [add_message] and [end_conversation]; the periodic clean-up and
    [cleanup] change the manager through [end_conversation] only. *)
Definition reachable (cfg : Config) (M : ConversationManager) : Prop :=
  ∃ calls, M = run_calls (init cfg) calls.

End Conversation.

(** * src/api/websocket.py *)

Module Websocket.

Inductive ConnectionState := CONNECTED | DISCONNECTED | ERROR | RECONNECTING.

Global Instance ConnectionState_eq_dec : EqDecision ConnectionState.
Proof. solve_decision. Defined.

  (** The transport's own view of the client side of the socket. *)
Inductive WebSocketState := WS_CONNECTING | WS_CONNECTED | WS_DISCONNECTED.

Global Instance WebSocketState_eq_dec : EqDecision WebSocketState.
Proof. solve_decision. Defined.

  (** Message payloads ([Any] in the source): a string, a dictionary, or
      some other JSON value. *)
Local Unset Elimination Schemes.
Inductive Value :=
    | VStr (s : string)
    | VInt (z : Z)
    | VTime (t : Z)
    | VDict (d : list (string * Value)).
Local Set Elimination Schemes.

Definition Dict := list (string * Value).

  (** [d[k] = v]: an existing key keeps its position. *)
Fixpoint dict_set (d : Dict) (k : string) (v : Value) : Dict :=
    match d with
    | [] => [(k, v)]
    | (k', v') :: d' =>
        if decide (k' = k) then (k, v) :: d' else (k', v') :: dict_set d' k v
    end.

  (** [d.update(u)] *)
Definition dict_update (d u : Dict) : Dict :=
    foldl (λ acc kv, dict_set acc kv.1 kv.2) d u.

  (** [d.get(k)] *)
Fixpoint dict_get (d : Dict) (k : string) : option Value :=
    match d with
    | [] => None
    | (k', v) :: d' => if decide (k' = k) then Some v else dict_get d' k
    end.

  (** The transport endpoint.  Each operation returns the socket after the
      call together with the call's outcome. *)
Class Transport (W : Type) := {
    client_state : W → WebSocketState;
    ws_accept : W → W * Outcome unit;
    ws_close : W → Z → string → W * Outcome unit;
    ws_send_json : W → Dict → W * Outcome unit
  }.

Definition HEARTBEAT_INTERVAL : Z := 30%Z.
Definition MAX_RETRY_ATTEMPTS : nat := 3.
Definition RECONNECT_TIMEOUT : Z := 60%Z.
Definition BUFFER_LIMIT : nat := 1000.

  (** Seconds as the microseconds of a [timedelta]. *)
Definition seconds (s : Z) : Z := (s * 1000000)%Z.

Section Manager.
Context {W : Type} `{!Transport W}.

Record ConnectionInfo := mkConnectionInfo {
      websocket : W;
      state : ConnectionState;
      last_heartbeat : Z;
      connection_time : Z;
      retry_count : nat;
      metadata : Dict
    }.

Record ConnectionManager := mkManager {
      active_connections : gmap string ConnectionInfo;
      terminal_pairs : gmap string (gset string);
      message_buffer : gmap string (list Dict)
    }.

    (** [ConnectionManager.__init__] *)
Definition init : ConnectionManager :=
      {| active_connections := ∅; terminal_pairs := ∅; message_buffer := ∅ |}.

Definition set_connection (M : ConnectionManager) (tid : string)
        (c : ConnectionInfo) : ConnectionManager :=
      {| active_connections := <[tid := c]> (active_connections M);
         terminal_pairs := terminal_pairs M;
         message_buffer := message_buffer M |}.

Definition set_buffer (M : ConnectionManager) (tid : string)
        (b : list Dict) : ConnectionManager :=
      {| active_connections := active_connections M;
         terminal_pairs := terminal_pairs M;
         message_buffer := <[tid := b]> (message_buffer M) |}.

Definition with_websocket (c : ConnectionInfo) (w : W) : ConnectionInfo :=
      {| websocket := w; state := state c; last_heartbeat := last_heartbeat c;
         connection_time := connection_time c; retry_count := retry_count c;
         metadata := metadata c |}.

Definition with_state (c : ConnectionInfo) (s : ConnectionState) : ConnectionInfo :=
      {| websocket := websocket c; state := s; last_heartbeat := last_heartbeat c;
         connection_time := connection_time c; retry_count := retry_count c;
         metadata := metadata c |}.

Definition with_last_heartbeat (c : ConnectionInfo) (t : Z) : ConnectionInfo :=
      {| websocket := websocket c; state := state c; last_heartbeat := t;
         connection_time := connection_time c; retry_count := retry_count c;
         metadata := metadata c |}.

Definition with_retry_count (c : ConnectionInfo) (n : nat) : ConnectionInfo :=
      {| websocket := websocket c; state := state c;
         last_heartbeat := last_heartbeat c;
         connection_time := connection_time c; retry_count := n;
         metadata := metadata c |}.

    (** [_prepare_message] *)
Definition _prepare_message (message : Value) (now : Z) : Dict :=
      let d := match message with
               | VStr _ => [("content", message)]
               | VDict d => d
               | _ => [("data", message)]
               end in
      dict_update d [("timestamp", VTime now); ("type", VStr "message")].

    (** [_buffer_message] *)
Definition _buffer_message (M : ConnectionManager) (tid : string)
        (message : Value) (now : Z) : ConnectionManager :=
      let b := default [] (message_buffer M !! tid) ++ [_prepare_message message now] in
      set_buffer M tid
        (if decide (BUFFER_LIMIT < length b) then py_suffix BUFFER_LIMIT b else b).

    (** [disconnect].  An exception of the transport's [close] leaves the
        [try] block before the state is updated and is logged. *)
Definition disconnect (M : ConnectionManager) (tid : string)
        (code : Z) (reason : string) (now : Z) : ConnectionManager * Outcome unit :=
      match active_connections M !! tid with
      | None => (M, Returned tt)
      | Some connection =>
          let '(w, closed) :=
            if decide (client_state (websocket connection) ≠ WS_DISCONNECTED)
            then ws_close (websocket connection) code reason
            else (websocket connection, Returned tt) in
          match closed with
          | Raised _ => (set_connection M tid (with_websocket connection w), Returned tt)
          | Returned _ =>
              let connection' :=
                with_last_heartbeat (with_state (with_websocket connection w) DISCONNECTED) now in
              let M1 := set_connection M tid connection' in
              let M2 := match message_buffer M1 !! tid with
                        | None => set_buffer M1 tid []
                        | Some _ => M1
                        end in
              (M2, Returned tt)
          end
      end.

    (** [_handle_connection_error] *)
Definition _handle_connection_error (M : ConnectionManager) (tid : string)
        (error : string) (now : Z) : ConnectionManager :=
      match active_connections M !! tid with
      | None => M
      | Some connection =>
          let connection1 :=
            with_retry_count (with_state connection ERROR) (retry_count connection + 1) in
          let M1 := set_connection M tid connection1 in
          if decide (MAX_RETRY_ATTEMPTS < retry_count connection1)
          then (disconnect M1 tid 1011%Z ("Max retries exceeded: " +:+ error) now).1
          else set_connection M1 tid (with_state connection1 RECONNECTING)
      end.

    (** [_handle_disconnect] *)
Definition _handle_disconnect (M : ConnectionManager) (tid : string) (now : Z)
        : ConnectionManager :=
      match active_connections M !! tid with
      | None => M
      | Some connection =>
          set_connection M tid (with_last_heartbeat (with_state connection DISCONNECTED) now)
      end.

Definition buffer_if (retry : bool) (M : ConnectionManager) (tid : string)
        (message : Value) (now : Z) : ConnectionManager :=
      if retry then _buffer_message M tid message now else M.

    (** [send_message] *)
Definition send_message (M : ConnectionManager) (tid : string)
        (message : Value) (retry : bool) (now : Z) : ConnectionManager * bool :=
      match active_connections M !! tid with
      | None => (buffer_if retry M tid message now, false)
      | Some connection =>
          if negb (bool_decide (state connection = CONNECTED))
          then (buffer_if retry M tid message now, false)
          else
            let message_data := _prepare_message message now in
            match ws_send_json (websocket connection) message_data with
            | (w, Returned _) =>
                (set_connection M tid (with_websocket connection w), true)
            | (w, Raised WebSocketDisconnect) =>
                let M1 := set_connection M tid (with_websocket connection w) in
                (buffer_if retry (_handle_disconnect M1 tid now) tid message now, false)
            | (w, Raised e) =>
                let M1 := set_connection M tid (with_websocket connection w) in
                (buffer_if retry (_handle_connection_error M1 tid (str_exn e) now)
                   tid message now, false)
            end
      end.

    (** [_send_buffered_messages] *)
Definition _send_buffered_messages (M : ConnectionManager) (tid : string) (now : Z)
        : ConnectionManager :=
      match message_buffer M !! tid with
      | None | Some [] => M
      | Some messages =>
          foldl (λ M' message, (send_message M' tid (VDict message) true now).1)
                (set_buffer M tid []) messages
      end.

    (** [connect].  The heartbeat task it spawns runs later, as
        [_connection_heartbeat] steps. *)
Definition connect (M : ConnectionManager) (tid : string) (ws : W)
        (meta : option Dict) (now : Z) : ConnectionManager * Outcome unit :=
      match ws_accept ws with
      | (_, Raised e) => (_handle_connection_error M tid (str_exn e) now, Returned tt)
      | (w, Returned _) =>
          let connection_info :=
            {| websocket := w; state := CONNECTED; last_heartbeat := now;
               connection_time := now; retry_count := 0;
               metadata := default [] meta |} in
          let M1 := set_connection M tid connection_info in
          let M2 := set_buffer M1 tid [] in
          (_send_buffered_messages M2 tid now, Returned tt)
      end.

    (** [broadcast]: the sends gathered, one per connection. *)
Definition broadcast (M : ConnectionManager) (message : Value)
        (exclude : gset string) (now : Z) : ConnectionManager :=
      foldl (λ M' tid,
               if decide (tid ∈ exclude) then M'
               else (send_message M' tid message false now).1)
            M (map_to_list (active_connections M)).*1.

    (** [get_connection_info], its ["state"] entry. *)
Definition get_connection_state (M : ConnectionManager) (tid : string)
        : option ConnectionState :=
      state <$> active_connections M !! tid.

    (** [_cleanup_terminal_data] *)
Definition _cleanup_terminal_data (M : ConnectionManager) (tid : string)
        : ConnectionManager :=
      {| active_connections := delete tid (active_connections M);
         terminal_pairs :=
           omap (λ terminals : gset string,
                   if decide (tid ∈ terminals) then
                     if decide (terminals ∖ {[tid]} = ∅) then None
                     else Some (terminals ∖ {[tid]})
                   else Some terminals)
                (terminal_pairs M);
         message_buffer := delete tid (message_buffer M) |}.

    (** One iteration of [_connection_heartbeat] for [tid]. *)
Definition _connection_heartbeat (M : ConnectionManager) (tid : string) (now : Z)
        : ConnectionManager :=
      match active_connections M !! tid with
      | None => M
      | Some connection =>
          if bool_decide (state connection = CONNECTED) then
            match ws_send_json (websocket connection)
                    [("type", VStr "heartbeat"); ("timestamp", VTime now)] with
            | (w, Returned _) =>
                set_connection M tid (with_last_heartbeat (with_websocket connection w) now)
            | (w, Raised e) =>
                _handle_connection_error
                  (set_connection M tid (with_websocket connection w)) tid (str_exn e) now
            end
          else M
      end.

    (** One sweep of [_heartbeat_monitor]. *)
Definition _heartbeat_monitor (M : ConnectionManager) (now : Z) : ConnectionManager :=
      foldl (λ M' tid,
               match active_connections M' !! tid with
               | Some connection =>
                   if bool_decide (state connection = CONNECTED)
                      && bool_decide (seconds (HEARTBEAT_INTERVAL * 2)
                                        < now - last_heartbeat connection)%Z
                   then _handle_connection_error M' tid "Heartbeat timeout" now
                   else M'
               | None => M'
               end)
            M (map_to_list (active_connections M)).*1.

    (** One sweep of [_cleanup_disconnected]. *)
Definition _cleanup_disconnected (M : ConnectionManager) (now : Z) : ConnectionManager :=
      foldl (λ M' tid,
               match active_connections M' !! tid with
               | Some connection =>
                   if bool_decide (state connection = DISCONNECTED)
                      && bool_decide (seconds RECONNECT_TIMEOUT
                                        < now - last_heartbeat connection)%Z
                   then _cleanup_terminal_data M' tid
                   else M'
               | None => M'
               end)
            M (map_to_list (active_connections M)).*1.

    (** [dict.clear()] *)
Definition delete_all {A} (m : gmap string A) : gmap string A := ∅.

    (** [cleanup] *)
Definition cleanup (M : ConnectionManager) (now : Z) : ConnectionManager :=
      let M1 := foldl (λ M' tid, (disconnect M' tid 1001%Z "Server shutdown" now).1)
                      M (map_to_list (active_connections M)).*1 in
      {| active_connections := delete_all (active_connections M1);
         terminal_pairs := ∅;
         message_buffer := ∅ |}.

    (** The calls that reach the manager, from callers and from its own
        background tasks. *)
Inductive Op :=
      | OpConnect (tid : string) (ws : W) (meta : option Dict) (now : Z)
      | OpDisconnect (tid : string) (code : Z) (reason : string) (now : Z)
      | OpSend (tid : string) (message : Value) (retry : bool) (now : Z)
      | OpBroadcast (message : Value) (exclude : gset string) (now : Z)
      | OpBuffer (tid : string) (message : Value) (now : Z)
      | OpFlush (tid : string) (now : Z)
      | OpHeartbeat (tid : string) (now : Z)
      | OpMonitor (now : Z)
      | OpSweep (now : Z)
      | OpCleanup (now : Z).

Definition run_op (M : ConnectionManager) (op : Op) : ConnectionManager :=
      match op with
      | OpConnect tid ws meta now => (connect M tid ws meta now).1
      | OpDisconnect tid code reason now => (disconnect M tid code reason now).1
      | OpSend tid message retry now => (send_message M tid message retry now).1
      | OpBroadcast message exclude now => broadcast M message exclude now
      | OpBuffer tid message now => _buffer_message M tid message now
      | OpFlush tid now => _send_buffered_messages M tid now
      | OpHeartbeat tid now => _connection_heartbeat M tid now
      | OpMonitor now => _heartbeat_monitor M now
      | OpSweep now => _cleanup_disconnected M now
      | OpCleanup now => cleanup M now
      end.

Definition run_ops (M : ConnectionManager) (ops : list Op) : ConnectionManager :=
      foldl run_op M ops.

Definition buffers_bounded (M : ConnectionManager) : Prop :=
      map_Forall (λ _ b, length b ≤ BUFFER_LIMIT) (message_buffer M).

(** A [disconnect] of [tid] gets through the transport: the socket is
    already closed on the client side, or its [close] returns. *)
Definition close_succeeds (M : ConnectionManager) (tid : string)
        (code : Z) (reason : string) : Prop :=
      ∀ c, active_connections M !! tid = Some c →
           client_state (websocket c) = WS_DISCONNECTED
           ∨ (ws_close (websocket c) code reason).2 = Returned tt.

(** The messages waiting for a terminal. *)
Definition buffered (M : ConnectionManager) (tid : string) : list Dict :=
      default [] (message_buffer M !! tid).

(** The test of [_cleanup_disconnected]: the connection is [DISCONNECTED]
    and its last heartbeat is more than [RECONNECT_TIMEOUT] seconds old. *)
Definition stale (now : Z) (connection : option ConnectionInfo) : bool :=
      match connection with
      | Some c =>
          bool_decide (state c = DISCONNECTED)
          && bool_decide (seconds RECONNECT_TIMEOUT < now - last_heartbeat c)%Z
      | None => false
      end.

(** The operations that address the connection of [tid] itself: its own
    [connect] and [disconnect], and the manager's [cleanup]. *)
Definition reaches (tid : string) (op : Op) : bool :=
      match op with
      | OpConnect t _ _ _ | OpDisconnect t _ _ _ => bool_decide (t = tid)
      | OpCleanup _ => true
      | _ => false
      end.

(** Every connection in state [CONNECTED] has a retry count of zero. *)
Definition connected_fresh (M : ConnectionManager) : Prop :=
      map_Forall (λ _ c, state c = CONNECTED → retry_count c = 0)
                 (active_connections M).

End Manager.

Arguments ConnectionInfo W : clear implicits.
Arguments ConnectionManager W : clear implicits.
Arguments Op W : clear implicits.

  (** A transport that records what is sent through it.  Closing it marks
      the client side disconnected; a second close, or a send after the
      close, is refused by the transport. *)
Record Socket := mkSocket {
    sock_client_state : WebSocketState;
    sock_closed : option (Z * string);
    sock_sent : list Dict
  }.

Definition new_socket : Socket :=
    {| sock_client_state := WS_CONNECTING; sock_closed := None; sock_sent := [] |}.

Global Instance Socket_transport : Transport Socket := {|
    client_state := sock_client_state;
    ws_accept w :=
      ({| sock_client_state := WS_CONNECTED; sock_closed := sock_closed w;
          sock_sent := sock_sent w |}, Returned tt);
    ws_close w code reason :=
      match sock_closed w with
      | Some _ =>
          (w, Raised (RuntimeError "Cannot call send once a close message has been sent."))
      | None =>
          ({| sock_client_state := WS_DISCONNECTED;
              sock_closed := Some (code, reason);
              sock_sent := sock_sent w |}, Returned tt)
      end;
    ws_send_json w d :=
      match sock_closed w with
      | Some _ => (w, Raised WebSocketDisconnect)
      | None =>
          ({| sock_client_state := sock_client_state w;
              sock_closed := None;
              sock_sent := sock_sent w ++ [d] |}, Returned tt)
      end
  |}.

  (** Terminal [t] connects, is disconnected, and five messages are sent to
      it while it is away. *)
Definition example_messages : list Value :=
    [VStr "m1"; VStr "m2"; VStr "m3"; VStr "m4"; VStr "m5"].

Definition example_connected : ConnectionManager Socket :=
    (connect init "t" new_socket None 0%Z).1.

Definition example_disconnected : ConnectionManager Socket :=
    (disconnect example_connected "t" 1000%Z "bye" 1%Z).1.

Definition example_buffered : ConnectionManager Socket :=
    foldl (λ M m, (send_message M "t" m true 2%Z).1) example_disconnected example_messages.

Definition example_reconnected : ConnectionManager Socket :=
    (connect example_buffered "t" new_socket None 3%Z).1.

  (** Terminal [t] connects and then misses its heartbeats: the monitor
      finds its last heartbeat 61 seconds old. *)
Definition example_stalled : ConnectionManager Socket :=
    _heartbeat_monitor example_connected (seconds 61).

  (** Terminals [a] and [b] are connected; [b] has been disconnected and
      holds one buffered message. *)
Definition example_two : ConnectionManager Socket :=
    run_ops init
      [OpConnect "a" new_socket None 0%Z; OpConnect "b" new_socket None 0%Z;
       OpDisconnect "b" 1000%Z "bye" 1%Z; OpSend "b" (VStr "m1") true 2%Z].

End Websocket.

(** * src/services/conversation_service.py *)

Module ConversationService.

Definition RATE_LIMIT_WINDOW : Z := 60%Z.
Definition MAX_MESSAGES_PER_WINDOW : nat := 100.

(** Seconds as the microseconds of a [timedelta]. *)
Definition seconds (s : Z) : Z := (s * 1000000)%Z.

Inductive ConversationStatus := ACTIVE | PAUSED | ENDED | ERROR.

Global Instance ConversationStatus_eq_dec : EqDecision ConversationStatus.
Proof. solve_decision. Defined.

Definition status_value (s : ConversationStatus) : string :=
  match s with
  | ACTIVE => "active" | PAUSED => "paused"
  | ENDED => "ended" | ERROR => "error"
  end.

(** The in-memory state of the service: the accepted-message timestamps per
    sender and the counters pushed to the metrics collector. *)
Record Service := mkService {
  rate_limits : gmap string (list Z);
  metrics : list string
}.

Definition init : Service := {| rate_limits := ∅; metrics := [] |}.

(** What one [add_message] call meets outside the service: the clock when
    the limit is checked and when the message is recorded, the conversation
    row the database returns, the outcome of storing the message (token
    count, flush, terminal metrics), the outcome of the commit, and the
    [uuid4] drawn for the message. *)
Record Env := mkEnv {
  now_check : Z;
  conversation : Outcome (option ConversationStatus);
  store : Outcome unit;
  now_record : Z;
  commit : Outcome unit;
  message_uuid : string
}.

(** [_check_rate_limit] *)
Definition _check_rate_limit (S : Service) (terminal_id : string) (now : Z)
    : Service * Outcome unit :=
  let window_start := (now - seconds RATE_LIMIT_WINDOW)%Z in
  let kept := filter (λ ts, (window_start < ts)%Z)
                     (default [] (rate_limits S !! terminal_id)) in
  let S' := {| rate_limits := <[terminal_id := kept]> (rate_limits S);
               metrics := metrics S |} in
  if decide (MAX_MESSAGES_PER_WINDOW ≤ length kept)
  then (S', Raised (ConversationRateLimitError "Rate limit exceeded"))
  else (S', Returned tt).

(** [_update_rate_limit]; the entry exists once [_check_rate_limit] ran. *)
Definition _update_rate_limit (S : Service) (terminal_id : string) (now : Z)
    : Service * Outcome unit :=
  match rate_limits S !! terminal_id with
  | None => (S, Raised (KeyError terminal_id))
  | Some l =>
      ({| rate_limits := <[terminal_id := l ++ [now]]> (rate_limits S);
          metrics := metrics S |}, Returned tt)
  end.

Definition increment (S : Service) (name : string) : Service :=
  {| rate_limits := rate_limits S; metrics := metrics S ++ [name] |}.

(** The [try] block of [add_message]. *)
Definition add_message_body (S : Service) (conversation_id content sender_id : string)
    (env : Env) : Service * Outcome string :=
  match _check_rate_limit S sender_id (now_check env) with
  | (S1, Raised e) => (S1, Raised e)
  | (S1, Returned _) =>
    match conversation env with
    | Raised e => (S1, Raised e)
    | Returned None => (S1, Raised (ConversationServiceError "Conversation not found"))
    | Returned (Some st) =>
      if negb (bool_decide (st = ACTIVE)) then
        (S1, Raised (ConversationServiceError ("Conversation is " +:+ status_value st)))
      else
        match store env with
        | Raised e => (S1, Raised e)
        | Returned _ =>
          match _update_rate_limit S1 sender_id (now_record env) with
          | (S2, Raised e) => (S2, Raised e)
          | (S2, Returned _) =>
            let S3 := increment S2 "messages.created" in
            match commit env with
            | Raised e => (S3, Raised e)
            | Returned _ => (S3, Returned (message_uuid env))
            end
          end
        end
    end
  end.

(** [add_message]: a database error is rolled back and wrapped, any other
    exception is rolled back and raised again. *)
Definition add_message (S : Service) (conversation_id content sender_id : string)
    (env : Env) : Service * Outcome string :=
  match add_message_body S conversation_id content sender_id env with
  | (S', Raised SQLAlchemyError) =>
      (S', Raised (ConversationServiceError "Failed to add message"))
  | r => r
  end.

(** Successive [add_message] calls of one sender, one environment each. *)
Fixpoint add_messages (S : Service) (conversation_id content sender_id : string)
    (envs : list Env) : Service * list (Outcome string) :=
  match envs with
  | [] => (S, [])
  | env :: envs' =>
      let '(S1, o) := add_message S conversation_id content sender_id env in
      let '(S2, os) := add_messages S1 conversation_id content sender_id envs' in
      (S2, o :: os)
  end.

Definition is_rate_limited {A} (o : Outcome A) : bool :=
  match o with
  | Raised (ConversationRateLimitError _) => true
  | _ => false
  end.

(** The call goes through apart from the rate limit: the conversation is
    there and active and the message is stored and committed. *)
Definition accepted (env : Env) : Prop :=
  conversation env = Returned (Some ACTIVE)
  ∧ store env = Returned tt
  ∧ commit env = Returned tt.

(** Every limit check of the calls happens less than 60 s after every
    message of the calls was recorded. *)
Definition within_window (envs : list Env) : Prop :=
  ∀ e e', e ∈ envs → e' ∈ envs →
    (now_check e' - now_record e < seconds RATE_LIMIT_WINDOW)%Z.

(** The timestamp [ts] survives the purge of a check made at [now]. *)
Definition recent (now : Z) (ts : Z) : Prop :=
  (now - seconds RATE_LIMIT_WINDOW < ts)%Z.

(** 101 calls, 100 ms apart, starting at noon. *)
Definition example_env (i : nat) : Env :=
  {| now_check := (43200000000 + Z.of_nat i * 100000)%Z;
     conversation := Returned (Some ACTIVE);
     store := Returned tt;
     now_record := (43200000000 + Z.of_nat i * 100000 + 7)%Z;
     commit := Returned tt;
     message_uuid := pretty i |}.

Definition example_envs : list Env := example_env <$> seq 0 101.

(** The sender's timestamps that a limit check made at [now] keeps. *)
Definition in_window (S : Service) (sender_id : string) (now : Z) : list Z :=
  filter (λ ts, (now - seconds RATE_LIMIT_WINDOW < ts)%Z)
         (default [] (rate_limits S !! sender_id)).

(** The call gets as far as [_update_rate_limit]: the limit check passes,
    the conversation is there and active, and the message is stored. *)
Definition counted (S : Service) (sender_id : string) (env : Env) : bool :=
  bool_decide (length (in_window S sender_id (now_check env)) < MAX_MESSAGES_PER_WINDOW)
  && match conversation env with
     | Returned (Some ACTIVE) => true
     | _ => false
     end
  && returned (store env).

(** One [add_message] call with what it meets. *)
Record Call := mkCall {
  call_conversation : string;
  call_content : string;
  call_sender : string;
  call_env : Env
}.

Definition run_call (S : Service) (c : Call) : Service :=
  (add_message S (call_conversation c) (call_content c) (call_sender c) (call_env c)).1.

Definition run_calls (S : Service) (calls : list Call) : Service :=
  foldl run_call S calls.

End ConversationService.

(** * src/services/messaging_service.py *)

Module Messaging.

Inductive MessagePriority := HIGH | NORMAL | LOW.

(** [priority.value] *)
Definition priority_value (p : MessagePriority) : Z :=
  match p with HIGH => 0%Z | NORMAL => 1%Z | LOW => 2%Z end.

Inductive MessageState := PENDING | DELIVERED | FAILED | EXPIRED.

Global Instance MessageState_eq_dec : EqDecision MessageState.
Proof. solve_decision. Defined.

Definition Metadata := list (string * string).

(** The [Message] class of src/database/models.py, which the service
    imports: the columns it declares, and [metadata] of its base class (the
    base's [created_at], [updated_at] and [is_deleted] are not read here).
    The class has no attribute [recipient_id] and none called [priority].
    The [uuid4] identifiers are drawn from a counter, each value once. *)
Record Message := mkMessage {
  id : N;
  conversation_id : string;
  content : string;
  sender_id : string;
  timestamp : Z;
  sequence_number : Z;
  content_type : string;
  is_error : bool;
  processing_time : option Z;
  token_count : option Z;
  metadata : Metadata
}.

(** An entry of [message_states]. *)
Record StateEntry := mkEntry {
  state : MessageState;
  attempts : nat;
  created_at : Z;
  timeout : Z
}.

(** An [asyncio.Queue]: first in, first out; unbounded when
    [maxsize <= 0]. *)
Record Queue := mkQueue {
  maxsize : Z;
  items : list Message
}.

Definition full (q : Queue) : bool :=
  bool_decide (0 < maxsize q)%Z
  && bool_decide (maxsize q ≤ Z.of_nat (length (items q)))%Z.

(** [Queue.get_nowait] *)
Definition get_nowait (q : Queue) : Outcome (Message * Queue) :=
  match items q with
  | [] => Raised QueueEmpty
  | message :: rest => Returned (message, {| maxsize := maxsize q; items := rest |})
  end.

(** [asyncio.wait_for(queue.put(message), timeout=1.0)]: [put] suspends
    while the queue is full and never raises [QueueFull]; when no consumer
    frees a slot during the second, the wait ends in [TimeoutError].  (A slot
    freed in time is the consumer's step followed by a put on a queue that is
    not full.) *)
Definition put_with_timeout (q : Queue) (message : Message) : Outcome Queue :=
  if full q then Raised TimeoutError
  else Returned {| maxsize := maxsize q; items := items q ++ [message] |}.

Definition QUEUE_SIZE : Z := 1000%Z.
Definition MESSAGE_TIMEOUT : Z := 30%Z.
Definition MAX_RETRY_ATTEMPTS : nat := 3.
Definition BATCH_SIZE : nat := 50.

(** Seconds as the microseconds of a [timedelta]. *)
Definition seconds (s : Z) : Z := (s * 1000000)%Z.

(** [x or d] on an optional integer: [None] and [0] both give [d]. *)
Definition or_default (x : option Z) (d : Z) : Z :=
  match x with
  | None => d
  | Some 0%Z => d
  | Some v => v
  end.

(** The service.  [metrics] lists the counters incremented and [sleeps]
    the seconds handed to [asyncio.sleep] by the retry path, in order. *)
Record Service := mkService {
  terminals : gset string;
  message_queues : gmap string Queue;
  processing_tasks : gset string;
  message_states : gmap N StateEntry;
  active_connections : gset string;
  metrics : list string;
  sleeps : list Z;
  next_uuid : N
}.

(** [MessagingService.__init__] *)
Definition init : Service :=
  {| terminals := ∅; message_queues := ∅; processing_tasks := ∅;
     message_states := ∅; active_connections := ∅;
     metrics := []; sleeps := []; next_uuid := 0%N |}.

Definition increment (S : Service) (name : string) : Service :=
  {| terminals := terminals S; message_queues := message_queues S;
     processing_tasks := processing_tasks S; message_states := message_states S;
     active_connections := active_connections S;
     metrics := metrics S ++ [name]; sleeps := sleeps S; next_uuid := next_uuid S |}.

Definition sleep (S : Service) (delay : Z) : Service :=
  {| terminals := terminals S; message_queues := message_queues S;
     processing_tasks := processing_tasks S; message_states := message_states S;
     active_connections := active_connections S;
     metrics := metrics S; sleeps := sleeps S ++ [delay]; next_uuid := next_uuid S |}.

Definition set_queue (S : Service) (tid : string) (q : Queue) : Service :=
  {| terminals := terminals S; message_queues := <[tid := q]> (message_queues S);
     processing_tasks := processing_tasks S; message_states := message_states S;
     active_connections := active_connections S;
     metrics := metrics S; sleeps := sleeps S; next_uuid := next_uuid S |}.

Definition set_entry (S : Service) (mid : N) (e : StateEntry) : Service :=
  {| terminals := terminals S; message_queues := message_queues S;
     processing_tasks := processing_tasks S;
     message_states := <[mid := e]> (message_states S);
     active_connections := active_connections S;
     metrics := metrics S; sleeps := sleeps S; next_uuid := next_uuid S |}.

Definition uuid4 (S : Service) : N * Service :=
  (next_uuid S,
   {| terminals := terminals S; message_queues := message_queues S;
      processing_tasks := processing_tasks S; message_states := message_states S;
      active_connections := active_connections S;
      metrics := metrics S; sleeps := sleeps S; next_uuid := N.succ (next_uuid S) |}).

Definition with_state (e : StateEntry) (s : MessageState) : StateEntry :=
  {| state := s; attempts := attempts e; created_at := created_at e;
     timeout := timeout e |}.

Definition with_attempts (e : StateEntry) (n : nat) : StateEntry :=
  {| state := state e; attempts := n; created_at := created_at e;
     timeout := timeout e |}.

(** The characters [str.strip] removes, among those of ASCII. *)
Definition is_space (a : Ascii.ascii) : bool :=
  let n := Ascii.nat_of_ascii a in
  ((9 <=? n) && (n <=? 13)) || ((28 <=? n) && (n <=? 32)).

(** [not content or not content.strip()] *)
Fixpoint blank (s : string) : bool :=
  match s with
  | EmptyString => true
  | String a s' => is_space a && blank s'
  end.

(** [Message.validate_content] *)
Definition validate_content (content : string) : Outcome string :=
  if blank content then Raised (ValueError "Message content cannot be empty")
  else if decide (10000 < String.length content)
  then Raised (ValueError "Message content exceeds maximum length")
  else Returned content.

(** [Message(id=..., content=..., sender_id=..., recipient_id=...,
    timestamp=..., priority=..., metadata=...)], the call [send_message]
    makes.  The declarative constructor takes the keywords in the order
    given and sets each as an attribute, refusing with [TypeError] one that
    the class does not have: [content] goes through [validate_content], and
    [recipient_id] is refused. *)
Definition new_message (message_id : N) (content sender_id recipient_id : string)
    (now : Z) (priority : Z) (metadata : Metadata) : Outcome Message :=
  match validate_content content with
  | Raised e => Raised e
  | Returned _ =>
      Raised (TypeError "'recipient_id' is an invalid keyword argument for Message")
  end.

(** [except Exception as e: raise MessagingError(prefix + str(e))] *)
Definition wrap_error {A} (prefix : string) (r : Service * Outcome A)
    : Service * Outcome A :=
  match r with
  | (S', Returned a) => (S', Returned a)
  | (S', Raised e) => (S', Raised (MessagingError (prefix +:+ str_exn e)))
  end.

(** [register_terminal] *)
Definition register_terminal (S : Service) (terminal_id : string)
    (queue_size : option Z) : Service * Outcome unit :=
  wrap_error "Terminal registration failed: "
    (if decide (terminal_id ∈ terminals S)
     then (S, Raised (MessagingError "Terminal already registered"))
     else
       (increment
          {| terminals := {[terminal_id]} ∪ terminals S;
             message_queues :=
               <[terminal_id := {| maxsize := or_default queue_size QUEUE_SIZE;
                                   items := [] |}]> (message_queues S);
             processing_tasks := {[terminal_id]} ∪ processing_tasks S;
             message_states := message_states S;
             active_connections := {[terminal_id]} ∪ active_connections S;
             metrics := metrics S; sleeps := sleeps S; next_uuid := next_uuid S |}
          "terminals.registered",
        Returned tt)).

(** The [try] block of [send_message].  The message is built before its
    state is recorded and before it is put on the queue, so an exception of
    the constructor leaves with neither done.  The class defines neither
    [_handle_queue_full] nor [_handle_queue_timeout]: looking either up
    raises [AttributeError], which leaves the inner handler. *)
Definition send_message_body (S : Service) (sender_id recipient_id content : string)
    (priority : MessagePriority) (metadata : option Metadata) (timeout : option Z)
    (now : Z) : Service * Outcome N :=
  if decide (recipient_id ∉ active_connections S) then
    (S, Raised (MessagingError "Recipient terminal not connected"))
  else
    let '(message_id, S0) := uuid4 S in
    match new_message message_id content sender_id recipient_id now
            (priority_value priority) (default [] metadata) with
    | Raised e => (S0, Raised e)
    | Returned message =>
      let S1 :=
        set_entry S0 message_id
          {| state := PENDING; attempts := 0; created_at := now;
             timeout := or_default timeout MESSAGE_TIMEOUT |} in
      match message_queues S1 !! recipient_id with
      | None => (S1, Raised (KeyError ("'" +:+ recipient_id +:+ "'")))
      | Some queue =>
        match put_with_timeout queue message with
        | Returned queue' =>
            (increment (set_queue S1 recipient_id queue') "messages.queued",
             Returned message_id)
        | Raised QueueFull =>
            (increment S1 "messages.queue_full",
             Raised (AttributeError "_handle_queue_full"))
        | Raised TimeoutError =>
            (increment S1 "messages.queue_timeout",
             Raised (AttributeError "_handle_queue_timeout"))
        | Raised e => (S1, Raised e)
        end
      end
    end.

(** [send_message] *)
Definition send_message (S : Service) (sender_id recipient_id content : string)
    (priority : MessagePriority) (metadata : option Metadata) (timeout : option Z)
    (now : Z) : Service * Outcome N :=
  wrap_error "Message sending failed: "
    (send_message_body S sender_id recipient_id content priority metadata timeout now).

(** [_is_message_expired] *)
Definition _is_message_expired (e : StateEntry) (now : Z) : bool :=
  bool_decide (seconds (timeout e) < now - created_at e)%Z.

(** [_handle_expired_message_state] *)
Definition _handle_expired_message_state (S : Service) (message_id : N) : Service :=
  match message_states S !! message_id with
  | None => S
  | Some e => increment (set_entry S message_id (with_state e EXPIRED)) "messages.expired"
  end.

(** [_handle_failed_message]; the third component is the clock when the
    call ends, after the back-off sleep.  The arguments of the re-send are
    evaluated first, and [message.recipient_id] is no attribute of the
    message: the call to [send_message] is not reached. *)
Definition _handle_failed_message (S : Service) (message : Message) (now : Z)
    : Service * Outcome unit * Z :=
  match message_states S !! id message with
  | None => (S, Returned tt, now)
  | Some e =>
      let e1 := with_attempts e (attempts e + 1) in
      let S1 := set_entry S (id message) e1 in
      if decide (MAX_RETRY_ATTEMPTS ≤ attempts e1) then
        (increment (set_entry S1 (id message) (with_state e1 FAILED)) "messages.failed",
         Returned tt, now)
      else
        let delay := (2 ^ Z.of_nat (attempts e1))%Z in
        let S2 := sleep S1 delay in
        let now' := (now + seconds delay)%Z in
        (S2, Raised (AttributeError "recipient_id"), now')
  end.

(** The body of the loop of [_process_message_batch] for one message.  The
    class does not define [_handle_expired_message], and a message has no
    attribute [priority] for the test that follows the expiry check. *)
Definition process_message (S : Service) (message : Message) (now : Z)
    : Service * Outcome unit * Z :=
  let attempt : Outcome unit :=
    match message_states S !! id message with
    | None => Returned tt
    | Some e =>
        if _is_message_expired e now
        then Raised (AttributeError "_handle_expired_message")
        else Raised (AttributeError "priority")
    end in
  match attempt with
  | Returned _ => (S, Returned tt, now)
  | Raised _ => _handle_failed_message S message now
  end.

(** [_process_message_batch]: an exception of the failure handler itself
    ends the batch. *)
Fixpoint _process_message_batch (S : Service) (messages : list Message) (now : Z)
    : Service * Outcome unit * Z :=
  match messages with
  | [] => (S, Returned tt, now)
  | message :: rest =>
      match process_message S message now with
      | (S1, Returned _, now1) => _process_message_batch S1 rest now1
      | (S1, Raised e, now1) => (S1, Raised e, now1)
      end
  end.

(** The batch collection of [_process_messages]: up to [n] messages taken
    from the head of the queue, one [get_nowait] each. *)
Fixpoint collect_batch (n : nat) (q : Queue) : list Message * Queue :=
  match n with
  | O => ([], q)
  | S n' =>
      match get_nowait q with
      | Raised _ => ([], q)
      | Returned (message, q') =>
          let '(messages, q'') := collect_batch n' q' in
          (message :: messages, q'')
      end
  end.

(** One iteration of the loop of [_process_messages]: the state after it,
    the batch it collected and the clock when it ends. *)
Definition _process_messages (S : Service) (terminal_id : string) (now : Z)
    : Service * list Message * Z :=
  if decide (terminal_id ∈ active_connections S) then
    match message_queues S !! terminal_id with
    | None => (S, [], now)
    | Some queue =>
        let '(messages, queue') := collect_batch BATCH_SIZE queue in
        let S1 := set_queue S terminal_id queue' in
        match messages with
        | [] => (S1, [], now)
        | _ =>
            let '(S2, _, now') := _process_message_batch S1 messages now in
            (S2, messages, now')
        end
    end
  else (S, [], now).

(** One sweep of [_cleanup_expired_messages]. *)
Definition _cleanup_expired_messages (S : Service) (now : Z) : Service :=
  foldl (λ S' kv,
           if _is_message_expired kv.2 now
           then _handle_expired_message_state S' kv.1
           else S')
        S (map_to_list (message_states S)).

(** One message handed out by [get_messages]: the consumer of
    [terminal_id] takes the head of its queue, which is marked delivered. *)
Definition get_message (S : Service) (terminal_id : string)
    : Service * Outcome (option Message) :=
  match message_queues S !! terminal_id with
  | None => (S, Raised (MessagingError "Terminal not registered"))
  | Some queue =>
      if decide (terminal_id ∈ active_connections S) then
        match get_nowait queue with
        | Raised _ => (S, Returned None)
        | Returned (message, queue') =>
            let S1 := set_queue S terminal_id queue' in
            let S2 := match message_states S1 !! id message with
                      | Some e => set_entry S1 (id message) (with_state e DELIVERED)
                      | None => S1
                      end in
            (increment S2 "messages.delivered", Returned (Some message))
        end
      else (S, Returned None)
  end.

(** [unregister_terminal].  With [cleanup] set and a message left in the
    queue, the undefined [_handle_undelivered_message] ends the call after
    the first message is taken out. *)
Definition unregister_terminal (S : Service) (terminal_id : string) (cleanup : bool)
    : Service * Outcome unit :=
  if decide (terminal_id ∉ terminals S) then (S, Returned tt)
  else
    let S1 :=
      {| terminals := terminals S; message_queues := message_queues S;
         processing_tasks := processing_tasks S ∖ {[terminal_id]};
         message_states := message_states S;
         active_connections := active_connections S ∖ {[terminal_id]};
         metrics := metrics S; sleeps := sleeps S; next_uuid := next_uuid S |} in
    let drained : Service * Outcome unit :=
      if cleanup then
        match message_queues S1 !! terminal_id with
        | None => (S1, Raised (KeyError ("'" +:+ terminal_id +:+ "'")))
        | Some queue =>
            match get_nowait queue with
            | Raised _ => (S1, Returned tt)
            | Returned (_, queue') =>
                (set_queue S1 terminal_id queue',
                 Raised (AttributeError "_handle_undelivered_message"))
            end
        end
      else (S1, Returned tt) in
    wrap_error "Terminal unregistration failed: "
      match drained with
      | (S2, Raised e) => (S2, Raised e)
      | (S2, Returned _) =>
          (increment
             {| terminals := terminals S2 ∖ {[terminal_id]};
                message_queues := delete terminal_id (message_queues S2);
                processing_tasks := processing_tasks S2;
                message_states := message_states S2;
                active_connections := active_connections S2;
                metrics := metrics S2; sleeps := sleeps S2;
                next_uuid := next_uuid S2 |}
             "terminals.unregistered",
           Returned tt)
      end.

(** A request handed to [send_message]. *)
Record SendRequest := mkSend {
  req_sender : string;
  req_content : string;
  req_priority : MessagePriority;
  req_metadata : option Metadata;
  req_timeout : option Z;
  req_now : Z
}.

(** Successive sends to one recipient. *)
Fixpoint send_all (S : Service) (recipient : string) (reqs : list SendRequest)
    : Service * list (Outcome N) :=
  match reqs with
  | [] => (S, [])
  | r :: reqs' =>
      let '(S1, o) := send_message S (req_sender r) recipient (req_content r)
                        (req_priority r) (req_metadata r) (req_timeout r) (req_now r) in
      let '(S2, os) := send_all S1 recipient reqs' in
      (S2, o :: os)
  end.

(** The calls that reach the service, from callers, from the consumers of
    [get_messages] and from its own tasks. *)
Inductive Op :=
  | OpRegister (terminal_id : string) (queue_size : option Z)
  | OpUnregister (terminal_id : string) (cleanup : bool)
  | OpSend (recipient : string) (request : SendRequest)
  | OpWorker (terminal_id : string) (now : Z)
  | OpSweep (now : Z)
  | OpConsume (terminal_id : string).

Definition run_op (S : Service) (op : Op) : Service :=
  match op with
  | OpRegister terminal_id queue_size => (register_terminal S terminal_id queue_size).1
  | OpUnregister terminal_id cleanup => (unregister_terminal S terminal_id cleanup).1
  | OpSend recipient r =>
      (send_message S (req_sender r) recipient (req_content r) (req_priority r)
         (req_metadata r) (req_timeout r) (req_now r)).1
  | OpWorker terminal_id now => (_process_messages S terminal_id now).1.1
  | OpSweep now => _cleanup_expired_messages S now
  | OpConsume terminal_id => (get_message S terminal_id).1
  end.

Definition run_ops (S : Service) (ops : list Op) : Service := foldl run_op S ops.

(** A sweep of [_cleanup_expired_messages] on one entry. *)
Definition sweep_entry (now : Z) (e : StateEntry) : StateEntry :=
  if _is_message_expired e now then with_state e EXPIRED else e.

(** Terminal [r] registered with the default queue. *)
Definition example_registered : Service := (register_terminal init "r" None).1.



(** A message as the queue of a terminal could hold it. *)
Definition example_message (n : N) : Message :=
  {| id := n; conversation_id := "c"; content := "payload " +:+ pretty n;
     sender_id := "s"; timestamp := 0%Z; sequence_number := Z.of_N n;
     content_type := "text"; is_error := false; processing_time := None;
     token_count := None; metadata := [] |}.

(** Terminal [r] with three messages in its queue, the first of them with
    an entry on record.  No call of the service builds such a state: it is
    the registered terminal with the queue filled by hand. *)
Definition example_pending : Service :=
  set_entry
    (set_queue example_registered "r"
       {| maxsize := QUEUE_SIZE; items := example_message <$> [7; 8; 9]%N |})
    7%N {| state := PENDING; attempts := 0; created_at := 0%Z; timeout := 30%Z |}.

(** No entry is on record, no queue holds a message, and the only counters
    ever incremented are those of registration. *)
Definition quiet (S : Service) : Prop :=
  message_states S = ∅
  ∧ map_Forall (λ _ q, items q = []) (message_queues S)
  ∧ Forall (λ name, name = "terminals.registered" ∨ name = "terminals.unregistered")
           (metrics S).

End Messaging.

(** * Properties *)

(** ** List slicing *)

Lemma py_suffix_length {A} (n : nat) (l : list A) :
  0 < n → length (py_suffix n l) = Nat.min n (length l).
Proof.
  intros Hn. unfold py_suffix. destruct n as [|n]; [lia|].
  rewrite length_drop. lia.
Qed.

Lemma py_suffix_suffix {A} (n : nat) (l : list A) : py_suffix n l `suffix_of` l.
Proof.
  unfold py_suffix. destruct n; [done|]. apply suffix_drop.
Qed.

Lemma py_suffix_short {A} (n : nat) (l : list A) :
  length l ≤ n → py_suffix n l = l.
Proof.
  intros Hl. unfold py_suffix. destruct n; [done|].
  replace (length l - S n) with 0 by lia. done.
Qed.


(** ** AITerminal: the bounded conversation history *)

Section TerminalHistory.
Import Terminal.

Variable generate_response : AITerminal → Message → Outcome string.

Lemma _add_to_history_spec (h : list Message) (m : Message) :
    _add_to_history h m = py_suffix MAX_HISTORY_SIZE (h ++ [m]).
Proof.
    unfold _add_to_history. case_decide; [done|].
    symmetry. apply py_suffix_short. unfold MAX_HISTORY_SIZE in *. lia.
Qed.

Lemma _add_to_history_length (h : list Message) (m : Message) :
    length (_add_to_history h m) = Nat.min MAX_HISTORY_SIZE (S (length h)).
Proof.
    rewrite _add_to_history_spec, py_suffix_length by (unfold MAX_HISTORY_SIZE; lia).
    rewrite length_app. simpl length. rewrite Nat.add_1_r. reflexivity.
Qed.

Lemma update_terminal_bounded (S : System) (tid : string) (f : AITerminal → AITerminal) :
    (∀ t, length (conversation_history t) ≤ MAX_HISTORY_SIZE →
          length (conversation_history (f t)) ≤ MAX_HISTORY_SIZE) →
    history_bounded S → history_bounded (update_terminal S tid f).
Proof.
    intros Hf HS i t. unfold update_terminal. simpl.
    rewrite lookup_alter. case_decide as Hi.
    - subst i. destruct (terminals S !! tid) as [t0|] eqn:E; simpl; [|done].
      intros [= <-]. apply Hf. exact (HS _ _ E).
    - apply HS.
Qed.

Lemma add_to_history_bounded (S : System) (tid : string) (m : Message) :
    history_bounded S → history_bounded (add_to_history S tid m).
Proof.
    apply update_terminal_bounded. intros t _. simpl.
    rewrite _add_to_history_length. lia.
Qed.

Lemma with_status_bounded (S : System) (tid : string) (st : TerminalStatus) :
    history_bounded S → history_bounded (update_terminal S tid (λ t, with_status t st)).
Proof. apply update_terminal_bounded. intros t Ht. exact Ht. Qed.

Ltac step_call :=
    cbn -[add_to_history update_terminal get_terminal fresh_uuid].

Lemma send_receive_bounded (depth : nat) :
    (∀ S self content recipient now,
        history_bounded S →
        history_bounded (send_message generate_response depth S self content recipient now).1)
    ∧ (∀ S self message now,
        history_bounded S →
        history_bounded (receive_message generate_response depth S self message now).1).
Proof.
    induction depth as [|depth [IHsend IHrecv]]; [split; intros; exact H|].
    split.
    - intros S self content recipient now HS. step_call.
      destruct (terminals S !! self) as [t|]; [|exact HS].
      destruct (current_conversation_id t) as [[|c cid]|]; try exact HS.
      apply IHrecv. apply add_to_history_bounded. exact HS.
    - intros S self message now HS. step_call.
      destruct (terminals S !! self) as [t0|]; [|exact HS].
      pose proof (add_to_history_bounded S self message HS) as H1.
      destruct (terminals (add_to_history S self message) !! self) as [t|]; [|exact H1].
      case_decide; [|exact H1].
      destruct (generate_response t message) as [response|e].
      + destruct (get_terminal _ _) as [sender|]; [|exact H1].
        specialize (IHsend _ self response sender now H1).
        destruct (send_message _ _ _ _ _ _ _) as [S2 [u|e]]; simpl in *; [exact IHsend|].
        destruct e; simpl; try (apply with_status_bounded); exact IHsend.
      + destruct e; simpl; try (apply with_status_bounded); exact H1.
Qed.

Lemma run_op_bounded (depth : nat) (S : System) (op : Op) :
    history_bounded S → history_bounded (run_op generate_response depth S op).
Proof.
    destruct op; simpl; apply (send_receive_bounded depth).
Qed.

  (** C10: every sequence of [send_message] and [receive_message] calls, at
      any call depth and for any response generator, leaves each terminal
      with at most [MAX_HISTORY_SIZE = 1000] messages in its history, and
      each append keeps exactly the most recent 1000 entries. *)
Theorem history_never_exceeds_max (depth : nat) (S : System) (ops : list Op) :
    history_bounded S →
    MAX_HISTORY_SIZE = 1000
    ∧ history_bounded (run_ops generate_response depth S ops)
    ∧ (∀ h m, _add_to_history h m = py_suffix 1000 (h ++ [m])
              ∧ length (_add_to_history h m) = Nat.min 1000 (length h + 1)
              ∧ _add_to_history h m `suffix_of` h ++ [m]).
Proof.
    intros HS. split; [reflexivity|]. split.
    - revert S HS. induction ops as [|op ops IH]; intros S HS; [exact HS|].
      simpl. apply IH. apply run_op_bounded. exact HS.
    - intros h m. split; [apply _add_to_history_spec|].
      split; [rewrite _add_to_history_length, Nat.add_1_r; reflexivity|].
      rewrite _add_to_history_spec. apply py_suffix_suffix.
Qed.

End TerminalHistory.

Lemma example_system_bounded : Terminal.history_bounded Terminal.example_system.
Proof.
  intros i t. unfold Terminal.example_system. cbn [Terminal.terminals].
  rewrite lookup_insert. case_decide.
  - intros [= <-]. apply Nat.leb_le. vm_compute. reflexivity.
  - rewrite lookup_insert. case_decide; [|by rewrite lookup_empty].
    intros [= <-]. cbn [Terminal.conversation_history length].
    unfold Terminal.MAX_HISTORY_SIZE. lia.
Qed.

Lemma history_never_exceeds_max_witness :
  Terminal.history_bounded Terminal.example_system
  ∧ Terminal.history_bounded
      (Terminal.run_ops Terminal.example_generate 64
         Terminal.example_system Terminal.example_ops).
Proof.
  split; [exact example_system_bounded|].
  exact (proj1 (proj2 (history_never_exceeds_max Terminal.example_generate 64
           Terminal.example_system Terminal.example_ops example_system_bounded))).
Defined.

(** On that run the oldest entry of [t1] is evicted: the history stays at
    1000 entries and ends with the message just sent. *)
Example history_example_run :
  let S' := Terminal.run_ops Terminal.example_generate 64
              Terminal.example_system [Terminal.OpSend "t1" "hello" "t2" 5%Z] in
  (length ∘ Terminal.conversation_history <$> Terminal.terminals S' !! "t1") = Some 1000
  ∧ (Terminal.content <$>
       (Terminal.terminals S' !! "t1" ≫= λ t, last (Terminal.conversation_history t)))
     = Some "hello"
  ∧ (Terminal.message_id <$>
       (Terminal.terminals S' !! "t1" ≫= λ t, head (Terminal.conversation_history t)))
     = Some 1%N
  ∧ (length ∘ Terminal.conversation_history <$> Terminal.terminals S' !! "t2") = Some 1.
Proof. vm_compute. repeat split; reflexivity. Qed.

(** ** ConversationManager.add_message *)

Section ConversationAddMessage.
Import Conversation.

  (** No tuple is a key of a conversation dictionary. *)
Lemma getitem_tuple_raises (c : Conversation) (k v : string) :
    getitem c (KTuple k v) = Raised (KeyError (repr_key (KTuple k v))).
Proof. reflexivity. Qed.

  (** Whatever the arguments, [add_message] ends in a [ConversationError]
      and hands back the manager it was given. *)
Lemma add_message_never_returns (M : ConversationManager)
      (cid content sender : string) (meta : option Metadata) (now : Z) :
    ∃ msg, add_message M cid content sender meta now = (M, Raised (ConversationError msg)).
Proof.
    unfold add_message, add_message_body.
    destruct (active_conversations M !! cid) as [c|]; [|by eexists].
    destruct (negb _); [by eexists|].
    case_decide; [by eexists|].
    rewrite getitem_tuple_raises. by eexists.
Qed.

  (** C9: on an existing, active conversation below its message limit,
      [add_message] raises [ConversationError] for every sender, the
      conversation's participants included; it returns no message id, and
      the manager, hence the conversation's message list, is unchanged.  The
      error is the [KeyError] of the tuple subscript. *)
Theorem add_message_raises_for_every_sender (M : ConversationManager)
      (cid content sender : string) (meta : option Metadata) (now : Z)
      (c : Conversation) :
    active_conversations M !! cid = Some c →
    status c = ACTIVE →
    (Z.of_nat (length (messages c)) < message_limit (config M))%Z →
    let r := add_message M cid content sender meta now in
    r.2 = Raised (ConversationError
                    ("Failed to add message: "
                       +:+ repr_key (KTuple "terminal1_id" (terminal2_id c))))
    ∧ returned r.2 = false
    ∧ r.1 = M
    ∧ messages <$> active_conversations r.1 !! cid = Some (messages c).
Proof.
    intros Hc Hst Hlim r. subst r.
    unfold add_message, add_message_body. rewrite Hc, Hst.
    rewrite bool_decide_eq_true_2 by done. cbn [negb].
    case_decide; [lia|].
    rewrite getitem_tuple_raises. cbn [wrap_error fst snd str_exn returned].
    repeat split. by rewrite Hc.
Qed.

End ConversationAddMessage.

Lemma add_message_raises_for_every_sender_witness :
  let r := Conversation.add_message Conversation.example_manager
             Conversation.example_conversation_id "hello" "t1" None 1%Z in
  r.2 = Raised (ConversationError "Failed to add message: ('terminal1_id', 't2')")
  ∧ r.1 = Conversation.example_manager.
Proof.
  pose proof (add_message_raises_for_every_sender Conversation.example_manager
                Conversation.example_conversation_id "hello" "t1" None 1%Z
                (Conversation.mkConversation Conversation.example_conversation_id
                   "t1" "t2" 0%Z 0%Z Conversation.ACTIVE [] [])) as H.
  destruct H as (H1 & _ & H3 & _).
  - vm_compute. reflexivity.
  - reflexivity.
  - vm_compute. reflexivity.
  - split; [exact H1 | exact H3].
Defined.

(** ** ConnectionManager: the bounded message buffer *)

Section WebsocketBuffer.
Import Websocket.
Context {W : Type} `{!Transport W}.

Implicit Types (M : ConnectionManager W) (tid : string).

Lemma foldl_invariant {A B} (P : A → Prop) (f : A → B → A) (l : list B) (a : A) :
    (∀ a b, P a → P (f a b)) → P a → P (foldl f a l).
Proof.
    intros Hf. revert a. induction l as [|b l IH]; intros a Ha; [exact Ha|].
    simpl. apply IH, Hf, Ha.
Qed.

Lemma set_connection_bounded M tid c :
    buffers_bounded M → buffers_bounded (set_connection M tid c).
Proof. intros H. exact H. Qed.

Lemma set_buffer_bounded M tid b :
    length b ≤ BUFFER_LIMIT → buffers_bounded M → buffers_bounded (set_buffer M tid b).
Proof.
    intros Hb HM. unfold buffers_bounded, set_buffer. cbn [message_buffer].
    apply map_Forall_insert_2; assumption.
Qed.

Lemma buffer_limit_suffix {A} (b : list A) :
    length (if decide (BUFFER_LIMIT < length b) then py_suffix BUFFER_LIMIT b else b)
      ≤ BUFFER_LIMIT.
Proof.
    case_decide; [|lia].
    rewrite py_suffix_length by (unfold BUFFER_LIMIT; lia). lia.
Qed.

Lemma _buffer_message_bounded M tid message now :
    buffers_bounded M → buffers_bounded (_buffer_message M tid message now).
Proof. intros HM. apply set_buffer_bounded; [apply buffer_limit_suffix|exact HM]. Qed.

Lemma buffer_if_bounded retry M tid message now :
    buffers_bounded M → buffers_bounded (buffer_if retry M tid message now).
Proof. destruct retry; [apply _buffer_message_bounded|done]. Qed.

Lemma disconnect_bounded M tid code reason now :
    buffers_bounded M → buffers_bounded (disconnect M tid code reason now).1.
Proof.
    intros HM. unfold disconnect.
    destruct (active_connections M !! tid) as [c|]; [|exact HM].
    destruct (if decide _ then _ else _) as [w [[]|e]]; cbn [fst]; [|exact HM].
    cbn [set_connection message_buffer].
    destruct (message_buffer M !! tid); [exact HM|].
    apply set_buffer_bounded; [simpl; lia|exact HM].
Qed.

Lemma _handle_connection_error_bounded M tid error now :
    buffers_bounded M → buffers_bounded (_handle_connection_error M tid error now).
Proof.
    intros HM. unfold _handle_connection_error.
    destruct (active_connections M !! tid) as [c|]; [|exact HM].
    case_decide; [|exact HM].
    apply disconnect_bounded. exact HM.
Qed.

Lemma _handle_disconnect_bounded M tid now :
    buffers_bounded M → buffers_bounded (_handle_disconnect M tid now).
Proof.
    intros HM. unfold _handle_disconnect.
    destruct (active_connections M !! tid); exact HM.
Qed.

Lemma send_message_bounded M tid message retry now :
    buffers_bounded M → buffers_bounded (send_message M tid message retry now).1.
Proof.
    intros HM. unfold send_message.
    destruct (active_connections M !! tid) as [c|];
      [|by apply buffer_if_bounded].
    destruct (negb _); [by apply buffer_if_bounded|].
    destruct (ws_send_json _ _) as [w [[]|e]]; [exact HM|].
    destruct e; cbn [fst]; apply buffer_if_bounded;
      first [ apply _handle_disconnect_bounded
            | apply _handle_connection_error_bounded ]; exact HM.
Qed.

Lemma _send_buffered_messages_bounded M tid now :
    buffers_bounded M → buffers_bounded (_send_buffered_messages M tid now).
Proof.
    intros HM. unfold _send_buffered_messages.
    destruct (message_buffer M !! tid) as [[|m ms]|]; try exact HM.
    apply (foldl_invariant buffers_bounded).
    - intros M' m'. apply send_message_bounded.
    - apply set_buffer_bounded; [simpl; lia|exact HM].
Qed.

Lemma connect_bounded M tid ws meta now :
    buffers_bounded M → buffers_bounded (connect M tid ws meta now).1.
Proof.
    intros HM. unfold connect.
    destruct (ws_accept ws) as [w [[]|e]]; cbn [fst].
    - apply _send_buffered_messages_bounded, set_buffer_bounded; [simpl; lia|exact HM].
    - apply _handle_connection_error_bounded, HM.
Qed.

Lemma _cleanup_terminal_data_bounded M tid :
    buffers_bounded M → buffers_bounded (_cleanup_terminal_data M tid).
Proof.
    intros HM. unfold buffers_bounded, _cleanup_terminal_data. cbn [message_buffer].
    apply map_Forall_delete, HM.
Qed.

Lemma run_op_bounded_buffer M (op : Op W) :
    buffers_bounded M → buffers_bounded (run_op M op).
Proof.
    intros HM. destruct op; cbn [run_op].
    - by apply connect_bounded.
    - by apply disconnect_bounded.
    - by apply send_message_bounded.
    - unfold broadcast. apply (foldl_invariant buffers_bounded); [|exact HM].
      intros M' t H'. case_decide; [exact H'|by apply send_message_bounded].
    - by apply _buffer_message_bounded.
    - by apply _send_buffered_messages_bounded.
    - unfold _connection_heartbeat.
      destruct (active_connections M !! tid) as [c|]; [|exact HM].
      destruct (bool_decide _); [|exact HM].
      destruct (ws_send_json _ _) as [w [[]|e]]; [exact HM|].
      by apply _handle_connection_error_bounded.
    - unfold _heartbeat_monitor. apply (foldl_invariant buffers_bounded); [|exact HM].
      intros M' t H'. destruct (active_connections M' !! t) as [c|]; [|exact H'].
      destruct (_ && _); [by apply _handle_connection_error_bounded|exact H'].
    - unfold _cleanup_disconnected. apply (foldl_invariant buffers_bounded); [|exact HM].
      intros M' t H'. destruct (active_connections M' !! t) as [c|]; [|exact H'].
      destruct (_ && _); [by apply _cleanup_terminal_data_bounded|exact H'].
    - unfold cleanup, buffers_bounded. cbn [message_buffer]. apply map_Forall_empty.
Qed.

Lemma run_ops_bounded_buffer M (ops : list (Op W)) :
    buffers_bounded M → buffers_bounded (run_ops M ops).
Proof. apply (foldl_invariant buffers_bounded). intros. by apply run_op_bounded_buffer. Qed.

Lemma _buffer_message_lookup M tid message now :
    message_buffer (_buffer_message M tid message now) !! tid
    = Some (py_suffix BUFFER_LIMIT
              (default [] (message_buffer M !! tid) ++ [_prepare_message message now])).
Proof.
    unfold _buffer_message, set_buffer. cbn [message_buffer].
    rewrite lookup_insert_eq. f_equal.
    case_decide; [done|]. symmetry. apply py_suffix_short. lia.
Qed.

  (** C7: whatever calls reach the manager, no terminal's buffer ever holds
      more than 1000 entries; an append to a full buffer returns with the
      oldest entry dropped and the new one last. *)
Theorem message_buffer_never_exceeds_limit M (ops : list (Op W)) :
    buffers_bounded M →
    BUFFER_LIMIT = 1000
    ∧ buffers_bounded (run_ops M ops)
    ∧ ∀ tid message now,
        let b := default [] (message_buffer (run_ops M ops) !! tid) in
        message_buffer (_buffer_message (run_ops M ops) tid message now) !! tid
        = Some (if decide (length b = 1000)
                then drop 1 b ++ [_prepare_message message now]
                else b ++ [_prepare_message message now]).
Proof.
    intros HM. split; [reflexivity|].
    pose proof (run_ops_bounded_buffer M ops HM) as Hb.
    split; [exact Hb|].
    intros tid message now b. rewrite _buffer_message_lookup. f_equal.
    fold b.
    assert (Hlen : length b ≤ 1000).
    { subst b. destruct (message_buffer (run_ops M ops) !! tid) as [l|] eqn:E;
        [exact (Hb _ _ E)|simpl; lia]. }
    unfold py_suffix, BUFFER_LIMIT. rewrite length_app. cbn [length].
    case_decide as Hfull.
    - rewrite Hfull. replace (1000 + 1 - 1000) with 1 by lia.
      destruct b; [simpl in Hfull; lia|reflexivity].
    - replace (length b + 1 - 1000) with 0 by lia. reflexivity.
Qed.

End WebsocketBuffer.


Lemma init_buffers_bounded {W : Type} `{!Websocket.Transport W} :
  Websocket.buffers_bounded (Websocket.init (W := W)).
Proof. apply map_Forall_empty. Qed.

Lemma message_buffer_never_exceeds_limit_witness :
  let ops := [Websocket.OpConnect "t" Websocket.new_socket None 0%Z;
              Websocket.OpDisconnect "t" 1000%Z "bye" 1%Z;
              Websocket.OpSend "t" (Websocket.VStr "m1") true 2%Z;
              Websocket.OpSend "t" (Websocket.VStr "m2") true 2%Z] in
  Websocket.buffers_bounded (Websocket.init (W := Websocket.Socket))
  ∧ Websocket.buffers_bounded (Websocket.run_ops Websocket.init ops).
Proof.
  intros ops. split; [exact init_buffers_bounded|].
  exact (proj1 (proj2 (message_buffer_never_exceeds_limit
                         Websocket.init ops init_buffers_bounded))).
Defined.

(** ** ConnectionManager.disconnect *)

Section WebsocketDisconnect.
Import Websocket.
Context {W : Type} `{!Transport W}.

Implicit Types (M : ConnectionManager W) (tid : string).

Lemma disconnect_returns M tid code reason now :
  (disconnect M tid code reason now).2 = Returned tt.
Proof.
  unfold disconnect. destruct (active_connections M !! tid) as [c|]; [|done].
  destruct (if decide _ then _ else _) as [w [[]|e]]; done.
Qed.

Lemma disconnect_unknown M tid code reason now :
  active_connections M !! tid = None →
  disconnect M tid code reason now = (M, Returned tt).
Proof. intros H. unfold disconnect. by rewrite H. Qed.

Lemma disconnect_state_after M tid code reason now c :
  active_connections M !! tid = Some c →
  close_succeeds M tid code reason →
  get_connection_state (disconnect M tid code reason now).1 tid = Some DISCONNECTED.
Proof.
  intros Hc Hok. specialize (Hok c Hc). unfold disconnect. rewrite Hc.
  assert (Hret : ∃ w, (if decide (client_state (websocket c) ≠ WS_DISCONNECTED)
                       then ws_close (websocket c) code reason
                       else (websocket c, Returned tt)) = (w, Returned tt)).
  { case_decide as Hd.
    - destruct Hok as [Hok|Hok]; [done|].
      destruct (ws_close (websocket c) code reason) as [w o]. simpl in Hok.
      subst o. by eexists.
    - by eexists. }
  destruct Hret as [w ->]. cbn [fst].
  unfold get_connection_state.
  destruct (message_buffer _ !! tid); cbn [active_connections set_buffer set_connection];
    rewrite lookup_insert_eq; reflexivity.
Qed.

(** Once a connection is in state [DISCONNECTED], a further [disconnect]
    leaves it there whatever the transport does. *)
Lemma disconnect_keeps_disconnected M tid code reason now :
  get_connection_state M tid = Some DISCONNECTED →
  get_connection_state (disconnect M tid code reason now).1 tid = Some DISCONNECTED.
Proof.
  unfold get_connection_state, disconnect.
  destruct (active_connections M !! tid) as [c|] eqn:Hc; [|done].
  cbn [fmap option_fmap option_map]. intros [= Hst].
  destruct (if decide _ then _ else _) as [w [[]|e]]; cbn [fst].
  - destruct (message_buffer _ !! tid); cbn [active_connections set_buffer set_connection];
      rewrite lookup_insert_eq; reflexivity.
  - cbn [active_connections set_connection]. rewrite lookup_insert_eq.
    cbn [fmap option_fmap option_map with_websocket state]. by rewrite Hst.
Qed.

Lemma disconnect_dom M tid code reason now :
  dom (active_connections (disconnect M tid code reason now).1) = dom (active_connections M).
Proof.
  unfold disconnect. destruct (active_connections M !! tid) as [c|] eqn:Hc; [|done].
  assert (Hin : tid ∈ dom (active_connections M)) by (apply elem_of_dom; eauto).
  destruct (if decide _ then _ else _) as [w [[]|e]]; cbn [fst].
  - destruct (message_buffer _ !! tid); cbn [active_connections set_buffer set_connection];
      rewrite dom_insert_L; apply subseteq_union_1_L, singleton_subseteq_l, Hin.
  - cbn [active_connections set_connection]. rewrite dom_insert_L.
    apply subseteq_union_1_L, singleton_subseteq_l, Hin.
Qed.

(** A socket that is already closed is not closed again: the connection
    keeps the very socket it had. *)
Lemma disconnect_closed_socket_untouched M tid code reason now c :
  active_connections M !! tid = Some c →
  client_state (websocket c) = WS_DISCONNECTED →
  websocket <$> active_connections (disconnect M tid code reason now).1 !! tid
  = Some (websocket c).
Proof.
  intros Hc Hcl. unfold disconnect. rewrite Hc.
  rewrite decide_False by (intros H; by apply H). cbn [fst].
  destruct (message_buffer _ !! tid); cbn [active_connections set_buffer set_connection];
    rewrite lookup_insert_eq; reflexivity.
Qed.

(** C8: calling [disconnect] twice in a row leaves the connection in the
    state a single call leaves it in, [DISCONNECTED], neither call raises,
    the same terminals stay registered, and the second call does not touch a
    transport that is already closed. *)
Theorem disconnect_twice_same_state M tid
    (code code' : Z) (reason reason' : string) (now now' : Z) :
  close_succeeds M tid code reason →
  let once := disconnect M tid code reason now in
  let twice := disconnect once.1 tid code' reason' now' in
  once.2 = Returned tt
  ∧ twice.2 = Returned tt
  ∧ get_connection_state twice.1 tid = get_connection_state once.1 tid
  ∧ (is_Some (active_connections M !! tid) →
     get_connection_state once.1 tid = Some DISCONNECTED)
  ∧ dom (active_connections twice.1) = dom (active_connections once.1)
  ∧ (∀ c, active_connections once.1 !! tid = Some c →
          client_state (websocket c) = WS_DISCONNECTED →
          websocket <$> active_connections twice.1 !! tid = Some (websocket c)).
Proof.
  intros Hok once twice. subst once twice.
  split; [apply disconnect_returns|]. split; [apply disconnect_returns|].
  split; [|split; [|split]].
  - destruct (active_connections M !! tid) as [c|] eqn:Hc.
    + rewrite (disconnect_state_after M tid code reason now c Hc Hok).
      apply disconnect_keeps_disconnected.
      exact (disconnect_state_after M tid code reason now c Hc Hok).
    + rewrite (disconnect_unknown M tid code reason now Hc). cbn [fst].
      by rewrite (disconnect_unknown M tid code' reason' now' Hc).
  - intros [c Hc]. exact (disconnect_state_after M tid code reason now c Hc Hok).
  - apply disconnect_dom.
  - intros c Hc Hcl. by apply disconnect_closed_socket_untouched.
Qed.

End WebsocketDisconnect.

Lemma example_close_succeeds :
  Websocket.close_succeeds Websocket.example_connected "t" 1000%Z "bye".
Proof.
  intros c Hc. right. vm_compute in Hc. injection Hc as <-. reflexivity.
Qed.

Lemma disconnect_twice_same_state_witness :
  let once := Websocket.disconnect Websocket.example_connected "t" 1000%Z "bye" 1%Z in
  let twice := Websocket.disconnect once.1 "t" 1000%Z "bye" 2%Z in
  Websocket.close_succeeds Websocket.example_connected "t" 1000%Z "bye"
  ∧ Websocket.get_connection_state once.1 "t" = Some Websocket.DISCONNECTED
  ∧ Websocket.get_connection_state twice.1 "t" = Some Websocket.DISCONNECTED
  ∧ twice.2 = Returned tt.
Proof.
  intros once twice.
  pose proof (disconnect_twice_same_state Websocket.example_connected "t"
                1000%Z 1000%Z "bye" "bye" 1%Z 2%Z example_close_succeeds)
    as (_ & H2 & H3 & H4 & _).
  split; [exact example_close_succeeds|].
  assert (H1 : Websocket.get_connection_state once.1 "t" = Some Websocket.DISCONNECTED).
  { apply H4. vm_compute. eauto. }
  split; [exact H1|]. split; [|exact H2].
  subst once twice. rewrite H3. exact H1.
Defined.

(** The recording socket refuses a second [close]; [disconnect] skips it
    because the client side already reads as disconnected. *)
Example disconnect_twice_socket_closed_once :
  let once := Websocket.disconnect Websocket.example_connected "t" 1000%Z "bye" 1%Z in
  let twice := Websocket.disconnect once.1 "t" 1011%Z "again" 2%Z in
  (Websocket.sock_closed ∘ Websocket.websocket <$>
     Websocket.active_connections twice.1 !! "t") = Some (Some (1000%Z, "bye"))
  ∧ (Websocket.last_heartbeat <$> Websocket.active_connections once.1 !! "t") = Some 1%Z
  ∧ (Websocket.last_heartbeat <$> Websocket.active_connections twice.1 !! "t") = Some 2%Z.
Proof. vm_compute. repeat split; reflexivity. Qed.


(** ** ConnectionManager.connect and the buffered messages *)

Section WebsocketReconnect.
Import Websocket.
Context {W : Type} `{!Transport W}.

(** [connect] overwrites the terminal's buffer with the empty list before
    [_send_buffered_messages] reads it: whatever was buffered is gone, and
    the socket is stored exactly as [accept] left it, nothing sent. *)
Lemma connect_resets_buffer (M : ConnectionManager W) (tid : string) (ws w : W)
    (meta : option Dict) (now : Z) :
  ws_accept ws = (w, Returned tt) →
  connect M tid ws meta now
  = (set_buffer
       (set_connection M tid
          {| websocket := w; state := CONNECTED; last_heartbeat := now;
             connection_time := now; retry_count := 0;
             metadata := default [] meta |})
       tid [],
     Returned tt).
Proof.
  intros Hacc. unfold connect. rewrite Hacc.
  unfold _send_buffered_messages. cbn [message_buffer set_buffer].
  rewrite lookup_insert_eq. reflexivity.
Qed.

End WebsocketReconnect.

(** C2, on the code: five messages are buffered for the disconnected
    terminal [t]; its reconnection empties the buffer and sends none of them,
    and a message sent afterwards is the only one the new socket receives. *)
Theorem connect_drops_buffered_messages :
  (map (λ d : Websocket.Dict, d !! 0) <$>
     Websocket.message_buffer Websocket.example_buffered !! "t")
  = Some (map (λ m, Some ("content", m)) Websocket.example_messages)
  ∧ Websocket.message_buffer Websocket.example_reconnected !! "t" = Some []
  ∧ (Websocket.sock_sent ∘ Websocket.websocket <$>
       Websocket.active_connections Websocket.example_reconnected !! "t") = Some []
  ∧ (let after := Websocket.send_message Websocket.example_reconnected "t"
                    (Websocket.VStr "m6") true 4%Z in
     after.2 = true
     ∧ (map (λ d : Websocket.Dict, d !! 0) ∘ Websocket.sock_sent ∘ Websocket.websocket <$>
          Websocket.active_connections after.1 !! "t")
       = Some [Some ("content", Websocket.VStr "m6")]).
Proof. vm_compute. repeat split; reflexivity. Qed.

(** ** ConversationService: the per-sender rate limit *)

Section RateLimit.
Import ConversationService.

Variables (conversation_id content sender_id : string).


Lemma filter_all {A} (P : A → Prop) `{!∀ x, Decision (P x)} (l : list A) :
  Forall P l → filter P l = l.
Proof.
  induction 1 as [|x l Hx _ IH]; [done|].
  rewrite filter_cons_True by done. by rewrite IH.
Qed.

Lemma filter_none {A} (P : A → Prop) `{!∀ x, Decision (P x)} (l : list A) :
  Forall (λ x, ¬ P x) l → filter P l = [].
Proof.
  induction 1 as [|x l Hx _ IH]; [done|].
  by rewrite filter_cons_False.
Qed.

Lemma check_passes (S : Service) (now : Z) (recs : list Z) :
  default [] (rate_limits S !! sender_id) = recs →
  Forall (recent now) recs →
  length recs < MAX_MESSAGES_PER_WINDOW →
  _check_rate_limit S sender_id now
  = ({| rate_limits := <[sender_id := recs]> (rate_limits S); metrics := metrics S |},
     Returned tt).
Proof.
  intros Hrecs Hall Hlen. unfold _check_rate_limit. rewrite Hrecs.
  rewrite (filter_all _ recs) by exact Hall.
  rewrite decide_False by lia. reflexivity.
Qed.

Lemma check_rejects (S : Service) (now : Z) (recs : list Z) :
  default [] (rate_limits S !! sender_id) = recs →
  Forall (recent now) recs →
  MAX_MESSAGES_PER_WINDOW ≤ length recs →
  _check_rate_limit S sender_id now
  = ({| rate_limits := <[sender_id := recs]> (rate_limits S); metrics := metrics S |},
     Raised (ConversationRateLimitError "Rate limit exceeded")).
Proof.
  intros Hrecs Hall Hlen. unfold _check_rate_limit. rewrite Hrecs.
  rewrite (filter_all _ recs) by exact Hall.
  rewrite decide_True by lia. reflexivity.
Qed.

(** Below the limit the check lets the call through, whatever the age of
    the timestamps on record. *)
Lemma check_below_limit (S : Service) (now : Z) :
  length (default [] (rate_limits S !! sender_id)) < MAX_MESSAGES_PER_WINDOW →
  (_check_rate_limit S sender_id now).2 = Returned tt.
Proof.
  intros Hlen. unfold _check_rate_limit.
  rewrite decide_False; [reflexivity|].
  pose proof (length_filter (λ ts, (now - seconds RATE_LIMIT_WINDOW < ts)%Z)
                (default [] (rate_limits S !! sender_id))). lia.
Qed.

Lemma add_message_accepted (S : Service) (env : Env) (recs : list Z) :
  default [] (rate_limits S !! sender_id) = recs →
  Forall (recent (now_check env)) recs →
  length recs < MAX_MESSAGES_PER_WINDOW →
  accepted env →
  ∃ S', add_message S conversation_id content sender_id env = (S', Returned (message_uuid env))
        ∧ rate_limits S' !! sender_id = Some (recs ++ [now_record env]).
Proof.
  intros Hrecs Hall Hlen (Hconv & Hstore & Hcommit).
  unfold add_message, add_message_body.
  rewrite (check_passes S _ recs Hrecs Hall Hlen), Hconv.
  rewrite bool_decide_eq_true_2 by done. cbn [negb]. rewrite Hstore.
  unfold _update_rate_limit. cbn [rate_limits]. rewrite lookup_insert_eq, Hcommit.
  eexists. split; [reflexivity|]. cbn [rate_limits increment].
  apply lookup_insert_eq.
Qed.

Lemma add_message_rejected (S : Service) (env : Env) (recs : list Z) :
  default [] (rate_limits S !! sender_id) = recs →
  Forall (recent (now_check env)) recs →
  MAX_MESSAGES_PER_WINDOW ≤ length recs →
  (add_message S conversation_id content sender_id env).2 = Raised (ConversationRateLimitError "Rate limit exceeded").
Proof.
  intros Hrecs Hall Hlen. unfold add_message, add_message_body.
  by rewrite (check_rejects S _ recs Hrecs Hall Hlen).
Qed.

Lemma add_messages_app (S : Service) (envs1 envs2 : list Env) :
  add_messages S conversation_id content sender_id (envs1 ++ envs2)
  = let r1 := add_messages S conversation_id content sender_id envs1 in
    let r2 := add_messages r1.1 conversation_id content sender_id envs2 in
    (r2.1, r1.2 ++ r2.2).
Proof.
  revert S. induction envs1 as [|e envs1 IH]; intros S; cbn [app add_messages].
  - cbn [fst snd app]. by destruct (add_messages S _ _ _ envs2).
  - destruct (add_message S conversation_id content sender_id e) as [S1 o].
    rewrite IH. cbn zeta.
    destruct (add_messages S1 _ _ _ envs1) as [S2 os1]. cbn [fst snd].
    by destruct (add_messages S2 _ _ _ envs2).
Qed.

(** As long as fewer than 100 messages are on record, accepted calls inside
    the window all return, and each leaves its timestamp on record. *)
Lemma add_messages_accepted (envs : list Env) (S : Service) (recs : list Z) :
  default [] (rate_limits S !! sender_id) = recs →
  (∀ e, e ∈ envs → Forall (recent (now_check e)) recs) →
  within_window envs →
  Forall accepted envs →
  length recs + length envs ≤ MAX_MESSAGES_PER_WINDOW →
  (add_messages S conversation_id content sender_id envs).2 = (Returned ∘ message_uuid) <$> envs
  ∧ default [] (rate_limits (add_messages S conversation_id content sender_id envs).1 !! sender_id) = recs ++ (now_record <$> envs).
Proof.
  revert S recs. induction envs as [|e envs IH]; intros S recs Hrecs Hold Hwin Hacc Hlen.
  { cbn. by rewrite app_nil_r. }
  cbn [add_messages]. cbn [length] in Hlen.
  apply Forall_cons in Hacc as [Ha Hacc].
  destruct (add_message_accepted S e recs Hrecs) as (S1 & HS1 & Hrl1); [|lia|exact Ha|].
  { apply Hold. by left. }
  rewrite HS1.
  destruct (IH S1 (recs ++ [now_record e])) as [IHo IHr].
  - by rewrite Hrl1.
  - intros e' He'. apply Forall_app. split; [apply Hold; by right|].
    apply Forall_singleton. unfold recent.
    assert (He : e ∈ e :: envs) by (by left).
    assert (He'' : e' ∈ e :: envs) by (by right).
    specialize (Hwin e e' He He''). lia.
  - intros a b Ha' Hb'. apply Hwin; by right.
  - exact Hacc.
  - rewrite length_app. cbn [length]. lia.
  - destruct (add_messages S1 _ _ _ envs) as [S2 os]. cbn [fst snd] in *.
    split; [by rewrite IHo|]. rewrite IHr, <- app_assoc. reflexivity.
Qed.

(** C5: of 101 calls by one sender inside one 60-second window, the first
    100 of them accepted, exactly one is answered with the rate-limit error,
    and it is the 101st. *)
Theorem rate_limit_rejects_the_101st_call (S : Service) (envs : list Env) :
  default [] (rate_limits S !! sender_id) = [] →
  length envs = 101 →
  Forall accepted (take 100 envs) →
  within_window envs →
  let outcomes := (add_messages S conversation_id content sender_id envs).2 in
  MAX_MESSAGES_PER_WINDOW = 100
  ∧ RATE_LIMIT_WINDOW = 60%Z
  ∧ take 100 outcomes = (Returned ∘ message_uuid) <$> take 100 envs
  ∧ outcomes !! 100 = Some (Raised (ConversationRateLimitError "Rate limit exceeded"))
  ∧ (∀ i o, outcomes !! i = Some o → is_rate_limited o = bool_decide (i = 100))
  ∧ length (filter (λ o, is_rate_limited o = true) outcomes) = 1.
Proof.
  intros Hempty Hlen Hacc Hwin outcomes.
  do 2 (split; [reflexivity|]).
  destruct (drop 100 envs) as [|last rest] eqn:Hdrop.
  { apply (f_equal length) in Hdrop. rewrite length_drop in Hdrop. simpl in Hdrop. lia. }
  assert (rest = []) as ->.
  { apply (f_equal length) in Hdrop. rewrite length_drop in Hdrop. simpl in Hdrop.
    destruct rest; [done|simpl in Hdrop; lia]. }
  assert (Hsplit : envs = take 100 envs ++ [last])
    by (by rewrite <- Hdrop, take_drop).
  set (first := take 100 envs) in *.
  assert (Hfirst : length first = 100) by (subst first; rewrite length_take; lia).
  assert (Hin : ∀ e, e ∈ first → e ∈ envs)
    by (intros e He; rewrite Hsplit; apply elem_of_app; by left).
  assert (Hlast : last ∈ envs)
    by (rewrite Hsplit; apply elem_of_app; right; by left).
  destruct (add_messages_accepted first S [] Hempty) as [Ho Hr].
  { intros; constructor. }
  { intros a b Ha Hb. apply Hwin; by apply Hin. }
  { exact Hacc. }
  { simpl. unfold MAX_MESSAGES_PER_WINDOW. lia. }
  assert (Hout : outcomes
    = ((Returned ∘ message_uuid) <$> first)
      ++ [Raised (ConversationRateLimitError "Rate limit exceeded")]).
  { subst outcomes. rewrite Hsplit, add_messages_app. cbn zeta. cbn [snd].
    rewrite Ho. f_equal. cbn [add_messages].
    assert (Hrecent : Forall (recent (now_check last)) ([] ++ (now_record <$> first))).
    { cbn [app]. apply Forall_fmap, Forall_forall. intros e He. unfold recent. cbn.
      specialize (Hwin e last (Hin e He) Hlast). lia. }
    assert (Hfull : MAX_MESSAGES_PER_WINDOW ≤ length ([] ++ (now_record <$> first)))
      by (cbn [app]; rewrite length_fmap, Hfirst; unfold MAX_MESSAGES_PER_WINDOW; lia).
    pose proof (add_message_rejected (add_messages S conversation_id content sender_id first).1
                  last _ Hr Hrecent Hfull) as Hrej.
    destruct (add_message _ _ _ _ last) as [S1 o]. cbn [snd] in Hrej. by subst o. }
  rewrite Hout.
  assert (Hl : length ((Returned ∘ message_uuid) <$> first : list (Outcome string)) = 100)
    by (by rewrite length_fmap).
  split; [|split; [|split]].
  - rewrite take_app_length' by (symmetry; exact Hl). reflexivity.
  - rewrite lookup_app_r by lia. rewrite Hl. reflexivity.
  - intros i o Hio. destruct (decide (i < 100)) as [Hlt|Hge].
    + rewrite lookup_app_l in Hio by lia.
      apply list_lookup_fmap_Some in Hio as (e & -> & _).
      rewrite bool_decide_eq_false_2 by lia. reflexivity.
    + rewrite lookup_app_r in Hio by lia. rewrite Hl in Hio.
      destruct (i - 100) as [|k] eqn:Hk; [|by destruct k].
      injection Hio as <-. rewrite bool_decide_eq_true_2 by lia. reflexivity.
  - rewrite filter_app, length_app, filter_none; [reflexivity|].
    apply Forall_fmap, Forall_forall. intros e _. cbn. discriminate.
Qed.

End RateLimit.

Lemma example_envs_accepted :
  Forall ConversationService.accepted (take 100 ConversationService.example_envs).
Proof.
  unfold ConversationService.example_envs. rewrite <- fmap_take.
  apply Forall_fmap, Forall_forall. intros i _. repeat split.
Qed.

Lemma example_envs_within_window :
  ConversationService.within_window ConversationService.example_envs.
Proof.
  intros e e' He He'. unfold ConversationService.example_envs in *.
  apply list_elem_of_fmap in He as (i & -> & Hi).
  apply list_elem_of_fmap in He' as (j & -> & Hj).
  apply elem_of_seq in Hi, Hj.
  unfold ConversationService.example_env, ConversationService.seconds,
    ConversationService.RATE_LIMIT_WINDOW. cbn. lia.
Qed.

Lemma rate_limit_rejects_the_101st_call_witness :
  let outcomes := (ConversationService.add_messages ConversationService.init
                     "c" "hello" "s" ConversationService.example_envs).2 in
  outcomes !! 99 = Some (Returned "99")
  ∧ outcomes !! 100 = Some (Raised (ConversationRateLimitError "Rate limit exceeded"))
  ∧ length (filter (λ o, ConversationService.is_rate_limited o = true) outcomes) = 1.
Proof.
  intros outcomes.
  pose proof (rate_limit_rejects_the_101st_call "c" "hello" "s"
                ConversationService.init ConversationService.example_envs
                eq_refl eq_refl example_envs_accepted example_envs_within_window)
    as (_ & _ & H1 & H2 & _ & H3).
  split; [|split; [exact H2|exact H3]].
  change (outcomes !! 99) with
    ((ConversationService.add_messages ConversationService.init
        "c" "hello" "s" ConversationService.example_envs).2 !! 99).
  rewrite <- (lookup_take_lt _ 100 99) by lia. rewrite H1. reflexivity.
Defined.

(** ** MessagingService: sending *)

Section MessagingSend.
Import Messaging.

Implicit Types (S : Service) (q : Queue).

(** The constructor call of [send_message] raises whatever it is given. *)
Lemma new_message_raises (message_id : N) (content sender recipient : string)
    (now priority : Z) (meta : Metadata) :
  ∃ e, new_message message_id content sender recipient now priority meta = Raised e.
Proof. unfold new_message. destruct (validate_content content); by eexists. Qed.

(** Hence so does [send_message]: either the recipient is not connected, or
    an identifier is drawn and the constructor's exception is wrapped. *)
Lemma send_message_raises S (sender recipient content : string)
    (p : MessagePriority) (meta : option Metadata) (tmo : option Z) (now : Z) :
  ∃ msg,
    send_message S sender recipient content p meta tmo now
    = (if decide (recipient ∉ active_connections S) then S else (uuid4 S).2,
       Raised (MessagingError msg)).
Proof.
  unfold send_message, send_message_body. case_decide; [by eexists|].
  cbn [uuid4].
  destruct (new_message_raises (next_uuid S) content sender recipient now
              (priority_value p) (default [] meta)) as [e ->].
  by eexists.
Qed.

Lemma send_all_raises (reqs : list SendRequest) S (recipient : string) :
  Forall (λ o, returned o = false) (send_all S recipient reqs).2.
Proof.
  revert S. induction reqs as [|r reqs IH]; intros S; cbn [send_all]; [constructor|].
  destruct (send_message_raises S (req_sender r) recipient (req_content r)
              (req_priority r) (req_metadata r) (req_timeout r) (req_now r))
    as [msg ->].
  specialize (IH (if decide (recipient ∉ active_connections S) then S else (uuid4 S).2)).
  destruct (send_all _ recipient reqs) as [S2 os]. cbn [snd] in *.
  by constructor.
Qed.

(** *** A service that holds nothing *)

Lemma quiet_init : quiet init.
Proof.
  split; [reflexivity|]. split; [apply map_Forall_empty|constructor].
Qed.

Lemma quiet_send_message S (sender recipient content : string)
    (p : MessagePriority) (meta : option Metadata) (tmo : option Z) (now : Z) :
  quiet S → quiet (send_message S sender recipient content p meta tmo now).1.
Proof.
  intros HS.
  destruct (send_message_raises S sender recipient content p meta tmo now) as [msg ->].
  cbn [fst]. case_decide; exact HS.
Qed.

Lemma quiet_set_queue S (t : string) q :
  items q = [] → quiet S → quiet (set_queue S t q).
Proof.
  intros Hq (Hst & Hqs & Hm). split; [exact Hst|]. split; [|exact Hm].
  cbn [set_queue message_queues]. by apply map_Forall_insert_2.
Qed.

Lemma quiet_process_messages S (terminal_id : string) (now : Z) :
  quiet S →
  quiet (_process_messages S terminal_id now).1.1
  ∧ (_process_messages S terminal_id now).1.2 = [].
Proof.
  intros HS. unfold _process_messages. case_decide; [|done].
  destruct (message_queues S !! terminal_id) as [q|] eqn:Hq; [|done].
  assert (Hi : items q = []) by (destruct HS as (_ & Hqs & _); exact (Hqs _ _ Hq)).
  unfold BATCH_SIZE. cbn [collect_batch]. unfold get_nowait. rewrite Hi.
  cbn [fst snd]. split; [|reflexivity]. by apply quiet_set_queue.
Qed.

Lemma quiet_cleanup_expired S (now : Z) :
  quiet S → _cleanup_expired_messages S now = S.
Proof.
  intros (Hst & _). unfold _cleanup_expired_messages.
  by rewrite Hst, map_to_list_empty.
Qed.

Lemma quiet_get_message S (terminal_id : string) :
  quiet S →
  get_message S terminal_id
  = (S, match message_queues S !! terminal_id with
        | Some _ => Returned None
        | None => Raised (MessagingError "Terminal not registered")
        end).
Proof.
  intros (_ & Hqs & _). unfold get_message.
  destruct (message_queues S !! terminal_id) as [q|] eqn:Hq; [|done].
  case_decide; [|done]. unfold get_nowait. by rewrite (Hqs _ _ Hq).
Qed.

Lemma quiet_register S (terminal_id : string) (size : option Z) :
  quiet S → quiet (register_terminal S terminal_id size).1.
Proof.
  intros HS. unfold register_terminal. case_decide; [exact HS|].
  cbn [wrap_error fst]. destruct HS as (Hst & Hqs & Hm).
  split; [exact Hst|]. split.
  - cbn [increment message_queues]. by apply map_Forall_insert_2.
  - cbn [increment metrics]. apply Forall_app. split; [exact Hm|].
    constructor; [by left|constructor].
Qed.

Lemma quiet_unregister S (terminal_id : string) (cleanup : bool) :
  quiet S → quiet (unregister_terminal S terminal_id cleanup).1.
Proof.
  intros HS. unfold unregister_terminal. case_decide; [exact HS|].
  destruct HS as (Hst & Hqs & Hm).
  assert (Hdone : ∀ (tasks act : gset string),
            quiet (increment
                     {| terminals := terminals S ∖ {[terminal_id]};
                        message_queues := delete terminal_id (message_queues S);
                        processing_tasks := tasks;
                        message_states := message_states S;
                        active_connections := act;
                        metrics := metrics S; sleeps := sleeps S;
                        next_uuid := next_uuid S |}
                     "terminals.unregistered")).
  { intros tasks act. split; [exact Hst|]. split.
    - cbn [increment message_queues]. by apply map_Forall_delete.
    - cbn [increment metrics]. apply Forall_app. split; [exact Hm|].
      constructor; [by right|constructor]. }
  destruct cleanup; cbn [message_queues]; [|apply Hdone].
  destruct (message_queues S !! terminal_id) as [q|] eqn:Hq.
  - unfold get_nowait. rewrite (Hqs _ _ Hq). apply Hdone.
  - cbn [wrap_error fst]. done.
Qed.

Lemma quiet_run_op S (op : Op) : quiet S → quiet (run_op S op).
Proof.
  intros HS. destruct op; cbn [run_op].
  - by apply quiet_register.
  - by apply quiet_unregister.
  - by apply quiet_send_message.
  - by apply quiet_process_messages.
  - by rewrite quiet_cleanup_expired.
  - by rewrite quiet_get_message.
Qed.

Lemma quiet_run_ops S (ops : list Op) : quiet S → quiet (run_ops S ops).
Proof. apply (foldl_invariant quiet). intros. by apply quiet_run_op. Qed.

End MessagingSend.

(** ** MessagingService: queue order *)

Section MessagingQueue.
Import Messaging.

Implicit Types (S : Service) (q : Queue).






End MessagingQueue.



(** ** MessagingService: expiry *)

Section MessagingSweep.
Import Messaging.

Implicit Types (S : Service).

Lemma sweep_step_lookup S (now : Z) (k0 : N) (e0 : StateEntry) :
  message_states S !! k0 = Some e0 →
  ∀ k e, message_states S !! k = Some e →
    message_states (if _is_message_expired e0 now
                    then _handle_expired_message_state S k0 else S) !! k
    = Some (if decide (k = k0) then sweep_entry now e else e).
Proof.
  intros H0 k e Hk. unfold sweep_entry, _handle_expired_message_state.
  destruct (decide (k = k0)) as [->|Hne].
  - rewrite H0 in Hk. injection Hk as <-.
    destruct (_is_message_expired e0 now); [|exact H0].
    rewrite H0. cbn [increment set_entry message_states]. apply lookup_insert_eq.
  - destruct (_is_message_expired e0 now); [|exact Hk].
    rewrite H0. cbn [increment set_entry message_states].
    by rewrite lookup_insert_ne.
Qed.

Lemma sweep_fold_lookup (l : list (N * StateEntry)) S (now : Z) :
  NoDup l.*1 →
  (∀ k e, (k, e) ∈ l → message_states S !! k = Some e) →
  ∀ k e, message_states S !! k = Some e →
    message_states
      (foldl (λ S' kv, if _is_message_expired kv.2 now
                       then _handle_expired_message_state S' kv.1 else S') S l) !! k
    = Some (if bool_decide (k ∈ l.*1) then sweep_entry now e else e).
Proof.
  revert S. induction l as [|[k0 e0] l IH]; intros S Hnd Hl k e Hk.
  { cbn. exact Hk. }
  cbn [foldl fmap list_fmap fst snd] in *. apply NoDup_cons in Hnd as [Hk0 Hnd].
  assert (H0 : message_states S !! k0 = Some e0) by (apply Hl; by left).
  pose proof (sweep_step_lookup S now k0 e0 H0) as Hstep.
  rewrite (IH _ Hnd) with (e := if decide (k = k0) then sweep_entry now e else e).
  - f_equal. destruct (decide (k = k0)) as [->|Hne].
    + rewrite bool_decide_eq_false_2 by exact Hk0.
      rewrite bool_decide_eq_true_2 by (by left). reflexivity.
    + destruct (decide (k ∈ l.*1)) as [Hin|Hnin].
      * rewrite !bool_decide_eq_true_2; [reflexivity|by right|exact Hin].
      * rewrite !bool_decide_eq_false_2; [reflexivity| |exact Hnin].
        intros [?|?]%elem_of_cons; done.
  - intros k' e' Hin. rewrite (Hstep k' e') by (apply Hl; by right).
    rewrite decide_False; [reflexivity|].
    intros ->. apply Hk0. apply list_elem_of_fmap. by exists (k0, e').
  - by apply Hstep.
Qed.

(** A sweep rewrites every entry on record by [sweep_entry]. *)
Lemma _cleanup_expired_messages_lookup S (now : Z) (k : N) (e : StateEntry) :
  message_states S !! k = Some e →
  message_states (_cleanup_expired_messages S now) !! k = Some (sweep_entry now e).
Proof.
  intros Hk. unfold _cleanup_expired_messages.
  rewrite (sweep_fold_lookup _ S now) with (e := e).
  - rewrite bool_decide_eq_true_2; [reflexivity|].
    apply list_elem_of_fmap. exists (k, e). split; [reflexivity|].
    by apply elem_of_map_to_list.
  - apply NoDup_fst_map_to_list.
  - intros k' e'. apply elem_of_map_to_list.
  - exact Hk.
Qed.

End MessagingSweep.

Lemma example_registered_quiet : Messaging.quiet Messaging.example_registered.
Proof. apply quiet_register, quiet_init. Qed.

(** C6, on the code: a message is sent with [timeout = 0] to the connected
    terminal [r].  The send raises [MessagingError] before an entry is
    written for the message, so there is no envelope to expire: no entry is
    on record after the send, nor after any further calls and any sweep of
    the cleanup task, and the queue of [r] is empty. *)
Theorem zero_timeout_send_is_never_recorded :
  let sent := Messaging.send_message Messaging.example_registered "s" "r" "payload"
                Messaging.NORMAL None (Some 0%Z) 0%Z in
  "r" ∈ Messaging.active_connections Messaging.example_registered
  ∧ returned sent.2 = false
  ∧ (∃ msg, sent.2 = Raised (MessagingError msg))
  ∧ Messaging.message_states sent.1 = ∅
  ∧ (Messaging.items <$> Messaging.message_queues sent.1 !! "r") = Some []
  ∧ ∀ (ops : list Messaging.Op) (sweep_now : Z),
      Messaging.message_states
        (Messaging._cleanup_expired_messages (Messaging.run_ops sent.1 ops) sweep_now)
      = ∅.
Proof.
  intros sent.
  assert (Hq : Messaging.quiet sent.1)
    by apply quiet_send_message, example_registered_quiet.
  split; [apply (bool_decide_unpack _); vm_compute; exact I|].
  split; [vm_compute; reflexivity|].
  split; [vm_compute; by eexists|].
  split; [exact (proj1 Hq)|].
  split; [vm_compute; reflexivity|].
  intros ops sweep_now.
  pose proof (quiet_run_ops sent.1 ops Hq) as Hq'.
  rewrite (quiet_cleanup_expired _ sweep_now Hq'). exact (proj1 Hq').
Qed.

(** ** AITerminal: conversations of a terminal *)

Section TerminalLifecycle.
Import Terminal.

Variable generate_response : AITerminal → Message → Outcome string.

Implicit Types (S : System) (P : AITerminal → Prop).

Lemma update_terminal_Forall P S (tid : string) (f : AITerminal → AITerminal) :
  (∀ t, P t → P (f t)) →
  map_Forall (λ _, P) (terminals S) →
  map_Forall (λ _, P) (terminals (update_terminal S tid f)).
Proof.
  intros Hf HS i t. unfold update_terminal. cbn [terminals].
  rewrite lookup_alter. case_decide as Hi.
  - subst i. destruct (terminals S !! tid) as [t0|] eqn:E; cbn; [|done].
    intros [= <-]. apply Hf. exact (HS _ _ E).
  - apply HS.
Qed.

(** Sending and receiving only touch histories and set status [ERROR]:
    whatever every terminal satisfies and those two updates keep, still
    holds afterwards. *)
Lemma send_receive_Forall P (depth : nat) :
  (∀ t h, P t → P (with_history t h)) →
  (∀ t, P t → P (with_status t ERROR)) →
  (∀ S self content recipient now,
      map_Forall (λ _, P) (terminals S) →
      map_Forall (λ _, P)
        (terminals (send_message generate_response depth S self content recipient now).1))
  ∧ (∀ S self message now,
      map_Forall (λ _, P) (terminals S) →
      map_Forall (λ _, P)
        (terminals (receive_message generate_response depth S self message now).1)).
Proof.
  intros Hh Hs.
  assert (Hadd : ∀ S tid m, map_Forall (λ _, P) (terminals S) →
                   map_Forall (λ _, P) (terminals (add_to_history S tid m))).
  { intros S tid m. apply update_terminal_Forall. intros t. apply Hh. }
  assert (Herr : ∀ S tid, map_Forall (λ _, P) (terminals S) →
                   map_Forall (λ _, P)
                     (terminals (update_terminal S tid (λ t, with_status t ERROR)))).
  { intros S tid. apply update_terminal_Forall. exact Hs. }
  induction depth as [|depth [IHsend IHrecv]]; [split; intros; assumption|].
  split.
  - intros S self content recipient now HS.
    cbn -[add_to_history update_terminal get_terminal fresh_uuid].
    destruct (terminals S !! self) as [t|]; [|exact HS].
    destruct (current_conversation_id t) as [[|ch cid]|]; try exact HS.
    apply IHrecv, Hadd. exact HS.
  - intros S self message now HS.
    cbn -[add_to_history update_terminal get_terminal fresh_uuid].
    destruct (terminals S !! self) as [t0|]; [|exact HS].
    pose proof (Hadd S self message HS) as H1.
    destruct (terminals (add_to_history S self message) !! self) as [t|]; [|exact H1].
    case_decide; [|exact H1].
    destruct (generate_response t message) as [response|e].
    + destruct (get_terminal _ _) as [sender|]; [|exact H1].
      specialize (IHsend _ self response sender now H1).
      destruct (send_message _ _ _ _ _ _ _) as [S2 [u|e]]; cbn [fst] in *; [exact IHsend|].
      destruct e; cbn [fst]; try apply Herr; exact IHsend.
    + destruct e; cbn [fst]; try apply Herr; exact H1.
Qed.

Lemma single_conversation_end (t : AITerminal) (cid : string) :
  single_conversation t → single_conversation (end_conversation_terminal t cid).
Proof.
  intros [Hidle Hsize]. unfold end_conversation_terminal.
  case_decide as Hin; [|by split].
  case_decide as Hrem; split; cbn [status active_conversations].
  - done.
  - rewrite Hrem, size_empty. lia.
  - intros Hst. rewrite (Hidle Hst) in Hin. by apply not_elem_of_empty in Hin.
  - etrans; [|exact Hsize]. apply subseteq_size, subseteq_difference_l. done.
Qed.

Lemma single_conversation_start S (depth : nat) (self other : string)
    (now : Z) (stamp : string) :
  map_Forall (λ _, single_conversation) (terminals S) →
  map_Forall (λ _, single_conversation)
    (terminals (start_conversation generate_response depth S self other now stamp).1).
Proof.
  intros HS. unfold start_conversation.
  destruct (terminals S !! self) as [t|] eqn:Ht; [|exact HS].
  case_decide as Hidle; [|exact HS].
  cbn [fresh_uuid].
  set (S2 := update_terminal _ self _).
  assert (H2 : map_Forall (λ _, single_conversation) (terminals S2)).
  { intros i t'. subst S2. unfold update_terminal. cbn [terminals].
    rewrite lookup_alter. case_decide as Hi; [|apply HS].
    subst i. rewrite Ht. cbn [fmap option_fmap option_map]. intros Heq.
    injection Heq as <-.
    destruct (HS _ _ Ht) as [Hnone _].
    unfold single_conversation, with_conversation. cbn [status active_conversations].
    rewrite (Hnone Hidle), union_empty_r_L, size_singleton.
    split; [discriminate|lia]. }
  destruct (send_receive_Forall single_conversation depth) as [Hsend _].
  { intros t' h [? ?]. by split. }
  { intros t' [? ?]. split; [discriminate|done]. }
  specialize (Hsend S2 self (generate_initial_message t stamp) other now H2).
  destruct (send_message _ _ _ _ _ _ _) as [S3 [u|e]]; cbn [fst] in *; [exact Hsend|].
  apply update_terminal_Forall; [|exact Hsend].
  intros t' [? ?]. split; [discriminate|done].
Qed.

Lemma single_conversation_cleanup S (self : string) :
  map_Forall (λ _, single_conversation) (terminals S) →
  map_Forall (λ _, single_conversation) (terminals (cleanup S self)).
Proof.
  intros HS. unfold cleanup. destruct (terminals S !! self) as [t|]; [|exact HS].
  cbn [terminals].
  assert (H1 : map_Forall (λ _, single_conversation)
                 (terminals (foldl (λ S' cid, end_conversation S' self cid) S
                               (elements (active_conversations t))))).
  { apply (foldl_invariant (λ S', map_Forall (λ _, single_conversation) (terminals S')));
      [|exact HS].
    intros S' cid HS'. apply update_terminal_Forall; [|exact HS'].
    intros t'. apply single_conversation_end. }
  intros i t'. rewrite lookup_alter. case_decide as Hi; [|apply H1].
  subst i. destruct (terminals _ !! self) as [t0|] eqn:E; cbn; [|done].
  intros [= <-]. exact (H1 _ _ E).
Qed.

Lemma single_conversation_run (depth : nat) (calls : list Call) S :
  map_Forall (λ _, single_conversation) (terminals S) →
  map_Forall (λ _, single_conversation)
    (terminals (run_calls generate_response depth S calls)).
Proof.
  apply (foldl_invariant (λ S', map_Forall (λ _, single_conversation) (terminals S'))).
  intros S' call HS'.
  destruct (send_receive_Forall single_conversation depth) as [Hsend Hrecv].
  { intros t' h [? ?]. by split. }
  { intros t' [? ?]. split; [discriminate|done]. }
  destruct call; cbn [run_call].
  - unfold init. cbn [terminals]. apply map_Forall_insert_2; [|exact HS'].
    split; cbn; [done|]. rewrite size_empty. lia.
  - by apply single_conversation_start.
  - apply update_terminal_Forall; [|exact HS'].
    intros t'. apply single_conversation_end.
  - by apply Hsend.
  - by apply Hrecv.
  - by apply single_conversation_cleanup.
Qed.

(** X1: whatever calls are made on the terminals of a system (construction,
    start, end, send, receive, cleanup), no terminal ever holds more than one
    active conversation, and an idle terminal holds none; a terminal that
    holds one refuses [start_conversation] with a [RuntimeError] and the
    system is left as it was. *)
Theorem terminal_holds_one_conversation (depth : nat) (calls : list Call) :
  let S := run_calls generate_response depth empty_system calls in
  map_Forall (λ _, single_conversation) (terminals S)
  ∧ ∀ self t other now stamp,
      terminals S !! self = Some t →
      active_conversations t ≠ ∅ →
      start_conversation generate_response depth S self other now stamp
      = (S, Raised (RuntimeError ("Terminal " +:+ terminal_id t
                                    +:+ " is not available for conversation"))).
Proof.
  intros S.
  assert (HS : map_Forall (λ _, single_conversation) (terminals S)).
  { apply single_conversation_run. apply map_Forall_empty. }
  split; [exact HS|].
  intros self t other now stamp Ht Hact. unfold start_conversation. rewrite Ht.
  destruct (HS _ _ Ht) as [Hidle _].
  rewrite decide_False; [reflexivity|]. intros Hst. by apply Hact, Hidle.
Qed.

End TerminalLifecycle.

Lemma terminal_holds_one_conversation_witness :
  let S := Terminal.run_calls Terminal.example_generate 8 Terminal.empty_system
             [Terminal.CallInit "a" "gpt"; Terminal.CallInit "b" "gpt";
              Terminal.CallStart "a" "b" 0%Z "2024-01-01 00:00:00"] in
  (Terminal.start_conversation Terminal.example_generate 8 S "a" "b" 1%Z
     "2024-01-01 00:00:01").2
  = Raised (RuntimeError "Terminal a is not available for conversation").
Proof.
  intros S.
  destruct (terminal_holds_one_conversation Terminal.example_generate 8
              [Terminal.CallInit "a" "gpt"; Terminal.CallInit "b" "gpt";
               Terminal.CallStart "a" "b" 0%Z "2024-01-01 00:00:00"]) as [_ H].
  fold S in H.
  destruct (Terminal.terminals S !! "a") as [t|] eqn:E; [|by vm_compute in E].
  assert (Hid : Terminal.terminal_id t = "a")
    by (vm_compute in E; injection E as <-; reflexivity).
  assert (Hact : Terminal.active_conversations t ≠ ∅)
    by (vm_compute in E; injection E as <-; vm_compute; discriminate).
  rewrite (H "a" t "b" 1%Z "2024-01-01 00:00:01" E Hact). cbn [snd].
  rewrite Hid. reflexivity.
Defined.

(** ** AITerminal: receiving, and starting a conversation *)

Section TerminalConversation.
Import Terminal.

Variable generate_response : AITerminal → Message → Outcome string.

Implicit Types (S : System).

Lemma send_message_step (depth : nat) S (self content recipient : string) (now : Z) :
  send_message generate_response (Datatypes.S depth) S self content recipient now
  = match terminals S !! self with
    | None => (S, Raised (AttributeError "terminal"))
    | Some t =>
        match current_conversation_id t with
        | None | Some "" => (S, Raised (RuntimeError "No active conversation"))
        | Some cid =>
            let '(mid, S1) := fresh_uuid S in
            let message :=
              {| content := content; timestamp := now;
                 sender_id := terminal_id t; conversation_id := cid;
                 message_id := mid;
                 metadata := [("model_type", MStr (model_type t));
                              ("sequence_number",
                               MInt (length (conversation_history t)))] |} in
            receive_message generate_response depth
              (add_to_history S1 self message) recipient message now
        end
    end.
Proof. reflexivity. Qed.

Lemma add_to_history_lookup S (tid : string) (m : Message) (t : AITerminal) :
  terminals S !! tid = Some t →
  terminals (add_to_history S tid m) !! tid
  = Some (with_history t (_add_to_history (conversation_history t) m)).
Proof.
  intros Ht. unfold add_to_history, update_terminal. cbn [terminals].
  rewrite lookup_alter, decide_True by done. by rewrite Ht.
Qed.

Lemma add_to_history_lookup_ne S (tid k : string) (m : Message) :
  tid ≠ k →
  terminals (add_to_history S tid m) !! k = terminals S !! k.
Proof.
  intros Hne. unfold add_to_history, update_terminal. cbn [terminals].
  rewrite lookup_alter, decide_False by done. reflexivity.
Qed.

(** A message for a conversation the receiver takes no part in is put on
    record and nothing else happens. *)
Lemma receive_message_outsider (depth : nat) S (self : string) (message : Message)
    (now : Z) (t : AITerminal) :
  terminals S !! self = Some t →
  conversation_id message ∉ active_conversations t →
  receive_message generate_response (Datatypes.S depth) S self message now
  = (add_to_history S self message, Returned tt).
Proof.
  intros Ht Hout. cbn -[add_to_history update_terminal get_terminal fresh_uuid].
  rewrite Ht, (add_to_history_lookup S self message t Ht).
  rewrite decide_False; [reflexivity|exact Hout].
Qed.

(** X2: [receive_message] never raises on a terminal of the system: a
    failing generator, an unknown sender and a failing reply are all
    absorbed; the message is always on record afterwards, as the last entry
    of a history that grew by it, unless the reply chain came back to the
    receiver. *)
Theorem receive_message_never_raises (depth : nat) S (self : string)
    (message : Message) (now : Z) (t : AITerminal) :
  terminals S !! self = Some t →
  let r := receive_message generate_response (Datatypes.S depth) S self message now in
  r.2 = Returned tt
  ∧ (conversation_id message ∉ active_conversations t →
     r.1 = add_to_history S self message
     ∧ terminals r.1 !! self
       = Some (with_history t (_add_to_history (conversation_history t) message)))
  ∧ (∀ e, generate_response
            (with_history t (_add_to_history (conversation_history t) message)) message
          = Raised e →
          conversation_id message ∈ active_conversations t →
          (status <$> terminals r.1 !! self)
          = Some (if decide (e = TimeoutError) then status t else ERROR)).
Proof.
  intros Ht r. subst r. split; [|split].
  - cbn -[add_to_history update_terminal get_terminal fresh_uuid].
    rewrite Ht, (add_to_history_lookup S self message t Ht).
    case_decide; [|reflexivity].
    destruct (generate_response _ message) as [response|e].
    + destruct (get_terminal _ _) as [sender|]; [|reflexivity].
      destruct (send_message _ _ _ _ _ _ _) as [S2 [u|e]]; [reflexivity|].
      by destruct e.
    + by destruct e.
  - intros Hout. rewrite (receive_message_outsider depth S self message now t Ht Hout).
    split; [reflexivity|]. by apply add_to_history_lookup.
  - intros e He Hin.
    cbn -[add_to_history update_terminal get_terminal fresh_uuid].
    rewrite Ht, (add_to_history_lookup S self message t Ht).
    rewrite decide_True by exact Hin. rewrite He.
    assert (Herr : (status <$> terminals
                      (update_terminal (add_to_history S self message) self
                         (λ t0, with_status t0 ERROR)) !! self) = Some ERROR).
    { unfold update_terminal. cbn [terminals].
      rewrite lookup_alter, decide_True by done.
      by rewrite (add_to_history_lookup S self message t Ht). }
    destruct e; cbn [fst]; try (rewrite decide_False by discriminate; exact Herr).
    rewrite decide_True by done.
    by rewrite (add_to_history_lookup S self message t Ht).
Qed.

Lemma pretty_N_go_length (x : N) (s : string) :
  String.length s ≤ String.length (pretty_N_go x s).
Proof.
  revert s. induction (N.lt_wf_0 x) as [x _ IH]; intros s.
  destruct (decide (x = 0)%N) as [->|Hx]; [by rewrite pretty_N_go_0|].
  rewrite pretty_N_go_step by lia.
  etrans; [|apply IH; apply N.div_lt; lia]. cbn. lia.
Qed.

Lemma uuid_string_nonempty (n : N) : uuid_string n ≠ "".
Proof.
  unfold uuid_string, pretty, pretty_N. case_decide as Hn; [discriminate|].
  rewrite pretty_N_go_step by lia.
  intros Heq. apply (f_equal String.length) in Heq.
  pose proof (pretty_N_go_length (n `div` 10)
                (String (pretty_N_char (n `mod` 10)) "")) as Hlen.
  rewrite Heq in Hlen. cbn in Hlen. lia.
Qed.

(** X3: an idle terminal that starts a conversation with another terminal
    becomes [ACTIVE] with the new conversation as its current and only
    addition, both terminals record the opening message, and the other
    terminal, which was never told of the conversation, does not answer:
    its status and conversations are untouched and no third terminal
    changes. *)
Theorem start_conversation_is_one_sided (depth : nat) S (self other : string)
    (now : Z) (stamp : string) (t u : AITerminal) :
  terminals S !! self = Some t →
  terminals S !! other = Some u →
  self ≠ other →
  status t = IDLE →
  uuid_string (next_uuid S) ∉ active_conversations u →
  let cid := uuid_string (next_uuid S) in
  let opening :=
    {| content := generate_initial_message t stamp; timestamp := now;
       sender_id := terminal_id t; conversation_id := cid;
       message_id := N.succ (next_uuid S);
       metadata := [("model_type", MStr (model_type t));
                    ("sequence_number", MInt (length (conversation_history t)))] |} in
  let r := start_conversation generate_response (Datatypes.S (Datatypes.S depth))
             S self other now stamp in
  r.2 = Returned cid
  ∧ terminals r.1 !! self
    = Some {| terminal_id := terminal_id t; model_type := model_type t;
              conversation_history := _add_to_history (conversation_history t) opening;
              active_conversations := {[cid]} ∪ active_conversations t;
              status := ACTIVE;
              current_conversation_id := Some cid |}
  ∧ terminals r.1 !! other
    = Some (with_history u (_add_to_history (conversation_history u) opening))
  ∧ ∀ k, k ≠ self → k ≠ other → terminals r.1 !! k = terminals S !! k.
Proof.
  intros Ht Hu Hne Hidle Hfresh. cbv zeta.
  pose proof (uuid_string_nonempty (next_uuid S)) as Hnonempty.
  destruct (uuid_string (next_uuid S)) as [|ch rest] eqn:Hcid; [done|].
  set (opening :=
    {| content := generate_initial_message t stamp; timestamp := now;
       sender_id := terminal_id t; conversation_id := String ch rest;
       message_id := N.succ (next_uuid S);
       metadata := [("model_type", MStr (model_type t));
                    ("sequence_number", MInt (length (conversation_history t)))] |}).
  set (S2 := update_terminal
               {| terminals := terminals S; registry := registry S;
                  next_uuid := N.succ (next_uuid S) |}
               self (λ t', with_conversation t' (String ch rest))).
  set (S3 := {| terminals := terminals S2; registry := registry S2;
                next_uuid := N.succ (N.succ (next_uuid S)) |}).
  assert (H2self : terminals S2 !! self = Some (with_conversation t (String ch rest))).
  { subst S2. unfold update_terminal. cbn [terminals].
    rewrite lookup_alter, decide_True by done. by rewrite Ht. }
  assert (H2other : ∀ k, k ≠ self → terminals S2 !! k = terminals S !! k).
  { intros k Hk. subst S2. unfold update_terminal. cbn [terminals].
    rewrite lookup_alter, decide_False by done. reflexivity. }
  assert (H4other : terminals (add_to_history S3 self opening) !! other = Some u).
  { rewrite add_to_history_lookup_ne by done. subst S3. cbn [terminals].
    rewrite H2other by done. exact Hu. }
  assert (Heq : start_conversation generate_response (Datatypes.S (Datatypes.S depth))
                  S self other now stamp
                = (add_to_history (add_to_history S3 self opening) other opening,
                   Returned (String ch rest))).
  { unfold start_conversation. rewrite Ht, decide_True by exact Hidle.
    cbn [fresh_uuid]. rewrite Hcid. fold S2.
    rewrite send_message_step, H2self.
    cbn [with_conversation current_conversation_id fresh_uuid].
    change (receive_message generate_response (Datatypes.S depth) _ other _ now)
      with (receive_message generate_response (Datatypes.S depth)
              (add_to_history S3 self opening) other opening now).
    by rewrite (receive_message_outsider depth _ other opening now u H4other Hfresh). }
  rewrite Heq. cbn [fst snd]. split; [reflexivity|]. split; [|split].
  - rewrite add_to_history_lookup_ne by done.
    rewrite (add_to_history_lookup S3 self opening
               (with_conversation t (String ch rest)) H2self).
    reflexivity.
  - by rewrite (add_to_history_lookup _ other opening u H4other).
  - intros k Hks Hko. rewrite !add_to_history_lookup_ne by done.
    subst S3. cbn [terminals]. by apply H2other.
Qed.

End TerminalConversation.

Lemma receive_message_never_raises_witness :
  (Terminal.receive_message Terminal.example_generate 2 Terminal.example_pair "b"
     (Terminal.example_message 7) 0%Z).2 = Returned tt.
Proof.
  exact (proj1 (receive_message_never_raises Terminal.example_generate 1
                  Terminal.example_pair "b" (Terminal.example_message 7) 0%Z
                  (Terminal.mkTerminal "b" "gpt" [] ∅ Terminal.IDLE None) eq_refl)).
Defined.

Lemma start_conversation_is_one_sided_witness :
  let r := Terminal.start_conversation Terminal.example_generate 2
             Terminal.example_pair "a" "b" 0%Z "2024-01-01 00:00:00" in
  r.2 = Returned "0"
  ∧ (Terminal.status <$> Terminal.terminals r.1 !! "a") = Some Terminal.ACTIVE
  ∧ (Terminal.status <$> Terminal.terminals r.1 !! "b") = Some Terminal.IDLE
  ∧ (length ∘ Terminal.conversation_history <$> Terminal.terminals r.1 !! "b") = Some 1.
Proof.
  intros r.
  assert (Hfresh : Terminal.uuid_string (Terminal.next_uuid Terminal.example_pair)
                   ∉ Terminal.active_conversations
                       (Terminal.mkTerminal "b" "gpt" [] ∅ Terminal.IDLE None))
    by apply not_elem_of_empty.
  assert (Hne : "a" ≠ "b") by discriminate.
  pose proof (start_conversation_is_one_sided Terminal.example_generate 0
                Terminal.example_pair "a" "b" 0%Z "2024-01-01 00:00:00"
                (Terminal.mkTerminal "a" "gpt" [] ∅ Terminal.IDLE None)
                (Terminal.mkTerminal "b" "gpt" [] ∅ Terminal.IDLE None)
                eq_refl eq_refl Hne eq_refl Hfresh) as (H1 & H2 & H3 & _).
  fold r in H1, H2, H3.
  split; [exact H1|]. rewrite H2, H3. repeat split.
Defined.

(** ** AITerminal: the retry loop of generate_response *)

Section TerminalRetry.
Import Terminal.

(** X4: [generate_response] consults the model at most [MAX_RETRIES = 3]
    times: it returns the first response obtained, sleeping 1 s after the
    first failure and 2 s after the second, and re-raises the third failure
    without sleeping again; it never falls out of its loop without a result,
    and later behaviour of the model is of no account. *)
Theorem generate_response_gives_up_after_three (model : nat → Outcome string)
    (rounds : nat) :
  MAX_RETRIES ≤ rounds →
  let r := generate_response_retrying model rounds in
  (∀ response, model 0 = Returned response → r = (Returned (Some response), []))
  ∧ (∀ e0 response, model 0 = Raised e0 → model 1 = Returned response →
       r = (Returned (Some response), [1]))
  ∧ (∀ e0 e1 response, model 0 = Raised e0 → model 1 = Raised e1 →
       model 2 = Returned response → r = (Returned (Some response), [1; 2]))
  ∧ (∀ e0 e1 e2, model 0 = Raised e0 → model 1 = Raised e1 → model 2 = Raised e2 →
       r = (Raised e2, [1; 2]))
  ∧ r.1 ≠ Returned None
  ∧ (∀ model', (∀ i, i < MAX_RETRIES → model' i = model i) →
       generate_response_retrying model' rounds = r).
Proof.
  intros Hrounds r. subst r. unfold generate_response_retrying, MAX_RETRIES in *.
  destruct rounds as [|[|[|rounds]]]; try lia.
  assert (Hcases : ∀ m : nat → Outcome string,
            retry_loop m (Datatypes.S (Datatypes.S (Datatypes.S rounds))) 0
            = match m 0 with
              | Returned a => (Returned (Some a), [])
              | Raised _ =>
                  match m 1 with
                  | Returned a => (Returned (Some a), [1])
                  | Raised _ =>
                      match m 2 with
                      | Returned a => (Returned (Some a), [1; 2])
                      | Raised e2 => (Raised e2, [1; 2])
                      end
                  end
              end).
  { intros m. cbn. destruct (m 0); [reflexivity|].
    destruct (m 1); [reflexivity|]. destruct (m 2); reflexivity. }
  rewrite Hcases. repeat split.
  - by intros response ->.
  - by intros e0 response -> ->.
  - by intros e0 e1 response -> -> ->.
  - by intros e0 e1 e2 -> -> ->.
  - destruct (model 0); [discriminate|]. destruct (model 1); [discriminate|].
    destruct (model 2); discriminate.
  - intros model' Hsame. rewrite Hcases.
    rewrite !Hsame by lia. reflexivity.
Qed.

End TerminalRetry.

Lemma generate_response_gives_up_after_three_witness :
  Terminal.generate_response_retrying
    (λ i, if decide (i = 1) then Returned "Echo" else Raised GenerationError) 5
  = (Returned (Some "Echo"), [1]).
Proof.
  assert (Hrounds : Terminal.MAX_RETRIES ≤ 5) by (unfold Terminal.MAX_RETRIES; lia).
  exact (proj1 (proj2 (generate_response_gives_up_after_three _ 5 Hrounds))
           GenerationError "Echo" eq_refl eq_refl).
Defined.

(** ** ConversationManager: history, creation and ending *)

Section ConversationLifecycle.
Import Conversation.

Implicit Types (M : ConversationManager).

Lemma py_tail_slice_suffix {A} (n : Z) (l : list A) : py_tail_slice n l `suffix_of` l.
Proof.
  unfold py_tail_slice. repeat case_decide; try apply suffix_drop. done.
Qed.

Lemma py_tail_slice_length {A} (n : Z) (l : list A) :
  (0 < n)%Z → length (py_tail_slice n l) = Nat.min (Z.to_nat n) (length l).
Proof.
  intros Hn. unfold py_tail_slice. rewrite decide_True by done.
  rewrite length_drop. lia.
Qed.

(** X5: the history of a conversation on record is returned in stored
    order and holds exactly the messages inside the time filters when no
    limit (or a limit of zero) is given; a positive limit keeps the latest
    [limit] of them.  An unknown conversation gives a [ConversationError]. *)
Theorem get_conversation_history_filters M (cid : string)
    (start_time end_time : option Z) (limit : option Z) (c : Conversation) :
  active_conversations M !! cid = Some c →
  ∃ l all,
    get_conversation_history M cid start_time end_time limit = Returned l
    ∧ get_conversation_history M cid start_time end_time None = Returned all
    ∧ all `sublist_of` messages c
    ∧ (∀ m, m ∈ all ↔ m ∈ messages c ∧ in_range start_time end_time m)
    ∧ l `suffix_of` all
    ∧ (limit = None ∨ limit = Some 0%Z → l = all)
    ∧ (∀ n, limit = Some n → (0 < n)%Z → length l = Nat.min (Z.to_nat n) (length all)).
Proof.
  intros Hc. unfold get_conversation_history, get_conversation_history_body.
  rewrite Hc.
  set (m1 := match start_time with
             | Some t => filter (λ m, (t ≤ msg_timestamp m)%Z) (messages c)
             | None => messages c
             end).
  set (m2 := match end_time with
             | Some t => filter (λ m, (msg_timestamp m ≤ t)%Z) m1
             | None => m1
             end).
  eexists _, m2. split; [reflexivity|]. split; [reflexivity|].
  split; [|split; [|split; [|split]]].
  - subst m2 m1. destruct end_time, start_time;
      repeat (etrans; [apply sublist_filter|]); done.
  - intros m. subst m2 m1. unfold in_range.
    destruct end_time as [te|], start_time as [ts|];
      rewrite ?list_elem_of_filter; split.
    + intros (? & ? & ?). split; [done|]. split; intros ? [= <-]; done.
    + intros (? & Hs & He). split; [by apply He|]. split; [by apply Hs|done].
    + intros (? & ?). split; [done|]. split; [intros ? [=]|intros ? [= <-]; done].
    + intros (? & _ & He). split; [by apply He|done].
    + intros (? & ?). split; [done|]. split; [intros ? [= <-]; done|intros ? [=]].
    + intros (? & Hs & _). split; [by apply Hs|done].
    + intros ?. split; [done|]. split; intros ? [=].
    + by intros (? & _).
  - destruct limit as [[|n|n]|]; try done; apply py_tail_slice_suffix.
  - intros [->| ->]; reflexivity.
  - intros n -> Hn. destruct n as [|n|n]; try lia.
    by apply py_tail_slice_length.
Qed.

Lemma get_conversation_history_unknown M (cid : string)
    (start_time end_time : option Z) (limit : option Z) :
  active_conversations M !! cid = None →
  get_conversation_history M cid start_time end_time limit
  = Raised (ConversationError
              ("Failed to get conversation history: Conversation " +:+ cid
                 +:+ " not found")).
Proof.
  intros Hc. unfold get_conversation_history, get_conversation_history_body.
  by rewrite Hc.
Qed.

Lemma create_conversation_ok M (t1 t2 : string) (meta : option Metadata)
    (now : Z) (stamp : string) :
  (Z.of_nat (size (active_conversations M)) < max_conversations (config M))%Z →
  create_conversation M t1 t2 meta now stamp
  = ({| config := config M;
        active_conversations :=
          <[_generate_conversation_id t1 t2 stamp :=
              new_conversation t1 t2 meta now stamp]> (active_conversations M);
        conversation_pairs :=
          <[_generate_conversation_id t1 t2 stamp := (t1, t2)]> (conversation_pairs M);
        terminal_conversations :=
          add_terminal_conversation
            (add_terminal_conversation (terminal_conversations M) t1
               (_generate_conversation_id t1 t2 stamp))
            t2 (_generate_conversation_id t1 t2 stamp) |},
     Returned (_generate_conversation_id t1 t2 stamp)).
Proof.
  intros Hroom. unfold create_conversation, create_conversation_body.
  rewrite decide_False by lia. reflexivity.
Qed.

(** X6: a conversation created between two different terminals can be
    ended: the call returns, the conversation is gone from the manager's
    tables, which are otherwise as before the creation, and neither
    terminal's index lists it any more. *)
Theorem create_then_end_conversation M (t1 t2 : string) (meta : option Metadata)
    (now : Z) (stamp : string) (reason : option string) (now' : Z) :
  t1 ≠ t2 →
  (Z.of_nat (size (active_conversations M)) < max_conversations (config M))%Z →
  let cid := _generate_conversation_id t1 t2 stamp in
  let created := create_conversation M t1 t2 meta now stamp in
  let ended := end_conversation created.1 cid reason now' in
  created.2 = Returned cid
  ∧ active_conversations created.1 !! cid = Some (new_conversation t1 t2 meta now stamp)
  ∧ ended.2 = Returned tt
  ∧ active_conversations ended.1 = delete cid (active_conversations M)
  ∧ conversation_pairs ended.1 = delete cid (conversation_pairs M)
  ∧ terminal_conversations ended.1 !! t1
    = Some (default ∅ (terminal_conversations M !! t1) ∖ {[cid]})
  ∧ terminal_conversations ended.1 !! t2
    = Some (default ∅ (terminal_conversations M !! t2) ∖ {[cid]}).
Proof.
  intros Hne Hroom cid created ended. subst ended created.
  rewrite (create_conversation_ok M t1 t2 meta now stamp Hroom). fold cid.
  cbn [fst snd]. split; [reflexivity|].
  split; [cbn [active_conversations]; apply lookup_insert_eq|].
  unfold end_conversation, end_conversation_body.
  cbn [active_conversations]. rewrite lookup_insert_eq.
  cbn [set_conversation conversation_pairs terminal_conversations
         active_conversations config]. rewrite lookup_insert_eq.
  unfold remove_terminal_conversation, add_terminal_conversation.
  set (d1 := default ∅ (terminal_conversations M !! t1)).
  set (d2 := default ∅ (terminal_conversations M !! t2)).
  set (tcA := <[t1 := {[cid]} ∪ d1]> (terminal_conversations M)).
  assert (HA2 : tcA !! t2 = terminal_conversations M !! t2)
    by (subst tcA; by rewrite lookup_insert_ne).
  rewrite HA2. fold d2.
  set (tcB := <[t2 := {[cid]} ∪ d2]> tcA).
  assert (HB1 : tcB !! t1 = Some ({[cid]} ∪ d1)).
  { subst tcB tcA. rewrite lookup_insert_ne by done. apply lookup_insert_eq. }
  rewrite HB1. rewrite decide_True by set_solver.
  assert (HC2 : <[t1 := ({[cid]} ∪ d1) ∖ {[cid]}]> tcB !! t2 = Some ({[cid]} ∪ d2)).
  { subst tcB. rewrite lookup_insert_ne by done. apply lookup_insert_eq. }
  rewrite HC2. rewrite decide_True by set_solver.
  cbn [wrap_error fst snd active_conversations conversation_pairs
         terminal_conversations].
  split; [reflexivity|].
  split; [by rewrite insert_insert_eq, delete_insert_eq|].
  split; [by rewrite delete_insert_eq|].
  split.
  - rewrite lookup_insert_ne by done. rewrite lookup_insert_eq. f_equal.
    by rewrite difference_union_distr_l_L, difference_diag_L, union_empty_l_L.
  - rewrite lookup_insert_eq. f_equal.
    by rewrite difference_union_distr_l_L, difference_diag_L, union_empty_l_L.
Qed.

End ConversationLifecycle.

Lemma get_conversation_history_filters_witness :
  ∃ l all,
    Conversation.get_conversation_history Conversation.example_history_manager "c"
      (Some 2%Z) None (Some 1%Z) = Returned l
    ∧ Conversation.get_conversation_history Conversation.example_history_manager "c"
        (Some 2%Z) None None = Returned all
    ∧ length all = 2 ∧ length l = 1 ∧ l `suffix_of` all.
Proof.
  assert (Hc : Conversation.active_conversations Conversation.example_history_manager
               !! "c" = Some Conversation.example_history_conversation)
    by (vm_compute; reflexivity).
  destruct (get_conversation_history_filters Conversation.example_history_manager "c"
              (Some 2%Z) None (Some 1%Z) Conversation.example_history_conversation Hc)
    as (l & all & H1 & H2 & _ & _ & H5 & _ & H7).
  exists l, all. split; [exact H1|]. split; [exact H2|].
  assert (Hall : length all = 2)
    by (vm_compute in H2; injection H2 as <-; reflexivity).
  split; [exact Hall|]. split; [|exact H5].
  rewrite (H7 1%Z eq_refl) by lia. rewrite Hall. reflexivity.
Defined.

Lemma create_then_end_conversation_witness :
  let created := Conversation.create_conversation
                   (Conversation.init Conversation.default_config)
                   "t1" "t2" None 0%Z "20240101-000000-000000" in
  let ended := Conversation.end_conversation created.1
                 Conversation.example_conversation_id (Some "done") 1%Z in
  ended.2 = Returned tt
  ∧ Conversation.active_conversations ended.1 = ∅.
Proof.
  intros created ended.
  assert (Hne : "t1" ≠ "t2") by discriminate.
  assert (Hroom : (Z.of_nat (size (Conversation.active_conversations
                                      (Conversation.init Conversation.default_config)))
                   < Conversation.max_conversations
                       (Conversation.config
                          (Conversation.init Conversation.default_config)))%Z)
    by (vm_compute; reflexivity).
  destruct (create_then_end_conversation
              (Conversation.init Conversation.default_config) "t1" "t2" None 0%Z
              "20240101-000000-000000" (Some "done") 1%Z Hne Hroom)
    as (_ & _ & H3 & H4 & _).
  split; [exact H3|]. etrans; [exact H4|]. apply delete_empty.
Defined.

(** ** ConversationManager: the managers a run can reach *)

Section ConversationReachable.
Import Conversation.

Implicit Types (M : ConversationManager).

Lemma py_tail_slice_nil {A} (n : Z) : py_tail_slice n ([] : list A) = [].
Proof. unfold py_tail_slice. repeat case_decide; by rewrite ?drop_nil. Qed.

(** What [end_conversation] does to the table of conversations, whether it
    returns or raises. *)
Lemma end_conversation_active M (cid : string) (reason : option string) (now : Z) :
  let M' := (end_conversation M cid reason now).1 in
  config M' = config M
  ∧ size (active_conversations M') ≤ size (active_conversations M)
  ∧ ∀ k c, active_conversations M' !! k = Some c →
      ∃ c0, active_conversations M !! k = Some c0 ∧ messages c = messages c0.
Proof.
  unfold end_conversation, end_conversation_body.
  destruct (active_conversations M !! cid) as [c0|] eqn:Hc.
  2:{ cbn [wrap_error fst]. split; [done|]. split; [done|]. intros k c ->. by eexists. }
  set (c' := {| id := id c0; terminal1_id := terminal1_id c0;
                terminal2_id := terminal2_id c0; start_time := start_time c0;
                last_activity := last_activity c0; status := ENDED;
                messages := messages c0;
                metadata := meta_set (meta_set (metadata c0) "end_reason"
                                        (default "None" reason))
                              "end_time" (pretty now) |}).
  assert (Hsize : size (<[cid := c']> (active_conversations M))
                  = size (active_conversations M))
    by (apply map_size_insert_Some; by eexists).
  assert (Hlook : ∀ k c, <[cid := c']> (active_conversations M) !! k = Some c →
            ∃ c1, active_conversations M !! k = Some c1 ∧ messages c = messages c1).
  { intros k c. destruct (decide (cid = k)) as [<-|Hk].
    - rewrite lookup_insert_eq. intros [= <-]. by exists c0.
    - rewrite lookup_insert_ne by done. intros ->. by eexists. }
  destruct (conversation_pairs (set_conversation M cid c') !! cid) as [[t1 t2]|].
  2:{ cbn [wrap_error fst set_conversation active_conversations config].
      split; [done|]. split; [lia|done]. }
  destruct (remove_terminal_conversation _ t1 cid) as [tc1|e1].
  2:{ cbn [wrap_error fst set_conversation active_conversations config].
      split; [done|]. split; [lia|done]. }
  destruct (remove_terminal_conversation tc1 t2 cid) as [tc2|e2];
    cbn [wrap_error fst set_conversation active_conversations config].
  - split; [done|]. split.
    + rewrite map_size_delete_Some by (rewrite lookup_insert_eq; by eexists). lia.
    + intros k c Hk. apply Hlook. by apply lookup_delete_Some in Hk as [_ ?].
  - split; [done|]. split; [lia|done].
Qed.

(** The message list of every conversation is empty, and the manager is
    within its capacity. *)
Lemma run_calls_invariant (cfg : Config) (calls : list Call) :
  let M := run_calls (init cfg) calls in
  config M = cfg
  ∧ (Z.of_nat (size (active_conversations M)) ≤ Z.max 0 (max_conversations cfg))%Z
  ∧ ∀ k c, active_conversations M !! k = Some c → messages c = [].
Proof.
  unfold run_calls.
  apply (foldl_invariant
           (λ M, config M = cfg
                 ∧ (Z.of_nat (size (active_conversations M))
                    ≤ Z.max 0 (max_conversations cfg))%Z
                 ∧ ∀ k c, active_conversations M !! k = Some c → messages c = [])).
  - intros M call (Hcfg & Hsize & Hmsg). destruct call as [t1 t2 meta now stamp|
      cid content sender meta now|cid reason now]; cbn [run_call].
    + unfold create_conversation, create_conversation_body.
      case_decide as Hfull; cbn [wrap_error fst config active_conversations];
        [done|].
      split; [done|]. split.
      * rewrite Hcfg in Hfull.
        destruct (active_conversations M !! _generate_conversation_id t1 t2 stamp)
          eqn:Hold.
        -- rewrite map_size_insert_Some by (by eexists). lia.
        -- rewrite map_size_insert_None by done. lia.
      * intros k c. set (cid := _generate_conversation_id t1 t2 stamp).
        destruct (decide (cid = k)) as [<-|Hk].
        -- rewrite lookup_insert_eq. by intros [= <-].
        -- rewrite lookup_insert_ne by done. apply Hmsg.
    + destruct (add_message_never_returns M cid content sender meta now) as [msg ->].
      done.
    + destruct (end_conversation_active M cid reason now) as (H1 & H2 & H3).
      split; [by rewrite H1|]. split; [lia|].
      intros k c Hk. destruct (H3 k c Hk) as (c0 & Hc0 & ->). by eapply Hmsg.
  - cbn [init config active_conversations]. split; [done|]. split.
    + rewrite map_size_empty. lia.
    + intros k c. by rewrite lookup_empty.
Qed.

(** Ending a conversation whose two participants are one terminal raises:
    the id is removed from the terminal's index at most once, and the
    removal that follows finds it gone. *)
Lemma end_self_conversation_raises M (cid t : string) (c : Conversation)
    (s : gset string) (reason : option string) (now : Z) :
  active_conversations M !! cid = Some c →
  conversation_pairs M !! cid = Some (t, t) →
  terminal_conversations M !! t = Some s →
  let r := end_conversation M cid reason now in
  r.2 = Raised (ConversationError ("Failed to end conversation: '" +:+ cid +:+ "'"))
  ∧ (status <$> active_conversations r.1 !! cid) = Some ENDED
  ∧ conversation_pairs r.1 !! cid = Some (t, t)
  ∧ ∃ s', terminal_conversations r.1 !! t = Some s' ∧ cid ∉ s'.
Proof.
  intros Hc Hp Ht. unfold end_conversation, end_conversation_body.
  rewrite Hc. cbn [set_conversation conversation_pairs terminal_conversations
                     active_conversations config].
  rewrite Hp. unfold remove_terminal_conversation. rewrite Ht.
  destruct (decide (cid ∈ s)) as [Hin|Hout].
  - rewrite lookup_insert_eq.
    rewrite decide_False by (intros [_ Hn]%elem_of_difference; apply Hn;
                             apply elem_of_singleton; reflexivity).
    cbn [wrap_error fst snd str_exn active_conversations conversation_pairs
           terminal_conversations].
    split; [reflexivity|]. split; [by rewrite lookup_insert_eq|].
    split; [exact Hp|]. eexists. split; [apply lookup_insert_eq|].
    intros [_ Hn]%elem_of_difference. apply Hn, elem_of_singleton. reflexivity.
  - cbn [wrap_error fst snd str_exn active_conversations conversation_pairs
           terminal_conversations set_conversation].
    split; [reflexivity|]. split; [by rewrite lookup_insert_eq|].
    split; [exact Hp|]. by exists s.
Qed.

(** X7: a conversation of a terminal with itself cannot be ended.  It is
    created like any other, but [end_conversation] removes its id from the
    terminal's index twice, and the second removal raises; the call fails
    with a [ConversationError], the conversation stays on record with status
    [ENDED], and every later attempt to end it fails the same way. *)
Theorem self_conversation_cannot_be_ended M (t : string) (meta : option Metadata)
    (now : Z) (stamp : string) (reason : option string) (now' : Z) :
  (Z.of_nat (size (active_conversations M)) < max_conversations (config M))%Z →
  let cid := _generate_conversation_id t t stamp in
  let created := create_conversation M t t meta now stamp in
  let ended := end_conversation created.1 cid reason now' in
  created.2 = Returned cid
  ∧ ended.2 = Raised (ConversationError
                        ("Failed to end conversation: '" +:+ cid +:+ "'"))
  ∧ (status <$> active_conversations ended.1 !! cid) = Some ENDED
  ∧ conversation_pairs ended.1 !! cid = Some (t, t)
  ∧ ∀ (reason2 : option string) (now2 : Z),
      let again := end_conversation ended.1 cid reason2 now2 in
      again.2 = ended.2
      ∧ (status <$> active_conversations again.1 !! cid) = Some ENDED
      ∧ conversation_pairs again.1 !! cid = Some (t, t).
Proof.
  intros Hroom cid created ended.
  assert (Hcreated : created.2 = Returned cid
                     ∧ active_conversations created.1 !! cid
                       = Some (new_conversation t t meta now stamp)
                     ∧ conversation_pairs created.1 !! cid = Some (t, t)
                     ∧ is_Some (terminal_conversations created.1 !! t)).
  { subst created. rewrite (create_conversation_ok M t t meta now stamp Hroom).
    fold cid. cbn [fst snd active_conversations conversation_pairs
                     terminal_conversations].
    split; [reflexivity|]. split; [apply lookup_insert_eq|].
    split; [apply lookup_insert_eq|].
    unfold add_terminal_conversation. rewrite lookup_insert_eq. by eexists. }
  destruct Hcreated as (Hid & Hc & Hp & [s Ht]).
  split; [exact Hid|].
  destruct (end_self_conversation_raises created.1 cid t _ s reason now' Hc Hp Ht)
    as (He & Hst & Hp' & s' & Ht' & _).
  fold ended in He, Hst, Hp', Ht'.
  split; [exact He|]. split; [exact Hst|]. split; [exact Hp'|].
  intros reason2 now2 again.
  destruct (active_conversations ended.1 !! cid) as [c2|] eqn:Hc2; [|discriminate].
  destruct (end_self_conversation_raises ended.1 cid t c2 s' reason2 now2 Hc2 Hp' Ht')
    as (He2 & Hst2 & Hp2 & _).
  fold again in He2, Hst2, Hp2.
  split; [by rewrite He2, He|]. split; [exact Hst2|exact Hp2].
Qed.

(** X8: no manager reached from a fresh one ever holds a message: whatever
    calls of [create_conversation], [add_message] and [end_conversation]
    were made, the history of a conversation on record is the empty list,
    for every choice of filters and limit. *)
Theorem reachable_history_is_empty (cfg : Config) (calls : list Call)
    (cid : string) (start_time end_time : option Z) (limit : option Z) :
  let M := run_calls (init cfg) calls in
  get_conversation_history M cid start_time end_time limit
  = match active_conversations M !! cid with
    | Some _ => Returned []
    | None =>
        Raised (ConversationError
                  ("Failed to get conversation history: Conversation " +:+ cid
                     +:+ " not found"))
    end.
Proof.
  intros M. destruct (run_calls_invariant cfg calls) as (_ & _ & Hmsg).
  fold M in Hmsg.
  destruct (active_conversations M !! cid) as [c|] eqn:Hc.
  - unfold get_conversation_history, get_conversation_history_body.
    rewrite Hc, (Hmsg cid c Hc).
    destruct start_time, end_time, limit as [[|n|n]|];
      cbn [filter list_filter]; by rewrite ?py_tail_slice_nil.
  - by apply get_conversation_history_unknown.
Qed.

(** X9: a manager never holds more conversations than its configuration
    allows: after any calls on a fresh manager the configuration is the one
    it was built with and at most [max_conversations] conversations are on
    record (none when that number is not positive). *)
Theorem reachable_within_capacity (cfg : Config) (calls : list Call) :
  let M := run_calls (init cfg) calls in
  config M = cfg
  ∧ (Z.of_nat (size (active_conversations M)) ≤ Z.max 0 (max_conversations cfg))%Z.
Proof.
  intros M. destruct (run_calls_invariant cfg calls) as (H1 & H2 & _). done.
Qed.

End ConversationReachable.

Lemma self_conversation_cannot_be_ended_witness :
  let created := Conversation.create_conversation
                   (Conversation.init Conversation.default_config)
                   "t1" "t1" None 0%Z "20240101-000000-000000" in
  let ended := Conversation.end_conversation created.1
                 "conv-t1-t1-20240101-000000-000000" None 1%Z in
  ended.2 = Raised (ConversationError
                      "Failed to end conversation: 'conv-t1-t1-20240101-000000-000000'")
  ∧ size (Conversation.active_conversations ended.1) = 1.
Proof.
  intros created ended.
  assert (Hroom : (Z.of_nat (size (Conversation.active_conversations
                                      (Conversation.init Conversation.default_config)))
                   < Conversation.max_conversations
                       (Conversation.config
                          (Conversation.init Conversation.default_config)))%Z)
    by (vm_compute; reflexivity).
  destruct (self_conversation_cannot_be_ended
              (Conversation.init Conversation.default_config) "t1" None 0%Z
              "20240101-000000-000000" None 1%Z Hroom) as (_ & H2 & _).
  split; [exact H2|]. vm_compute. reflexivity.
Defined.

(** ** ConnectionManager: what a call leaves alone *)

Section WebsocketConnections.
Import Websocket.
Context {W : Type} `{!Transport W}.

Implicit Types (M : ConnectionManager W) (tid t : string) (c : ConnectionInfo W).

Lemma buffer_if_active retry M t message now :
  active_connections (buffer_if retry M t message now) = active_connections M.
Proof. by destruct retry. Qed.

Lemma disconnect_frame M t code reason now tid :
  t ≠ tid →
  active_connections (disconnect M t code reason now).1 !! tid
  = active_connections M !! tid.
Proof.
  intros Hne. unfold disconnect.
  destruct (active_connections M !! t) as [c|]; [|done].
  destruct (if decide _ then _ else _) as [w [[]|e]]; cbn [fst].
  - destruct (message_buffer _ !! t);
      cbn [active_connections set_buffer set_connection]; by rewrite lookup_insert_ne.
  - cbn [active_connections set_connection]. by rewrite lookup_insert_ne.
Qed.

Lemma _handle_connection_error_frame M t error now tid :
  t ≠ tid →
  active_connections (_handle_connection_error M t error now) !! tid
  = active_connections M !! tid.
Proof.
  intros Hne. unfold _handle_connection_error.
  destruct (active_connections M !! t) as [c|]; [|done].
  case_decide.
  - rewrite disconnect_frame by done.
    cbn [active_connections set_connection]. by rewrite lookup_insert_ne.
  - cbn [active_connections set_connection]. by rewrite !lookup_insert_ne.
Qed.

Lemma _handle_disconnect_frame M t now tid :
  t ≠ tid →
  active_connections (_handle_disconnect M t now) !! tid = active_connections M !! tid.
Proof.
  intros Hne. unfold _handle_disconnect.
  destruct (active_connections M !! t) as [c|]; [|done].
  cbn [active_connections set_connection]. by rewrite lookup_insert_ne.
Qed.

(** A send addressed to [t] changes no other terminal's connection. *)
Lemma send_message_frame M t message retry now tid :
  t ≠ tid →
  active_connections (send_message M t message retry now).1 !! tid
  = active_connections M !! tid.
Proof.
  intros Hne. unfold send_message.
  destruct (active_connections M !! t) as [c|];
    [|cbn [fst]; by rewrite buffer_if_active].
  destruct (negb _); [cbn [fst]; by rewrite buffer_if_active|].
  destruct (ws_send_json _ _) as [w [[]|e]].
  - cbn [fst active_connections set_connection]. by rewrite lookup_insert_ne.
  - destruct e; cbn [fst]; rewrite buffer_if_active;
      rewrite ?_handle_disconnect_frame, ?_handle_connection_error_frame by done;
      cbn [active_connections set_connection]; by rewrite lookup_insert_ne.
Qed.

(** A send to a terminal that is unknown or not [CONNECTED] touches no
    socket: it buffers the message when asked to and reports failure. *)
Lemma send_message_not_connected M t message retry now :
  (∀ c, active_connections M !! t = Some c → state c ≠ CONNECTED) →
  send_message M t message retry now = (buffer_if retry M t message now, false).
Proof.
  intros Hst. unfold send_message.
  destruct (active_connections M !! t) as [c|]; [|done].
  rewrite bool_decide_eq_false_2 by (by apply Hst). reflexivity.
Qed.

Lemma send_message_keeps M t message retry now tid c :
  state c ≠ CONNECTED →
  active_connections M !! tid = Some c →
  active_connections (send_message M t message retry now).1 !! tid = Some c.
Proof.
  intros Hst Hc. destruct (decide (t = tid)) as [->|Hne].
  - rewrite send_message_not_connected.
    + cbn [fst]. by rewrite buffer_if_active.
    + intros c'. rewrite Hc. by intros [= <-].
  - by rewrite send_message_frame.
Qed.

Lemma _send_buffered_messages_keeps M t now tid c :
  state c ≠ CONNECTED →
  active_connections M !! tid = Some c →
  active_connections (_send_buffered_messages M t now) !! tid = Some c.
Proof.
  intros Hst Hc. unfold _send_buffered_messages.
  destruct (message_buffer M !! t) as [[|m ms]|]; try exact Hc.
  apply (foldl_invariant (λ M', active_connections M' !! tid = Some c)).
  - intros M' m' H'. by apply send_message_keeps.
  - exact Hc.
Qed.

Lemma connect_frame M t ws meta now tid c :
  t ≠ tid →
  state c ≠ CONNECTED →
  active_connections M !! tid = Some c →
  active_connections (connect M t ws meta now).1 !! tid = Some c.
Proof.
  intros Hne Hst Hc. unfold connect.
  destruct (ws_accept ws) as [w [[]|e]]; cbn [fst].
  - apply _send_buffered_messages_keeps; [done|].
    cbn [active_connections set_buffer set_connection]. by rewrite lookup_insert_ne.
  - by rewrite _handle_connection_error_frame.
Qed.

Lemma _connection_heartbeat_keeps M t now tid c :
  state c ≠ CONNECTED →
  active_connections M !! tid = Some c →
  active_connections (_connection_heartbeat M t now) !! tid = Some c.
Proof.
  intros Hst Hc. unfold _connection_heartbeat.
  destruct (active_connections M !! t) as [c'|] eqn:Hc'; [|done].
  destruct (bool_decide (state c' = CONNECTED)) eqn:Hs; [|done].
  apply bool_decide_eq_true in Hs.
  assert (Hne : t ≠ tid) by (intros ->; rewrite Hc in Hc'; by injection Hc' as <-).
  destruct (ws_send_json _ _) as [w [[]|e]].
  - cbn [active_connections set_connection]. by rewrite lookup_insert_ne.
  - rewrite _handle_connection_error_frame by done.
    cbn [active_connections set_connection]. by rewrite lookup_insert_ne.
Qed.

Lemma _heartbeat_monitor_keeps M now tid c :
  state c ≠ CONNECTED →
  active_connections M !! tid = Some c →
  active_connections (_heartbeat_monitor M now) !! tid = Some c.
Proof.
  intros Hst Hc. unfold _heartbeat_monitor.
  apply (foldl_invariant (λ M', active_connections M' !! tid = Some c)); [|exact Hc].
  intros M' t H'. destruct (active_connections M' !! t) as [c'|] eqn:Hc'; [|done].
  destruct (bool_decide (state c' = CONNECTED)) eqn:Hs; [|done].
  apply bool_decide_eq_true in Hs. cbn [andb].
  destruct (bool_decide _); [|done].
  rewrite _handle_connection_error_frame; [done|].
  intros ->. rewrite H' in Hc'. by injection Hc' as <-.
Qed.

Lemma _cleanup_disconnected_keeps M now tid c :
  state c ≠ DISCONNECTED →
  active_connections M !! tid = Some c →
  active_connections (_cleanup_disconnected M now) !! tid = Some c.
Proof.
  intros Hst Hc. unfold _cleanup_disconnected.
  apply (foldl_invariant (λ M', active_connections M' !! tid = Some c)); [|exact Hc].
  intros M' t H'. destruct (active_connections M' !! t) as [c'|] eqn:Hc'; [|done].
  destruct (bool_decide (state c' = DISCONNECTED)) eqn:Hs; [|done].
  apply bool_decide_eq_true in Hs. cbn [andb].
  destruct (bool_decide _); [|done].
  cbn [_cleanup_terminal_data active_connections]. rewrite lookup_delete_ne; [done|].
  intros ->. rewrite H' in Hc'. by injection Hc' as <-.
Qed.

Lemma broadcast_keeps M message exclude now tid c :
  state c ≠ CONNECTED →
  active_connections M !! tid = Some c →
  active_connections (broadcast M message exclude now) !! tid = Some c.
Proof.
  intros Hst Hc. unfold broadcast.
  apply (foldl_invariant (λ M', active_connections M' !! tid = Some c)); [|exact Hc].
  intros M' t H'. case_decide; [done|]. by apply send_message_keeps.
Qed.

(** X10: a connection in state [RECONNECTING] or [ERROR] is never revived
    by the manager: sends, broadcasts, buffering, flushes, heartbeats, the
    heartbeat monitor, the sweep of disconnected terminals and whatever
    happens to other terminals leave it exactly as it is, socket, retry
    count and heartbeat time included.  Only the terminal's own [connect]
    or [disconnect], or the manager's [cleanup], changes it. *)
Theorem stalled_connection_stays M (ops : list (Op W)) tid c :
  active_connections M !! tid = Some c →
  state c = RECONNECTING ∨ state c = ERROR →
  Forall (λ op, reaches tid op = false) ops →
  active_connections (run_ops M ops) !! tid = Some c.
Proof.
  intros Hc Hst Hops. unfold run_ops. revert M Hc.
  induction Hops as [|op ops Hop _ IH]; intros M Hc; [exact Hc|].
  cbn [foldl]. apply IH.
  assert (Hnc : state c ≠ CONNECTED) by (destruct Hst as [-> | ->]; discriminate).
  assert (Hnd : state c ≠ DISCONNECTED) by (destruct Hst as [-> | ->]; discriminate).
  destruct op as [t ws meta now|t code reason now|t message retry now|
                  message exclude now|t message now|t now|t now|now|now|now];
    cbn [run_op reaches] in *.
  - apply bool_decide_eq_false in Hop. by apply connect_frame.
  - apply bool_decide_eq_false in Hop. by rewrite disconnect_frame.
  - by apply send_message_keeps.
  - by apply broadcast_keeps.
  - exact Hc.
  - by apply _send_buffered_messages_keeps.
  - by apply _connection_heartbeat_keeps.
  - by apply _heartbeat_monitor_keeps.
  - by apply _cleanup_disconnected_keeps.
  - discriminate.
Qed.

End WebsocketConnections.

Lemma stalled_connection_stays_witness :
  let ops := [Websocket.OpSend "t" (Websocket.VStr "m") true (Websocket.seconds 62);
              Websocket.OpHeartbeat "t" (Websocket.seconds 63);
              Websocket.OpMonitor (Websocket.seconds 200);
              Websocket.OpSweep (Websocket.seconds 300);
              Websocket.OpFlush "t" (Websocket.seconds 301)] in
  Websocket.active_connections (Websocket.run_ops Websocket.example_stalled ops) !! "t"
  = Websocket.active_connections Websocket.example_stalled !! "t".
Proof.
  intros ops.
  destruct (Websocket.active_connections Websocket.example_stalled !! "t")
    as [c|] eqn:E; [|by vm_compute in E].
  assert (Hst : Websocket.state c = Websocket.RECONNECTING)
    by (vm_compute in E; injection E as <-; reflexivity).
  apply (stalled_connection_stays Websocket.example_stalled ops "t" c E
           (or_introl Hst)).
  repeat constructor.
Defined.

(** ** ConnectionManager: broadcast, flush and the sweep *)

Section WebsocketBroadcast.
Import Websocket.
Context {W : Type} `{!Transport W}.

Implicit Types (M : ConnectionManager W) (tid t : string) (c : ConnectionInfo W).

Lemma disconnect_buffered M t code reason now tid :
  buffered (disconnect M t code reason now).1 tid = buffered M tid.
Proof.
  unfold disconnect. destruct (active_connections M !! t) as [c|]; [|done].
  destruct (if decide _ then _ else _) as [w [[]|e]]; cbn [fst]; [|done].
  cbn [set_connection message_buffer].
  destruct (message_buffer M !! t) eqn:Hb; [done|].
  unfold buffered. cbn [set_buffer message_buffer].
  destruct (decide (t = tid)) as [<-|Hne].
  - by rewrite lookup_insert_eq, Hb.
  - by rewrite lookup_insert_ne.
Qed.

Lemma _handle_connection_error_buffered M t error now tid :
  buffered (_handle_connection_error M t error now) tid = buffered M tid.
Proof.
  unfold _handle_connection_error.
  destruct (active_connections M !! t) as [c|]; [|done].
  case_decide; [|done]. by rewrite disconnect_buffered.
Qed.

Lemma _handle_disconnect_buffered M t now tid :
  buffered (_handle_disconnect M t now) tid = buffered M tid.
Proof. unfold _handle_disconnect. by destruct (active_connections M !! t). Qed.

(** With [retry=False] a send buffers nothing, whether it gets through,
    fails, or finds the terminal away. *)
Lemma send_message_no_retry_buffered M t message now tid :
  buffered (send_message M t message false now).1 tid = buffered M tid.
Proof.
  unfold send_message.
  destruct (active_connections M !! t) as [c|]; [|done].
  destruct (negb _); [done|].
  destruct (ws_send_json _ _) as [w [[]|e]]; [done|].
  destruct e; cbn [fst buffer_if];
    by rewrite ?_handle_disconnect_buffered, ?_handle_connection_error_buffered.
Qed.

(** X11: a broadcast queues nothing.  Every terminal's waiting messages are
    the same after the call as before, so a terminal that is not connected
    when the broadcast is made never gets it; a send with [retry=True] to
    such a terminal, in contrast, appends the message to its buffer.  The
    connections of excluded terminals are left as they are. *)
Theorem broadcast_never_buffers M (message : Value) (exclude : gset string) (now : Z) :
  let M' := broadcast M message exclude now in
  (∀ tid, buffered M' tid = buffered M tid)
  ∧ (∀ tid, tid ∈ exclude →
       active_connections M' !! tid = active_connections M !! tid)
  ∧ (∀ tid, get_connection_state M tid ≠ Some CONNECTED →
       buffered (send_message M tid message true now).1 tid
       = py_suffix BUFFER_LIMIT (buffered M tid ++ [_prepare_message message now])).
Proof.
  intros M'. subst M'. unfold broadcast. split; [|split].
  - intros tid.
    apply (foldl_invariant (λ M', buffered M' tid = buffered M tid)); [|done].
    intros M' t H'. case_decide; [done|]. by rewrite send_message_no_retry_buffered.
  - intros tid Hex.
    apply (foldl_invariant
             (λ M', active_connections M' !! tid = active_connections M !! tid));
      [|done].
    intros M' t H'. case_decide as Ht; [done|].
    rewrite send_message_frame; [done|]. by intros ->.
  - intros tid Hst. rewrite send_message_not_connected.
    + cbn [fst buffer_if]. unfold buffered at 1.
      by rewrite _buffer_message_lookup.
    + intros c Hc Hs. apply Hst. unfold get_connection_state. by rewrite Hc, <- Hs.
Qed.

Lemma step_cleanup_disconnected M now t :
  let M1 := match active_connections M !! t with
            | Some connection =>
                if bool_decide (state connection = DISCONNECTED)
                   && bool_decide (seconds RECONNECT_TIMEOUT
                                     < now - last_heartbeat connection)%Z
                then _cleanup_terminal_data M t
                else M
            | None => M
            end in
  ∀ tid,
    active_connections M1 !! tid
    = (if decide (t = tid)
       then (if stale now (active_connections M !! tid) then None
             else active_connections M !! tid)
       else active_connections M !! tid)
    ∧ message_buffer M1 !! tid
      = (if decide (t = tid)
         then (if stale now (active_connections M !! tid) then None
               else message_buffer M !! tid)
         else message_buffer M !! tid).
Proof.
  intros M1 tid. subst M1. unfold stale.
  destruct (decide (t = tid)) as [<-|Hne].
  - destruct (active_connections M !! t) as [c|] eqn:Hc; [|by rewrite Hc].
    destruct (_ && _); [|by rewrite Hc].
    cbn [_cleanup_terminal_data active_connections message_buffer].
    by rewrite !lookup_delete_eq.
  - destruct (active_connections M !! t) as [c|]; [|done].
    destruct (_ && _); [|done].
    cbn [_cleanup_terminal_data active_connections message_buffer].
    by rewrite !lookup_delete_ne.
Qed.

Lemma fold_cleanup_disconnected (l : list string) M now :
  NoDup l →
  let M' := foldl (λ M' tid,
               match active_connections M' !! tid with
               | Some connection =>
                   if bool_decide (state connection = DISCONNECTED)
                      && bool_decide (seconds RECONNECT_TIMEOUT
                                        < now - last_heartbeat connection)%Z
                   then _cleanup_terminal_data M' tid
                   else M'
               | None => M'
               end) M l in
  ∀ tid,
    active_connections M' !! tid
    = (if bool_decide (tid ∈ l) && stale now (active_connections M !! tid)
       then None else active_connections M !! tid)
    ∧ message_buffer M' !! tid
      = (if bool_decide (tid ∈ l) && stale now (active_connections M !! tid)
         then None else message_buffer M !! tid).
Proof.
  revert M. induction l as [|t l IH]; intros M Hnd M' tid; subst M'.
  { cbn [foldl]. rewrite bool_decide_eq_false_2 by apply not_elem_of_nil. done. }
  apply NoDup_cons in Hnd as [Ht Hnd]. cbn [foldl].
  match goal with
  | |- context [foldl _ ?M1 l] => destruct (IH M1 Hnd tid) as [IH1 IH2]
  end.
  rewrite IH1, IH2. clear IH1 IH2.
  destruct (step_cleanup_disconnected M now t tid) as [H1 H2]. rewrite H1, H2.
  clear H1 H2.
  destruct (decide (t = tid)) as [<-|Hne].
  - rewrite (bool_decide_eq_false_2 (t ∈ l)) by done.
    rewrite (bool_decide_eq_true_2 (t ∈ t :: l)) by (by left). done.
  - destruct (decide (tid ∈ l)) as [Hin|Hnin].
    + rewrite !bool_decide_eq_true_2; [done|by right|done].
    + rewrite !bool_decide_eq_false_2; [done| |done].
      intros [?|?]%elem_of_cons; done.
Qed.

(** X12: a sweep of [_cleanup_disconnected] forgets exactly the terminals
    that are [DISCONNECTED] with a last heartbeat more than 60 seconds old,
    and with each of them the messages buffered for it; every other
    connection and buffer is left as it is. *)
Theorem _cleanup_disconnected_forgets_stale M (now : Z) tid :
  let M' := _cleanup_disconnected M now in
  active_connections M' !! tid
  = (if stale now (active_connections M !! tid) then None
     else active_connections M !! tid)
  ∧ message_buffer M' !! tid
    = (if stale now (active_connections M !! tid) then None
       else message_buffer M !! tid)
  ∧ (∀ c, active_connections M !! tid = Some c →
       stale now (Some c) = true
       ↔ state c = DISCONNECTED
         ∧ (60 * 1000000 < now - last_heartbeat c)%Z).
Proof.
  intros M'. subst M'. unfold _cleanup_disconnected.
  destruct (fold_cleanup_disconnected (map_to_list (active_connections M)).*1 M now
              (NoDup_fst_map_to_list _) tid) as [H1 H2].
  rewrite H1, H2. clear H1 H2.
  assert (Hin : stale now (active_connections M !! tid) = true →
                bool_decide (tid ∈ (map_to_list (active_connections M)).*1) = true).
  { destruct (active_connections M !! tid) as [c|] eqn:Hc; [|discriminate].
    intros _. apply bool_decide_eq_true_2, list_elem_of_fmap.
    exists (tid, c). split; [done|]. by apply elem_of_map_to_list. }
  split; [|split].
  - destruct (stale now _); [by rewrite Hin|by rewrite andb_false_r].
  - destruct (stale now _); [by rewrite Hin|by rewrite andb_false_r].
  - intros c _. cbn [stale]. rewrite andb_true_iff, !bool_decide_eq_true.
    unfold seconds, RECONNECT_TIMEOUT. done.
Qed.

End WebsocketBroadcast.

Lemma broadcast_never_buffers_witness :
  let M' := Websocket.broadcast Websocket.example_two (Websocket.VStr "news")
              {["a"]} 3%Z in
  length (Websocket.buffered M' "b") = 1
  ∧ Websocket.active_connections M' !! "a"
    = Websocket.active_connections Websocket.example_two !! "a".
Proof.
  intros M'.
  destruct (broadcast_never_buffers Websocket.example_two (Websocket.VStr "news")
              {["a"]} 3%Z) as (H1 & H2 & _).
  fold M' in H1, H2. rewrite H1. split; [vm_compute; reflexivity|].
  apply H2, elem_of_singleton. reflexivity.
Defined.

Lemma _cleanup_disconnected_forgets_stale_witness :
  let M' := Websocket._cleanup_disconnected Websocket.example_two
              (Websocket.seconds 61) in
  Websocket.active_connections M' !! "b" = None
  ∧ Websocket.message_buffer M' !! "b" = None
  ∧ Websocket.active_connections M' !! "a"
    = Websocket.active_connections Websocket.example_two !! "a".
Proof.
  intros M'.
  destruct (_cleanup_disconnected_forgets_stale Websocket.example_two
              (Websocket.seconds 61) "b") as (H1 & H2 & _).
  destruct (_cleanup_disconnected_forgets_stale Websocket.example_two
              (Websocket.seconds 61) "a") as (H3 & _).
  fold M' in H1, H2, H3. rewrite H1, H2, H3.
  vm_compute. repeat split; reflexivity.
Defined.

(** ** ConnectionManager: retry counts *)

Section WebsocketRetries.
Import Websocket.
Context {W : Type} `{!Transport W}.

Implicit Types (M : ConnectionManager W) (tid t : string) (c : ConnectionInfo W).

Lemma set_connection_fresh M t c :
  (state c = CONNECTED → retry_count c = 0) →
  connected_fresh M → connected_fresh (set_connection M t c).
Proof. intros Hc HM. by apply map_Forall_insert_2. Qed.

Lemma buffer_if_fresh retry M t message now :
  connected_fresh M → connected_fresh (buffer_if retry M t message now).
Proof. by destruct retry. Qed.

Lemma disconnect_fresh M t code reason now :
  connected_fresh M → connected_fresh (disconnect M t code reason now).1.
Proof.
  intros HM. unfold disconnect.
  destruct (active_connections M !! t) as [c|] eqn:Hc; [|exact HM].
  destruct (if decide _ then _ else _) as [w [[]|e]]; cbn [fst].
  - assert (HM1 : connected_fresh
                    (set_connection M t
                       (with_last_heartbeat
                          (with_state (with_websocket c w) DISCONNECTED) now)))
      by (apply set_connection_fresh; [discriminate|exact HM]).
    by destruct (message_buffer _ !! t).
  - apply set_connection_fresh; [|exact HM]. exact (HM t c Hc).
Qed.

Lemma _handle_connection_error_fresh M t error now :
  connected_fresh M → connected_fresh (_handle_connection_error M t error now).
Proof.
  intros HM. unfold _handle_connection_error.
  destruct (active_connections M !! t) as [c|]; [|exact HM].
  case_decide.
  - apply disconnect_fresh, set_connection_fresh; [discriminate|exact HM].
  - do 2 (apply set_connection_fresh; [discriminate|]). exact HM.
Qed.

Lemma _handle_disconnect_fresh M t now :
  connected_fresh M → connected_fresh (_handle_disconnect M t now).
Proof.
  intros HM. unfold _handle_disconnect.
  destruct (active_connections M !! t) as [c|]; [|exact HM].
  apply set_connection_fresh; [discriminate|exact HM].
Qed.

Lemma send_message_fresh M t message retry now :
  connected_fresh M → connected_fresh (send_message M t message retry now).1.
Proof.
  intros HM. unfold send_message.
  destruct (active_connections M !! t) as [c|] eqn:Hc;
    [|by apply buffer_if_fresh].
  destruct (negb _); [by apply buffer_if_fresh|].
  assert (HM1 : ∀ w, connected_fresh (set_connection M t (with_websocket c w)))
    by (intros w; apply set_connection_fresh; [exact (HM t c Hc)|exact HM]).
  destruct (ws_send_json _ _) as [w [[]|e]]; [apply HM1|].
  destruct e; cbn [fst]; apply buffer_if_fresh;
    first [ apply _handle_disconnect_fresh
          | apply _handle_connection_error_fresh ]; apply HM1.
Qed.

Lemma _send_buffered_messages_fresh M t now :
  connected_fresh M → connected_fresh (_send_buffered_messages M t now).
Proof.
  intros HM. unfold _send_buffered_messages.
  destruct (message_buffer M !! t) as [[|m ms]|]; try exact HM.
  apply (foldl_invariant connected_fresh); [|exact HM].
  intros M' m'. apply send_message_fresh.
Qed.

Lemma run_op_fresh M (op : Op W) :
  connected_fresh M → connected_fresh (run_op M op).
Proof.
  intros HM. destruct op; cbn [run_op].
  - unfold connect. destruct (ws_accept ws) as [w [[]|e]]; cbn [fst].
    + apply _send_buffered_messages_fresh.
      apply (set_connection_fresh M); [reflexivity|exact HM].
    + by apply _handle_connection_error_fresh.
  - by apply disconnect_fresh.
  - by apply send_message_fresh.
  - unfold broadcast. apply (foldl_invariant connected_fresh); [|exact HM].
    intros M' t H'. case_decide; [exact H'|by apply send_message_fresh].
  - exact HM.
  - by apply _send_buffered_messages_fresh.
  - unfold _connection_heartbeat.
    destruct (active_connections M !! tid) as [c|] eqn:Hc; [|exact HM].
    destruct (bool_decide _); [|exact HM].
    destruct (ws_send_json _ _) as [w [[]|e]].
    + apply set_connection_fresh; [exact (HM tid c Hc)|exact HM].
    + apply _handle_connection_error_fresh, set_connection_fresh;
        [exact (HM tid c Hc)|exact HM].
  - unfold _heartbeat_monitor. apply (foldl_invariant connected_fresh); [|exact HM].
    intros M' t H'. destruct (active_connections M' !! t) as [c|]; [|exact H'].
    destruct (_ && _); [by apply _handle_connection_error_fresh|exact H'].
  - unfold _cleanup_disconnected. apply (foldl_invariant connected_fresh); [|exact HM].
    intros M' t H'. destruct (active_connections M' !! t) as [c|]; [|exact H'].
    destruct (_ && _); [|exact H'].
    unfold connected_fresh, _cleanup_terminal_data. cbn [active_connections].
    by apply map_Forall_delete.
  - unfold cleanup, connected_fresh, delete_all. cbn [active_connections].
    apply map_Forall_empty.
Qed.

(** X13: in every manager reached from a fresh one, a connection in state
    [CONNECTED] has a retry count of zero, so an error on a live
    connection (a failed send, a failed or missed heartbeat) never closes
    its socket: it leaves the connection [RECONNECTING] with one retry
    counted.  The disconnect after "Max retries exceeded" is out of reach of
    a live connection. *)
Theorem live_connection_has_no_retries (ops : list (Op W)) tid c :
  let M := run_ops init ops in
  active_connections M !! tid = Some c →
  state c = CONNECTED →
  retry_count c = 0
  ∧ ∀ (error : string) (now : Z),
      active_connections (_handle_connection_error M tid error now) !! tid
      = Some (with_state (with_retry_count (with_state c ERROR) 1) RECONNECTING).
Proof.
  intros M Hc Hst.
  assert (HM : connected_fresh M).
  { subst M. unfold run_ops. apply (foldl_invariant connected_fresh).
    - intros M' op. apply run_op_fresh.
    - apply map_Forall_empty. }
  pose proof (HM tid c Hc Hst) as Hretry. split; [exact Hretry|].
  intros error now. unfold _handle_connection_error. rewrite Hc.
  cbn [retry_count with_retry_count with_state]. rewrite Hretry.
  rewrite decide_False by (unfold MAX_RETRY_ATTEMPTS; lia).
  cbn [active_connections set_connection]. by rewrite lookup_insert_eq.
Qed.

End WebsocketRetries.

Lemma live_connection_has_no_retries_witness :
  let M := Websocket.run_ops Websocket.init
             [Websocket.OpConnect "t" Websocket.new_socket None 0%Z;
              Websocket.OpHeartbeat "t" 5%Z] in
  (Websocket.state <$>
     Websocket.active_connections
       (Websocket._handle_connection_error M "t" "Heartbeat timeout" 70%Z) !! "t")
  = Some Websocket.RECONNECTING.
Proof.
  intros M.
  destruct (Websocket.active_connections M !! "t") as [c|] eqn:E;
    [|by vm_compute in E].
  assert (Hst : Websocket.state c = Websocket.CONNECTED)
    by (vm_compute in E; injection E as <-; reflexivity).
  destruct (live_connection_has_no_retries
              [Websocket.OpConnect "t" Websocket.new_socket None 0%Z;
               Websocket.OpHeartbeat "t" 5%Z] "t" c E Hst) as [_ H].
  fold M in H. rewrite H. reflexivity.
Defined.

(** ** ConnectionManager: delivery over a recording socket *)

Section WebsocketDelivery.
Import Websocket.

Implicit Types (M : ConnectionManager Socket) (tid t : string)
  (c : ConnectionInfo Socket).

(** The socket after one more message went through it. *)
Lemma send_message_delivers M tid c (message : Value) (retry : bool) (now : Z) :
  active_connections M !! tid = Some c →
  state c = CONNECTED →
  sock_closed (websocket c) = None →
  send_message M tid message retry now
  = (set_connection M tid
       (with_websocket c
          {| sock_client_state := sock_client_state (websocket c);
             sock_closed := None;
             sock_sent := sock_sent (websocket c) ++ [_prepare_message message now] |}),
     true).
Proof.
  intros Hc Hst Hopen. unfold send_message. rewrite Hc, Hst.
  rewrite bool_decide_eq_true_2 by done. cbn [negb].
  cbn [ws_send_json Socket_transport]. rewrite Hopen. reflexivity.
Qed.

Lemma flush_fold (msgs : list Dict) M tid c (now : Z) :
  active_connections M !! tid = Some c →
  state c = CONNECTED →
  sock_closed (websocket c) = None →
  let M' := foldl (λ M' message, (send_message M' tid (VDict message) true now).1)
                  M msgs in
  message_buffer M' = message_buffer M
  ∧ (∀ t, t ≠ tid → active_connections M' !! t = active_connections M !! t)
  ∧ ∃ c', active_connections M' !! tid = Some c'
          ∧ state c' = CONNECTED
          ∧ retry_count c' = retry_count c
          ∧ last_heartbeat c' = last_heartbeat c
          ∧ sock_closed (websocket c') = None
          ∧ sock_sent (websocket c')
            = sock_sent (websocket c)
                ++ ((λ m, _prepare_message (VDict m) now) <$> msgs).
Proof.
  revert M c. induction msgs as [|m msgs IH]; intros M c Hc Hst Hopen M'; subst M'.
  { cbn [foldl fmap list_fmap]. split; [done|]. split; [done|].
    exists c. by rewrite app_nil_r. }
  cbn [foldl]. rewrite (send_message_delivers M tid c (VDict m) true now Hc Hst Hopen).
  cbn [fst].
  set (c1 := with_websocket c _). set (M1 := set_connection M tid c1).
  destruct (IH M1 c1) as (Hbuf & Hframe & c' & Hc' & Hst' & Hr' & Hh' & Ho' & Hs').
  { subst M1. cbn [active_connections set_connection]. apply lookup_insert_eq. }
  { exact Hst. }
  { reflexivity. }
  split; [exact Hbuf|]. split.
  - intros t Ht. rewrite (Hframe t Ht). subst M1.
    cbn [active_connections set_connection]. by rewrite lookup_insert_ne.
  - exists c'. repeat (split; [done|]).
    rewrite Hs'. subst c1. cbn [websocket with_websocket sock_sent fmap list_fmap].
    by rewrite <- app_assoc.
Qed.

(** X14: called on a connected terminal whose socket is open,
    [_send_buffered_messages] empties the terminal's buffer and sends the
    buffered messages through the socket in the order they were buffered,
    each stamped again with the time of the flush; the connection stays
    [CONNECTED] and no other terminal is touched. *)
Theorem flush_delivers_in_order M tid c (msgs : list Dict) (now : Z) :
  active_connections M !! tid = Some c →
  state c = CONNECTED →
  sock_closed (websocket c) = None →
  message_buffer M !! tid = Some msgs →
  let M' := _send_buffered_messages M tid now in
  message_buffer M' !! tid = Some []
  ∧ (∀ t, t ≠ tid →
       active_connections M' !! t = active_connections M !! t
       ∧ message_buffer M' !! t = message_buffer M !! t)
  ∧ ∃ c', active_connections M' !! tid = Some c'
          ∧ state c' = CONNECTED
          ∧ retry_count c' = retry_count c
          ∧ last_heartbeat c' = last_heartbeat c
          ∧ sock_sent (websocket c')
            = sock_sent (websocket c)
                ++ ((λ m, _prepare_message (VDict m) now) <$> msgs).
Proof.
  intros Hc Hst Hopen Hbuf M'. subst M'. unfold _send_buffered_messages.
  unfold Dict in *. rewrite Hbuf. destruct msgs as [|m msgs].
  { split; [exact Hbuf|]. split; [done|]. exists c. by rewrite app_nil_r. }
  cbv beta iota.
  destruct (flush_fold (m :: msgs) (set_buffer M tid []) tid c now Hc Hst Hopen)
    as (Hb & Hframe & c' & Hc' & Hst' & Hr' & Hh' & _ & Hs').
  unfold Dict in *. split; [|split].
  - rewrite Hb. cbn [message_buffer set_buffer]. apply lookup_insert_eq.
  - intros t Ht. split; [by apply Hframe|].
    rewrite Hb. cbn [message_buffer set_buffer]. by rewrite lookup_insert_ne.
  - exists c'. done.
Qed.

Lemma dict_get_set (d : Dict) (k k' : string) (v : Value) :
  dict_get (dict_set d k v) k'
  = if decide (k = k') then Some v else dict_get d k'.
Proof.
  induction d as [|[k0 v0] d IH]; cbn [dict_set dict_get].
  - done.
  - destruct (decide (k0 = k)) as [->|Hne]; cbn [dict_get].
    + by destruct (decide (k = k')).
    + rewrite IH. destruct (decide (k0 = k')) as [->|]; [|done].
      by rewrite decide_False.
Qed.

(** X15: [_prepare_message] stamps whatever it is given: the result has
    the type ["message"] and the current time under ["timestamp"],
    overwriting such entries of a dictionary passed in, whose other entries
    are kept; a string becomes the ["content"] and any other value the
    ["data"] of a new dictionary. *)
Theorem _prepare_message_stamps (message : Value) (now : Z) :
  let d := _prepare_message message now in
  dict_get d "type" = Some (VStr "message")
  ∧ dict_get d "timestamp" = Some (VTime now)
  ∧ (∀ k, k ≠ "type" → k ≠ "timestamp" →
       dict_get d k
       = match message with
         | VStr _ => if decide (k = "content") then Some message else None
         | VDict m => dict_get m k
         | _ => if decide (k = "data") then Some message else None
         end)
  ∧ ∀ now', dict_get (_prepare_message (VDict d) now') "timestamp"
            = Some (VTime now').
Proof.
  intros d. subst d. unfold _prepare_message, dict_update. cbn [foldl fst snd].
  split; [by rewrite dict_get_set|].
  split; [by rewrite !dict_get_set|].
  split.
  - intros k Hk1 Hk2. rewrite !dict_get_set.
    rewrite !decide_False by done.
    destruct message; cbn [dict_get]; try done.
    + destruct (decide ("content" = k)) as [<-|]; [by rewrite decide_True|].
      by rewrite decide_False.
    + destruct (decide ("data" = k)) as [<-|]; [by rewrite decide_True|].
      by rewrite decide_False.
    + destruct (decide ("data" = k)) as [<-|]; [by rewrite decide_True|].
      by rewrite decide_False.
  - intros now'. by rewrite !dict_get_set.
Qed.

End WebsocketDelivery.

Lemma flush_delivers_in_order_witness :
  let M := Websocket._buffer_message
             (Websocket._buffer_message Websocket.example_connected "t"
                (Websocket.VStr "m1") 1%Z)
             "t" (Websocket.VStr "m2") 2%Z in
  let M' := Websocket._send_buffered_messages M "t" 3%Z in
  Websocket.message_buffer M' !! "t" = Some []
  ∧ (map (λ d, Websocket.dict_get d "content") ∘ Websocket.sock_sent
       ∘ Websocket.websocket <$> Websocket.active_connections M' !! "t")
    = Some [Some (Websocket.VStr "m1"); Some (Websocket.VStr "m2")].
Proof.
  intros M M'.
  destruct (Websocket.active_connections M !! "t") as [c|] eqn:E;
    [|by vm_compute in E].
  assert (Hst : Websocket.state c = Websocket.CONNECTED)
    by (vm_compute in E; injection E as <-; reflexivity).
  assert (Hopen : Websocket.sock_closed (Websocket.websocket c) = None)
    by (vm_compute in E; injection E as <-; reflexivity).
  assert (Hsent : Websocket.sock_sent (Websocket.websocket c) = [])
    by (vm_compute in E; injection E as <-; reflexivity).
  destruct (Websocket.message_buffer M !! "t") as [msgs|] eqn:B;
    [|by vm_compute in B].
  destruct (flush_delivers_in_order M "t" c msgs 3%Z E Hst Hopen B)
    as (H1 & _ & c' & Hc' & _ & _ & _ & Hs').
  fold M' in H1, Hc'. split; [exact H1|].
  rewrite Hc'. cbn [fmap option_fmap option_map compose]. rewrite Hs', Hsent.
  vm_compute in B. injection B as <-. vm_compute. reflexivity.
Defined.

(** ** ConversationService: what counts against the rate limit *)

Section RateLimitWindow.
Import ConversationService.

Implicit Types (S : Service) (env : Env).

Lemma _check_rate_limit_state S (sender : string) (now : Z) :
  (_check_rate_limit S sender now).1
  = {| rate_limits := <[sender := in_window S sender now]> (rate_limits S);
       metrics := metrics S |}.
Proof. unfold _check_rate_limit. by case_decide. Qed.

Lemma _check_rate_limit_outcome S (sender : string) (now : Z) :
  (_check_rate_limit S sender now).2
  = if decide (MAX_MESSAGES_PER_WINDOW ≤ length (in_window S sender now))
    then Raised (ConversationRateLimitError "Rate limit exceeded")
    else Returned tt.
Proof. unfold _check_rate_limit, in_window. by case_decide. Qed.

(** The state and outcome of the [try] block, by how far the call gets. *)
Lemma add_message_body_cases S (cid content sender : string) env :
  let window := in_window S sender (now_check env) in
  let r := add_message_body S cid content sender env in
  rate_limits r.1
  = <[sender := window ++ (if counted S sender env then [now_record env] else [])]>
      (rate_limits S)
  ∧ (counted S sender env = true →
       r.2 = match commit env with
             | Returned _ => Returned (message_uuid env)
             | Raised e => Raised e
             end)
  ∧ (counted S sender env = false → returned r.2 = false)
  ∧ (MAX_MESSAGES_PER_WINDOW ≤ length window →
       r.2 = Raised (ConversationRateLimitError "Rate limit exceeded")).
Proof.
  intros window r. subst r. unfold add_message_body, counted.
  pose proof (_check_rate_limit_state S sender (now_check env)) as Hst.
  pose proof (_check_rate_limit_outcome S sender (now_check env)) as Hout.
  destruct (_check_rate_limit S sender (now_check env)) as [S1 o].
  cbn [fst snd] in Hst, Hout. subst S1 o. fold window.
  destruct (decide (MAX_MESSAGES_PER_WINDOW ≤ length window)) as [Hfull|Hroom].
  { rewrite bool_decide_eq_false_2 by lia. cbn [andb fst snd rate_limits].
    rewrite app_nil_r. done. }
  rewrite bool_decide_eq_true_2 by lia. cbn [andb].
  destruct (conversation env) as [[st|]|e]; cbn [fst snd rate_limits returned];
    try (rewrite app_nil_r; split; [done|]; split; [done|]; split; [done|lia]).
  destruct st; cbn [negb bool_decide decide_rel];
    try (rewrite bool_decide_eq_false_2 by discriminate; cbn [negb fst snd rate_limits];
         rewrite app_nil_r; split; [done|]; split; [done|]; split; [done|lia]).
  rewrite bool_decide_eq_true_2 by done. cbn [negb].
  destruct (store env) as [[]|e]; cbn [fst snd rate_limits returned andb].
  2:{ rewrite app_nil_r. split; [done|]. split; [done|]. split; [done|lia]. }
  unfold _update_rate_limit. cbn [rate_limits]. rewrite lookup_insert_eq.
  destruct (commit env) as [[]|e]; cbn [fst snd rate_limits increment];
    (rewrite insert_insert_eq; split; [done|]; split; [done|]; split; [done|lia]).
Qed.

(** [add_message] leaves the state its [try] block leaves, and passes the
    block's outcome on, a database error apart. *)
Lemma add_message_state S (cid content sender : string) env :
  (add_message S cid content sender env).1
  = (add_message_body S cid content sender env).1.
Proof.
  unfold add_message.
  destruct (add_message_body S cid content sender env) as [S' [m|e]]; [done|].
  by destruct e.
Qed.

Lemma add_message_outcome S (cid content sender : string) env :
  (add_message S cid content sender env).2
  = match (add_message_body S cid content sender env).2 with
    | Raised SQLAlchemyError =>
        Raised (ConversationServiceError "Failed to add message")
    | o => o
    end.
Proof.
  unfold add_message.
  destruct (add_message_body S cid content sender env) as [S' [m|e]]; [done|].
  by destruct e.
Qed.

(** X16: what counts against a sender's rate limit.  A call first drops
    the sender's timestamps that are 60 seconds old or older; it adds the
    time of the call exactly when the limit check passes, the conversation is
    found active and the message is stored, even when the commit then fails
    and the call raises.  Calls that are turned away earlier leave no
    timestamp, other senders' records are not touched, and a call made with
    100 timestamps inside the window raises [ConversationRateLimitError]. *)
Theorem add_message_counts S (cid content sender : string) env :
  let window := in_window S sender (now_check env) in
  let r := add_message S cid content sender env in
  rate_limits r.1 !! sender
  = Some (window ++ (if counted S sender env then [now_record env] else []))
  ∧ (∀ t, t ≠ sender → rate_limits r.1 !! t = rate_limits S !! t)
  ∧ (returned r.2 = true ↔ counted S sender env = true ∧ returned (commit env) = true)
  ∧ (returned r.2 = true → r.2 = Returned (message_uuid env))
  ∧ (MAX_MESSAGES_PER_WINDOW ≤ length window →
       r.2 = Raised (ConversationRateLimitError "Rate limit exceeded")).
Proof.
  intros window r.
  destruct (add_message_body_cases S cid content sender env)
    as (Hrl & Hcounted & Hnot & Hfull).
  fold window in Hrl, Hfull.
  pose proof (add_message_state S cid content sender env) as Hst.
  pose proof (add_message_outcome S cid content sender env) as Hout.
  fold r in Hst, Hout.
  split; [rewrite Hst, Hrl; apply lookup_insert_eq|].
  split; [intros t Ht; rewrite Hst, Hrl; by rewrite lookup_insert_ne|].
  split; [|split].
  - rewrite Hout. destruct (counted S sender env) eqn:Hc.
    + rewrite (Hcounted eq_refl).
      destruct (commit env) as [[]|e]; cbn [returned]; [tauto|].
      destruct e; cbn [returned]; split; intros; try discriminate;
        destruct H as [_ ?]; discriminate.
    + specialize (Hnot eq_refl).
      destruct (add_message_body S cid content sender env).2 as [m|e];
        [discriminate|].
      destruct e; cbn [returned];
        split; intros; try discriminate; destruct H as [? _]; discriminate.
  - rewrite Hout. destruct (counted S sender env) eqn:Hc.
    + rewrite (Hcounted eq_refl).
      destruct (commit env) as [[]|e]; [done|]. by destruct e.
    + specialize (Hnot eq_refl).
      destruct (add_message_body S cid content sender env).2 as [m|e];
        [discriminate|].
      by destruct e.
  - intros Hlen. by rewrite Hout, (Hfull Hlen).
Qed.


(** X18: the limit is a sliding window that closes by itself.  When every
    timestamp on a sender's record is at least 60 seconds old, the next call
    that is otherwise in order is accepted however many timestamps there
    were, and the record then holds the time of that call alone. *)
Theorem rate_limit_recovers S (cid content sender : string) env :
  Forall (λ ts, (ts + seconds RATE_LIMIT_WINDOW ≤ now_check env)%Z)
         (default [] (rate_limits S !! sender)) →
  accepted env →
  let r := add_message S cid content sender env in
  r.2 = Returned (message_uuid env)
  ∧ rate_limits r.1 !! sender = Some [now_record env].
Proof.
  intros Hold (Hconv & Hstore & Hcommit) r.
  assert (Hwin : in_window S sender (now_check env) = []).
  { unfold in_window. apply filter_none.
    eapply Forall_impl; [exact Hold|]. cbn. intros ts Hts. lia. }
  assert (Hc : counted S sender env = true).
  { unfold counted. rewrite Hwin, Hconv, Hstore.
    rewrite bool_decide_eq_true_2; [done|]. unfold MAX_MESSAGES_PER_WINDOW.
    cbn [length]. lia. }
  destruct (add_message_body_cases S cid content sender env) as (Hrl & Hcounted & _).
  rewrite Hwin, Hc in Hrl. specialize (Hcounted Hc). rewrite Hcommit in Hcounted.
  subst r. rewrite add_message_outcome, add_message_state, Hcounted, Hrl.
  split; [reflexivity|]. apply lookup_insert_eq.
Qed.

End RateLimitWindow.


Lemma rate_limit_recovers_witness :
  let S := ConversationService.mkService {[ "s" := [0; 1; 2]%Z ]} [] in
  let r := ConversationService.add_message S "c" "hello" "s"
             (ConversationService.example_env 0) in
  r.2 = Returned "0"
  ∧ ConversationService.rate_limits r.1 !! "s" = Some [43200000007%Z].
Proof.
  intros S r.
  assert (Hold : Forall (λ ts, (ts + ConversationService.seconds
                                       ConversationService.RATE_LIMIT_WINDOW
                                ≤ ConversationService.now_check
                                    (ConversationService.example_env 0))%Z)
                   (default [] (ConversationService.rate_limits S !! "s"))).
  { replace (default [] (ConversationService.rate_limits S !! "s"))
      with [0; 1; 2]%Z by (vm_compute; reflexivity).
    repeat constructor;
      (unfold ConversationService.seconds, ConversationService.RATE_LIMIT_WINDOW;
       cbn; lia). }
  assert (Hacc : ConversationService.accepted (ConversationService.example_env 0))
    by (repeat split).
  exact (rate_limit_recovers S "c" "hello" "s" (ConversationService.example_env 0)
           Hold Hacc).
Defined.

(** ** MessagingService: what a send does, and what the service holds *)

Section MessagingReachable.
Import Messaging.

Implicit Types (S : Service) (q : Queue).

(** X19: [send_message] never succeeds.  Whatever the state of the service
    and whatever it is given, the call raises [MessagingError]: for a
    recipient that is not connected at once and with the service untouched,
    and otherwise because the message cannot be built, after an identifier
    was drawn and before anything is recorded or queued.  No entry is
    written, no queue changes and no counter is incremented. *)
Theorem send_message_always_raises S (sender recipient content : string)
    (p : MessagePriority) (meta : option Metadata) (tmo : option Z) (now : Z) :
  let r := send_message S sender recipient content p meta tmo now in
  (∃ msg, r.2 = Raised (MessagingError msg))
  ∧ message_states r.1 = message_states S
  ∧ message_queues r.1 = message_queues S
  ∧ terminals r.1 = terminals S
  ∧ active_connections r.1 = active_connections S
  ∧ metrics r.1 = metrics S
  ∧ (recipient ∉ active_connections S →
       r = (S, Raised (MessagingError
                         "Message sending failed: Recipient terminal not connected")))
  ∧ (recipient ∈ active_connections S → next_uuid r.1 = N.succ (next_uuid S)).
Proof.
  intros r. subst r.
  destruct (send_message_raises S sender recipient content p meta tmo now) as [msg Hr].
  split; [exists msg; by rewrite Hr|].
  rewrite Hr. cbn [fst].
  destruct (decide (recipient ∉ active_connections S)) as [Hout|Hin].
  - repeat (split; [reflexivity|]). split; [|done].
    intros _. rewrite <- Hr. unfold send_message, send_message_body.
    by rewrite decide_True.
  - repeat (split; [reflexivity|]). split; [done|]. intros _. reflexivity.
Qed.

(** X20: the service never holds a message.  After any calls on a fresh
    service (registrations, unregistrations, sends, worker iterations,
    sweeps, consumers) no message state is on record and every queue is
    empty; a consumer gets no message, a worker's batch is empty, and the
    only counters ever incremented are those of registration and
    unregistration. *)
Theorem service_never_holds_a_message (ops : list Op) :
  let S := run_ops init ops in
  message_states S = ∅
  ∧ map_Forall (λ _ q, items q = []) (message_queues S)
  ∧ (∀ t, get_message S t
          = (S, match message_queues S !! t with
                | Some _ => Returned None
                | None => Raised (MessagingError "Terminal not registered")
                end))
  ∧ (∀ t now, (_process_messages S t now).1.2 = [])
  ∧ Forall (λ name, name = "terminals.registered" ∨ name = "terminals.unregistered")
           (metrics S).
Proof.
  intros S. pose proof (quiet_run_ops init ops quiet_init) as HS. fold S in HS.
  split; [exact (proj1 HS)|]. split; [exact (proj1 (proj2 HS))|].
  split; [intros t; by apply quiet_get_message|].
  split; [intros t now; by apply quiet_process_messages|].
  exact (proj2 (proj2 HS)).
Qed.

(** X22: unregistering a terminal that still has messages queued, with
    [cleanup] set, fails: the call takes the first message out of the queue
    and raises [MessagingError].  The terminal is left half unregistered:
    still registered, so it cannot be registered again, but no longer
    connected, so nothing can be sent to it; the message taken out is lost
    and its entry stays on record. *)
Theorem unregister_drops_one_message_per_call S (t : string) q (m : Message)
    (rest : list Message) :
  t ∈ terminals S →
  message_queues S !! t = Some q →
  items q = m :: rest →
  let r := unregister_terminal S t true in
  (∃ msg, r.2 = Raised (MessagingError msg))
  ∧ t ∈ terminals r.1
  ∧ (t ∉ active_connections r.1)
  ∧ message_queues r.1 !! t = Some {| maxsize := maxsize q; items := rest |}
  ∧ message_states r.1 = message_states S
  ∧ (∀ size, (register_terminal r.1 t size).2
             = Raised (MessagingError
                         "Terminal registration failed: Terminal already registered"))
  ∧ (∀ sender content p meta tmo now,
       (send_message r.1 sender t content p meta tmo now).2
       = Raised (MessagingError
                   "Message sending failed: Recipient terminal not connected")).
Proof.
  intros Hin Hq Hi r. subst r. unfold unregister_terminal.
  rewrite decide_False by (intros Hn; by apply Hn).
  cbn [message_queues]. rewrite Hq. unfold get_nowait. rewrite Hi.
  cbn [wrap_error fst snd set_queue terminals active_connections message_queues
         message_states].
  split; [by eexists|]. split; [exact Hin|].
  assert (Hout : t ∉ active_connections S ∖ {[t]}).
  { intros [_ Hn]%elem_of_difference. apply Hn, elem_of_singleton. reflexivity. }
  split; [exact Hout|]. split; [apply lookup_insert_eq|]. split; [reflexivity|].
  split.
  - intros size. unfold register_terminal. cbn [terminals].
    rewrite decide_True by exact Hin. reflexivity.
  - intros sender content p meta tmo now. unfold send_message, send_message_body.
    cbn [active_connections]. rewrite decide_True by exact Hout. reflexivity.
Qed.

End MessagingReachable.

Lemma unregister_drops_one_message_per_call_witness :
  let r := Messaging.unregister_terminal Messaging.example_pending "r" true in
  (length ∘ Messaging.items <$> Messaging.message_queues r.1 !! "r") = Some 2
  ∧ returned r.2 = false.
Proof.
  intros r.
  destruct (Messaging.message_queues Messaging.example_pending !! "r")
    as [q|] eqn:E; [|by vm_compute in E].
  destruct (Messaging.items q) as [|m rest] eqn:Hi.
  { vm_compute in E. injection E as <-. discriminate Hi. }
  assert (Hin : "r" ∈ Messaging.terminals Messaging.example_pending)
    by (apply (bool_decide_unpack _); vm_compute; exact I).
  destruct (unregister_drops_one_message_per_call Messaging.example_pending "r" q m rest
              Hin E Hi) as ([msg Hmsg] & _ & _ & Hq & _).
  fold r in Hmsg, Hq. rewrite Hq, Hmsg. split; [|reflexivity].
  vm_compute in E. injection E as <-. cbn in Hi. injection Hi as <- <-. reflexivity.
Defined.

(** ** MessagingService: the sweep's counter, and registration *)

Section MessagingSweepCount.
Import Messaging.

Implicit Types (S : Service) (q : Queue).

Lemma sweep_fold_rest (l : list (N * StateEntry)) S (now : Z) :
  (∀ kv, kv ∈ l → is_Some (message_states S !! kv.1)) →
  let S' := foldl (λ S' kv, if _is_message_expired kv.2 now
                            then _handle_expired_message_state S' kv.1 else S') S l in
  message_queues S' = message_queues S
  ∧ metrics S'
    = metrics S
        ++ replicate (length (filter (λ kv, Is_true (_is_message_expired kv.2 now)) l))
             "messages.expired"
  ∧ (∀ k, message_states S !! k = None → message_states S' !! k = None).
Proof.
  revert S. induction l as [|[k e] l IH]; intros S Hl S'; subst S'.
  { cbn. by rewrite app_nil_r. }
  cbn [foldl fst snd]. destruct (_is_message_expired e now) eqn:He.
  - rewrite filter_cons_True by (cbn [snd]; by rewrite He).
    cbn [length replicate].
    destruct (Hl (k, e)) as [e0 He0]; [by left|]. cbn [fst] in He0.
    assert (Hstep : _handle_expired_message_state S k
                    = increment (set_entry S k (with_state e0 EXPIRED))
                        "messages.expired")
      by (unfold _handle_expired_message_state; by rewrite He0).
    rewrite Hstep.
    destruct (IH (increment (set_entry S k (with_state e0 EXPIRED)) "messages.expired"))
      as (H1 & H2 & H3).
    { intros kv Hkv. cbn [increment set_entry message_states].
      rewrite lookup_insert. case_decide; [by eexists|]. apply Hl. by right. }
    rewrite H1, H2. cbn [increment set_entry message_queues metrics].
    split; [done|]. split; [by rewrite <- app_assoc|].
    intros k0 Hk0. apply H3. cbn [increment set_entry message_states].
    rewrite lookup_insert_ne; [done|]. intros ->. by rewrite He0 in Hk0.
  - rewrite filter_cons_False by (cbn [snd]; rewrite He; intros []).
    apply IH. intros kv Hkv. apply Hl. by right.
Qed.

(** X24: a sweep of [_cleanup_expired_messages] marks [EXPIRED] every
    entry older than its timeout, whatever state it was in (delivered and
    failed messages included), leaves the other entries as they are and
    removes none; it touches no queue, so an expired message stays queued.
    The counter [messages.expired] goes up by one for each such entry at
    every sweep, entries expired by earlier sweeps included. *)
Theorem sweep_marks_every_expired_entry S (now : Z) :
  let S' := _cleanup_expired_messages S now in
  (∀ k, message_states S' !! k = sweep_entry now <$> message_states S !! k)
  ∧ message_queues S' = message_queues S
  ∧ metrics S'
    = metrics S
        ++ replicate
             (length (filter (λ kv : N * StateEntry,
                                Is_true (_is_message_expired kv.2 now))
                             (map_to_list (message_states S))))
             "messages.expired"
  ∧ (∀ k e, message_states S !! k = Some e →
       (seconds (timeout e) < now - created_at e)%Z →
       (state <$> message_states S' !! k) = Some EXPIRED
       ∧ (state <$> message_states (_cleanup_expired_messages S' now) !! k)
         = Some EXPIRED).
Proof.
  intros S'.
  destruct (sweep_fold_rest (map_to_list (message_states S)) S now) as (H1 & H2 & H3).
  { intros [k e] Hkv. cbn [fst]. apply elem_of_map_to_list in Hkv. by eexists. }
  fold (_cleanup_expired_messages S now) in H1, H2, H3. fold S' in H1, H2, H3.
  assert (Hlook : ∀ k, message_states S' !! k = sweep_entry now <$> message_states S !! k).
  { intros k. destruct (message_states S !! k) as [e|] eqn:Hk.
    - subst S'. by rewrite (_cleanup_expired_messages_lookup S now k e Hk).
    - by rewrite (H3 k Hk). }
  split; [exact Hlook|]. split; [exact H1|]. split; [exact H2|].
  intros k e Hk Hlate.
  assert (He : _is_message_expired e now = true)
    by (unfold _is_message_expired; by rewrite bool_decide_eq_true_2).
  assert (Hk' : message_states S' !! k = Some (with_state e EXPIRED)).
  { rewrite Hlook, Hk. cbn [fmap option_fmap option_map]. unfold sweep_entry.
    by rewrite He. }
  split; [by rewrite Hk'|].
  rewrite (_cleanup_expired_messages_lookup S' now k _ Hk').
  unfold sweep_entry. by destruct (_is_message_expired _ now).
Qed.

(** X25: registering and unregistering a terminal.  A terminal that is not
    registered is registered with an empty queue and connected; the queue's
    capacity is [queue_size], or 1000 when that is absent or zero.
    Registering it again is refused and changes nothing.  Unregistering it,
    with or without cleanup, removes the terminal and its queue again and
    leaves it not connected. *)
Theorem register_then_unregister S (t : string) (size : option Z) :
  t ∉ terminals S →
  let registered := register_terminal S t size in
  registered.2 = Returned tt
  ∧ message_queues registered.1 !! t
    = Some {| maxsize := or_default size QUEUE_SIZE; items := [] |}
  ∧ (size = None ∨ size = Some 0%Z → or_default size QUEUE_SIZE = 1000%Z)
  ∧ (∀ n, size = Some n → n ≠ 0%Z → or_default size QUEUE_SIZE = n)
  ∧ t ∈ terminals registered.1
  ∧ t ∈ active_connections registered.1
  ∧ (∀ size', register_terminal registered.1 t size'
              = (registered.1,
                 Raised (MessagingError
                           "Terminal registration failed: Terminal already registered")))
  ∧ (∀ cleanup : bool,
       let gone := unregister_terminal registered.1 t cleanup in
       gone.2 = Returned tt
       ∧ terminals gone.1 = terminals S
       ∧ message_queues gone.1 = delete t (message_queues S)
       ∧ (t ∉ active_connections gone.1)
       ∧ message_states gone.1 = message_states S).
Proof.
  intros Hnew registered.
  assert (Hreg : registered
                 = (increment
                      {| terminals := {[t]} ∪ terminals S;
                         message_queues :=
                           <[t := {| maxsize := or_default size QUEUE_SIZE;
                                     items := [] |}]> (message_queues S);
                         processing_tasks := {[t]} ∪ processing_tasks S;
                         message_states := message_states S;
                         active_connections := {[t]} ∪ active_connections S;
                         metrics := metrics S; sleeps := sleeps S;
                         next_uuid := next_uuid S |}
                      "terminals.registered",
                    Returned tt)).
  { subst registered. unfold register_terminal.
    rewrite decide_False by exact Hnew. reflexivity. }
  rewrite Hreg. clear Hreg registered. cbn [fst snd].
  assert (Hin : t ∈ {[t]} ∪ terminals S)
    by (apply elem_of_union_l, elem_of_singleton; reflexivity).
  split; [reflexivity|].
  split; [cbn [increment message_queues]; apply lookup_insert_eq|].
  split; [by intros [-> | ->]|].
  split; [intros n -> Hn; by destruct n|].
  split; [exact Hin|].
  split; [cbn [increment active_connections]; apply elem_of_union_l, elem_of_singleton;
          reflexivity|].
  split.
  - intros size'. unfold register_terminal. cbn [increment terminals].
    rewrite decide_True by exact Hin. reflexivity.
  - intros cleanup. unfold unregister_terminal. cbn [increment terminals].
    rewrite decide_False by (intros Hn; by apply Hn).
    assert (Hout : t ∉ ({[t]} ∪ active_connections S) ∖ {[t]}).
    { intros [_ Hn]%elem_of_difference. apply Hn, elem_of_singleton. reflexivity. }
    assert (Hterm : ({[t]} ∪ terminals S) ∖ {[t]} = terminals S).
    { rewrite difference_union_distr_l_L, difference_diag_L, union_empty_l_L.
      apply difference_disjoint_L, disjoint_singleton_r, Hnew. }
    destruct cleanup; cbv zeta; cbn [increment message_queues active_connections].
    + rewrite lookup_insert_eq. unfold get_nowait.
      cbn [items wrap_error fst snd increment terminals message_queues
             active_connections message_states].
      split; [reflexivity|]. split; [exact Hterm|].
      split; [by rewrite delete_insert_eq|]. split; [exact Hout|reflexivity].
    + cbn [items wrap_error fst snd increment terminals message_queues
             active_connections message_states].
      split; [reflexivity|]. split; [exact Hterm|].
      split; [by rewrite delete_insert_eq|]. split; [exact Hout|reflexivity].
Qed.

End MessagingSweepCount.

Lemma register_then_unregister_witness :
  let registered := Messaging.register_terminal Messaging.init "r" (Some 0%Z) in
  let gone := Messaging.unregister_terminal registered.1 "r" true in
  (Messaging.maxsize <$> Messaging.message_queues registered.1 !! "r") = Some 1000%Z
  ∧ gone.2 = Returned tt
  ∧ Messaging.message_queues gone.1 = ∅.
Proof.
  intros registered gone.
  assert (Hnew : "r" ∉ Messaging.terminals Messaging.init) by apply not_elem_of_empty.
  destruct (register_then_unregister Messaging.init "r" (Some 0%Z) Hnew)
    as (_ & H2 & _ & _ & _ & _ & _ & H8).
  fold registered in H2, H8. rewrite H2. split; [reflexivity|].
  destruct (H8 true) as (H9 & _ & H10 & _). fold gone in H9, H10.
  split; [exact H9|]. rewrite H10. apply delete_empty.
Defined.
